(** * firewall_lib: reconciliation of firewalld zone settings

    A shallow embedding of [library/firewall_lib.py].  The module parses
    its parameters, validates the option combinations, connects to
    firewalld (or falls back to the offline configuration), and then
    walks the rule kinds in a fixed order, querying each plane and adding
    or removing what disagrees with the requested state.

    Python values are modelled as follows: a parameter whose default is
    [None] is an [option]; truthiness of such a value is [truthy];
    [module.fail_json] ends the run with [FailJson msg]; an uncaught
    Python exception ends it with [Raised e]; [module.exit_json
    (changed=c)] is the normal result [Ok c]. *)

From Stdlib Require Import List String Ascii ZArith Bool Lia.
From Stdlib Require Import Sorted.
Import ListNotations.
Local Open Scope string_scope.
Local Open Scope Z_scope.
Local Open Scope list_scope.

(** ** Results of a run *)

Inductive pyexc : Type :=
| ValueError (msg : string).

Inductive result (A : Type) : Type :=
| Ok (a : A)
| FailJson (msg : string)
| Raised (e : pyexc).
Arguments Ok {A} a.
Arguments FailJson {A} msg.
Arguments Raised {A} e.

Definition rbind {A B : Type} (r : result A) (k : A -> result B) : result B :=
  match r with
  | Ok a => k a
  | FailJson msg => FailJson msg
  | Raised e => Raised e
  end.

(** [for x in xs: out.append(f(x))] where [f] may end the run. *)
Fixpoint rmap {A B : Type} (f : A -> result B) (xs : list A) : result (list B) :=
  match xs with
  | [] => Ok []
  | x :: xs' => rbind (f x) (fun y => rbind (rmap f xs') (fun ys => Ok (y :: ys)))
  end.

(** ** Python's [str.split(sep)] for a one-character separator *)

Fixpoint split (sep : ascii) (s : string) : list string :=
  match s with
  | EmptyString => [EmptyString]
  | String c s' =>
      if Ascii.eqb c sep then EmptyString :: split sep s'
      else match split sep s' with
           | [] => [String c EmptyString]
           | w :: ws => String c w :: ws
           end
  end.

(** [a, b = xs]: unpacking into exactly two targets. *)
Definition unpack2 {A : Type} (xs : list A) : result (A * A) :=
  match xs with
  | [a; b] => Ok (a, b)
  | [] => Raised (ValueError "not enough values to unpack (expected 2, got 0)")
  | [_] => Raised (ValueError "not enough values to unpack (expected 2, got 1)")
  | _ => Raised (ValueError "too many values to unpack (expected 2)")
  end.

(** [s is None] for a value that [str.split] returned: the elements of
    the list are str objects, never [None]. *)
Definition is_None (s : string) : bool := false.

(** ** parse_port, parse_forward_port *)

Definition parse_port (item : string) : result (string * string) :=
  rbind (unpack2 (split "/" item)) (fun '(_port, _protocol) =>
  if is_None _protocol
  then FailJson "improper port format (missing protocol?)"
  else Ok (_port, _protocol)).

Definition none_if_empty (s : string) : option string :=
  if String.eqb s "" then None else Some s.

Definition parse_forward_port (item : string)
  : result (string * string * option string * option string) :=
  match split ";" item with
  | [__port; _to_port; _to_addr] =>
      rbind (unpack2 (split "/" __port)) (fun '(_port, _protocol) =>
      if is_None _protocol
      then FailJson "improper forward_port format (missing protocol?)"
      else Ok (_port, _protocol, none_if_empty _to_port, none_if_empty _to_addr))
  | _ => FailJson ("improper forward_port format: " ++ item)
  end.

(** ** Module parameters and the values main derives from them *)

Inductive presence : Type := enabled | disabled.

Record params : Type := {
  params_service : list string;
  params_port : list string;
  params_source_port : list string;
  params_forward_port : list string;
  params_masquerade : option bool;
  params_rich_rule : list string;
  params_source : list string;
  params_interface : list string;
  params_icmp_block : list string;
  params_icmp_block_inversion : option bool;
  params_timeout : Z;
  params_target : option string;
  params_zone : option string;
  params_permanent : option bool;
  params_runtime : option bool;
  params_offline : option bool;
  params_state : presence
}.

(** The local variables of [main] after lines 241-269. *)
Record desired : Type := {
  service : list string;
  port : list (string * string);
  source_port : list (string * string);
  forward_port : list (string * string * option string * option string);
  masquerade : option bool;
  rich_rule : list string;
  source : list string;
  interface : list string;
  icmp_block : list string;
  icmp_block_inversion : option bool;
  timeout : Z;
  target : option string;
  zone : option string;
  permanent : option bool;
  runtime : option bool;
  offline : option bool;
  state : presence
}.

Definition truthy (o : option bool) : bool :=
  match o with Some true => true | _ => false end.

Definition is_none {A : Type} (o : option A) : bool :=
  match o with None => true | Some _ => false end.

Definition len {A : Type} (l : list A) : Z := Z.of_nat (List.length l).

(** What the process environment provides to [main] besides the firewalld
    state: whether the firewall python package imports, whether the
    daemon answers, the version comparisons, and the rich rule
    canonicaliser [str(Rich_Rule(rule_str=item))] ([inr e] when it
    raises). *)
Record environment : Type := {
  HAS_FIREWALLD : bool;
  connected : bool;
  FW_VERSION : string;
  version_lt : string -> bool;
  Rich_Rule : string -> string + string
}.

Definition parse_rich_rule (env : environment) (item : string) : result string :=
  match Rich_Rule env item with
  | inl rule => Ok rule
  | inr e => FailJson ("Rich Rule '" ++ item ++ "' is not valid: " ++ e)
  end.

(** Lines 241-269. *)
Definition parse_params (env : environment) (p : params) : result desired :=
  rbind (rmap parse_port (params_port p)) (fun port =>
  rbind (rmap parse_port (params_source_port p)) (fun source_port =>
  rbind (rmap parse_forward_port (params_forward_port p)) (fun forward_port =>
  rbind (rmap (parse_rich_rule env) (params_rich_rule p)) (fun rich_rule =>
  Ok {| service := params_service p;
        port := port;
        source_port := source_port;
        forward_port := forward_port;
        masquerade := params_masquerade p;
        rich_rule := rich_rule;
        source := params_source p;
        interface := params_interface p;
        icmp_block := params_icmp_block p;
        icmp_block_inversion := params_icmp_block_inversion p;
        timeout := params_timeout p;
        target := params_target p;
        zone := params_zone p;
        permanent := params_permanent p;
        runtime := params_runtime p;
        offline := params_offline p;
        state := params_state p |})))).

Definition set_runtime (v : option bool) (d : desired) : desired :=
  {| service := service d; port := port d; source_port := source_port d;
     forward_port := forward_port d; masquerade := masquerade d;
     rich_rule := rich_rule d; source := source d; interface := interface d;
     icmp_block := icmp_block d;
     icmp_block_inversion := icmp_block_inversion d; timeout := timeout d;
     target := target d; zone := zone d; permanent := permanent d;
     runtime := v; offline := offline d; state := state d |}.

Definition set_permanent (v : option bool) (d : desired) : desired :=
  {| service := service d; port := port d; source_port := source_port d;
     forward_port := forward_port d; masquerade := masquerade d;
     rich_rule := rich_rule d; source := source d; interface := interface d;
     icmp_block := icmp_block d;
     icmp_block_inversion := icmp_block_inversion d; timeout := timeout d;
     target := target d; zone := zone d; permanent := v;
     runtime := runtime d; offline := offline d; state := state d |}.

(** ** Validation, lines 271-343 *)

Definition msg_no_plane : string :=
  "One of permanent, runtime or offline needs to be enabled".
Definition msg_empty : string :=
  "One of service, port, source_port, forward_port, masquerade, rich_rule, source, interface, icmp_block, icmp_block_inversion, target or zone needs to be set".
Definition msg_disabled_timeout : string :=
  "timeout can not be used with state: disabled".
Definition msg_disabled_masquerade : string :=
  "masquerade can not be used with state: disabled".
Definition msg_disabled_inversion : string :=
  "icmp_block_inversion can not be used with state: disabled".
Definition msg_timeout_inversion : string :=
  "timeout can not be used with icmp_block_inverson only".
Definition msg_timeout_source : string :=
  "timeout can not be used with source only".
Definition msg_timeout_interface : string :=
  "timeout can not be used with interface only".
Definition msg_timeout_target : string :=
  "timeout can not be used with target only".

(** [explicitly_false o] is [o is not None and not o]. *)
Definition explicitly_false (o : option bool) : bool :=
  match o with Some false => true | _ => false end.

(** Lines 271-279: returns the value of [runtime] afterwards. *)
Definition check_plane_selection (d : desired) : result (option bool) :=
  match permanent d with
  | None => Ok (Some true)
  | Some true => Ok (runtime d)
  | Some false =>
      if explicitly_false (runtime d) && explicitly_false (offline d)
      then FailJson msg_no_plane
      else Ok (runtime d)
  end.

(** Lines 281-300. *)
Definition check_empty_request (d : desired) : result unit :=
  if is_none (masquerade d) && is_none (icmp_block_inversion d)
     && is_none (target d) && is_none (zone d)
     && (len (service d) + len (port d) + len (source_port d)
         + len (forward_port d) + len (rich_rule d) + len (source d)
         + len (interface d) + len (icmp_block d) =? 0)
  then FailJson msg_empty
  else Ok tt.

(** Lines 302-317. *)
Definition check_disabled (d : desired) : result unit :=
  match state d with
  | disabled =>
      if timeout d >? 0 then FailJson msg_disabled_timeout
      else if truthy (masquerade d) then FailJson msg_disabled_masquerade
      else if truthy (icmp_block_inversion d) then FailJson msg_disabled_inversion
      else Ok tt
  | enabled => Ok tt
  end.

(** Line 320-329: [masquerade or len(...) + ... > 0]. *)
Definition _timeout_ok (d : desired) : bool :=
  truthy (masquerade d)
  || (len (service d) + len (port d) + len (source_port d)
      + len (forward_port d) + len (rich_rule d) + len (icmp_block d) >? 0).

(** Lines 319-343. *)
Definition check_timeout (d : desired) : result unit :=
  if timeout d >? 0 then
    if negb (is_none (icmp_block_inversion d)) && negb (_timeout_ok d)
    then FailJson msg_timeout_inversion
    else if (len (source d) >? 0) && negb (_timeout_ok d)
    then FailJson msg_timeout_source
    else if (len (interface d) >? 0) && negb (_timeout_ok d)
    then FailJson msg_timeout_interface
    else if negb (is_none (target d)) && negb (_timeout_ok d)
    then FailJson msg_timeout_target
    else Ok tt
  else Ok tt.

Definition validate (d : desired) : result desired :=
  rbind (check_plane_selection d) (fun runtime' =>
  let d := set_runtime runtime' d in
  rbind (check_empty_request d) (fun _ =>
  rbind (check_disabled d) (fun _ =>
  rbind (check_timeout d) (fun _ =>
  Ok d)))).

(** ** The two planes and the calls made to firewalld

    [fw.queryService(zone, item)], [fw.addPort(zone, port, proto, timeout)],
    [fw_settings.removeRichRule(item)], ... differ only in the rule kind and
    the plane.  A call is recorded as its operation, its plane ([Runtime]
    for a method of [fw], [Permanent] for a method of [fw_settings]) and
    the identity fields of the entry. *)

Inductive plane : Type := Runtime | Permanent.

Inductive entry : Type :=
| Service (item : string)
| Port (_port _protocol : string)
| SourcePort (_port _protocol : string)
| ForwardPort (_port _protocol : string) (_to_port _to_addr : option string)
| Masquerade
| RichRule (item : string)
| Source (item : string)
| Interface (item : string)
| IcmpBlock (item : string)
| IcmpBlockInversion.

Inductive call : Type :=
| FirewallClient                 (* fw = FirewallClient() *)
| Start                          (* fw.start(), offline object *)
| GetDefaultZone
| GetZones
| GetZoneNames
| GetSettings
| Query (p : plane) (e : entry)
| Add (p : plane) (e : entry) (tmo : option Z)
| Remove (p : plane) (e : entry)
| GetTarget
| SetTarget (t : string)
| Commit.                        (* fw_zone.update / fw.config.set_zone_config *)

Definition option_string_dec (a b : option string) : {a = b} + {a <> b}.
Proof. decide equality. apply string_dec. Defined.

Definition entry_eq_dec (a b : entry) : {a = b} + {a <> b}.
Proof.
  decide equality; try apply string_dec; apply option_string_dec.
Defined.

Definition entry_eqb (a b : entry) : bool :=
  if entry_eq_dec a b then true else false.

Definition is_commit (c : call) : bool :=
  match c with Commit => true | _ => false end.

(** The plane a call reads or changes.  Creating the client, starting
    the offline object, the zone lookups and loading the settings object
    ([fw_zone.getSettings()], done on every run) are bookkeeping and
    belong to no plane. *)
Definition call_plane (c : call) : option plane :=
  match c with
  | Query p _ | Add p _ _ | Remove p _ => Some p
  | GetTarget | SetTarget _ | Commit => Some Permanent
  | _ => None
  end.

Definition call_entry (c : call) : option entry :=
  match c with
  | Query _ e | Add _ e _ | Remove _ e => Some e
  | _ => None
  end.

(** ** firewalld as seen by the module

    The firewall package is not part of this repository; [main] only
    uses the methods below.  [fwT] is the state behind the [fw] object
    (the running configuration and the stored zone configurations),
    [settingsT] the [FirewallClientZoneSettings] buffer.  The connected
    client and the offline object have different method names for the
    zone bookkeeping; both sets are fields.  Every method is taken to
    return: a firewalld exception, which the handler of line 389 turns
    into [fail_json], is not modelled. *)
Record Backend : Type := {
  fwT : Type;
  settingsT : Type;
  (* connected client *)
  getDefaultZone : fwT -> string;
  getZones : fwT -> list string;
  getZoneNames : fwT -> list string;
  getSettings : string -> fwT -> settingsT;
  update : string -> settingsT -> fwT -> fwT;
  (* offline object *)
  get_default_zone : fwT -> string;
  get_zones : fwT -> list string;
  get_zone_config : string -> fwT -> settingsT;
  set_zone_config : string -> settingsT -> fwT -> fwT;
  (* fw.query<Kind>(zone, ...), fw.add<Kind>(zone, ...[, timeout]), fw.remove<Kind> *)
  queryRuntime : string -> entry -> fwT -> bool;
  addRuntime : string -> entry -> option Z -> fwT -> fwT;
  removeRuntime : string -> entry -> fwT -> fwT;
  (* fw_settings.query<Kind>(...), add, remove, getTarget, setTarget *)
  querySettings : entry -> settingsT -> bool;
  addSettings : entry -> settingsT -> settingsT;
  removeSettings : entry -> settingsT -> settingsT;
  getTarget : settingsT -> string;
  setTarget : string -> settingsT -> settingsT
}.

Section Main.

Context (B : Backend).

(** The firewalld state and the calls made so far, oldest first. *)
Record world : Type := {
  fw_state : fwT B;
  calls : list call
}.

(** The variables of the modification part of [main]. *)
Record locals : Type := {
  fw : fwT B;
  fw_settings : settingsT B;
  changed : bool;
  log : list call
}.

Definition St (A : Type) : Type := locals -> A * locals.

Definition ret {A : Type} (a : A) : St A := fun l => (a, l).

Definition bind {A C : Type} (m : St A) (k : A -> St C) : St C :=
  fun l => let '(a, l') := m l in k a l'.

Definition exec {A : Type} (m : St A) (l : locals) : locals := snd (m l).

End Main.

Arguments fw_state {B} w.
Arguments calls {B} w.
Arguments fw {B} l.
Arguments fw_settings {B} l.
Arguments changed {B} l.
Arguments log {B} l.
Arguments ret {B A} a.
Arguments bind {B A C} m k.
Arguments exec {B A} m l.

Declare Scope st_scope.
Delimit Scope st_scope with st.
Notation "x <- m ;; k" := (bind m (fun x => k))
  (at level 61, m at next level, right associativity) : st_scope.
Notation "m ;; k" := (bind m (fun _ => k))
  (at level 61, right associativity) : st_scope.

Local Open Scope st_scope.

(** ** Firewall modification, lines 422-668 *)

Section Modification.

Context {B : Backend}.

(** [module.check_mode], [fw_offline], the zone name after defaulting,
    and the request with [runtime] and [permanent] as they stand when the
    modification part starts. *)
Variables (check_mode : bool) (fw_offline : bool) (z : string) (d : desired).

Definition record (c : call) (l : locals B) : locals B :=
  {| fw := fw l; fw_settings := fw_settings l; changed := changed l;
     log := log l ++ [c] |}.

Definition query (p : plane) (e : entry) : St B bool :=
  fun l =>
    (match p with
     | Runtime => queryRuntime B z e (fw l)
     | Permanent => querySettings B e (fw_settings l)
     end, record (Query p e) l).

Definition add (p : plane) (e : entry) (tmo : option Z) : St B unit :=
  fun l =>
    (tt, record (Add p e tmo)
           match p with
           | Runtime =>
               {| fw := addRuntime B z e tmo (fw l); fw_settings := fw_settings l;
                  changed := changed l; log := log l |}
           | Permanent =>
               {| fw := fw l; fw_settings := addSettings B e (fw_settings l);
                  changed := changed l; log := log l |}
           end).

Definition remove (p : plane) (e : entry) : St B unit :=
  fun l =>
    (tt, record (Remove p e)
           match p with
           | Runtime =>
               {| fw := removeRuntime B z e (fw l); fw_settings := fw_settings l;
                  changed := changed l; log := log l |}
           | Permanent =>
               {| fw := fw l; fw_settings := removeSettings B e (fw_settings l);
                  changed := changed l; log := log l |}
           end).

Definition get_target : St B string :=
  fun l => (getTarget B (fw_settings l), record GetTarget l).

Definition set_target (t : string) : St B unit :=
  fun l =>
    (tt, record (SetTarget t)
           {| fw := fw l; fw_settings := setTarget B t (fw_settings l);
              changed := changed l; log := log l |}).

(** [fw.config.set_zone_config(fw_zone, fw_settings.settings)] when
    offline, [fw_zone.update(fw_settings)] otherwise. *)
Definition commit : St B unit :=
  fun l =>
    (tt, record Commit
           {| fw := if fw_offline
                    then set_zone_config B z (fw_settings l) (fw l)
                    else update B z (fw_settings l) (fw l);
              fw_settings := fw_settings l;
              changed := changed l; log := log l |}).

(** [changed = True] *)
Definition set_changed : St B unit :=
  fun l =>
    (tt, {| fw := fw l; fw_settings := fw_settings l; changed := true;
            log := log l |}).

(** [a and m]: the right operand is evaluated only when [a] is true. *)
Definition and_then (a : bool) (m : St B bool) : St B bool :=
  if a then m else ret false.

Definition not_ (m : St B bool) : St B bool :=
  b <- m ;; ret (negb b).

(** [if c: body] *)
Definition when_ (c : St B bool) (body : St B unit) : St B unit :=
  b <- c ;; if b then body else ret tt.

(** [if not module.check_mode: body] *)
Definition unless_check_mode (body : St B unit) : St B unit :=
  if check_mode then ret tt else body.

Fixpoint for_each {A : Type} (xs : list A) (body : A -> St B unit) : St B unit :=
  match xs with
  | [] => ret tt
  | x :: xs' => body x ;; for_each xs' body
  end.

(** Lines 427-444.  The runtime branch of [state == "disabled"] removes
    the service and leaves [changed] as it is. *)
Definition service_body (item : string) : St B unit :=
  match state d with
  | enabled =>
      when_ (and_then (truthy (runtime d)) (not_ (query Runtime (Service item))))
        (unless_check_mode (add Runtime (Service item) (Some (timeout d))) ;;
         set_changed) ;;
      when_ (and_then (truthy (permanent d)) (not_ (query Permanent (Service item))))
        (unless_check_mode (add Permanent (Service item) None) ;;
         set_changed)
  | disabled =>
      when_ (and_then (truthy (runtime d)) (query Runtime (Service item)))
        (unless_check_mode (remove Runtime (Service item))) ;;
      when_ (and_then (truthy (permanent d)) (query Permanent (Service item)))
        (unless_check_mode (remove Permanent (Service item)) ;;
         set_changed)
  end.

(** Lines 447-465. *)
Definition port_body (x : string * string) : St B unit :=
  let '(_port, _protocol) := x in
  match state d with
  | enabled =>
      when_ (and_then (truthy (runtime d)) (not_ (query Runtime (Port _port _protocol))))
        (unless_check_mode (add Runtime (Port _port _protocol) (Some (timeout d))) ;;
         set_changed) ;;
      when_ (and_then (truthy (permanent d)) (not_ (query Permanent (Port _port _protocol))))
        (unless_check_mode (add Permanent (Port _port _protocol) None) ;;
         set_changed)
  | disabled =>
      when_ (and_then (truthy (runtime d)) (query Runtime (Port _port _protocol)))
        (unless_check_mode (remove Runtime (Port _port _protocol)) ;;
         set_changed) ;;
      when_ (and_then (truthy (permanent d)) (query Permanent (Port _port _protocol)))
        (unless_check_mode (remove Permanent (Port _port _protocol)) ;;
         set_changed)
  end.

(** Lines 468-486. *)
Definition source_port_body (x : string * string) : St B unit :=
  let '(_port, _protocol) := x in
  match state d with
  | enabled =>
      when_ (and_then (truthy (runtime d)) (not_ (query Runtime (SourcePort _port _protocol))))
        (unless_check_mode (add Runtime (SourcePort _port _protocol) (Some (timeout d))) ;;
         set_changed) ;;
      when_ (and_then (truthy (permanent d)) (not_ (query Permanent (SourcePort _port _protocol))))
        (unless_check_mode (add Permanent (SourcePort _port _protocol) None) ;;
         set_changed)
  | disabled =>
      when_ (and_then (truthy (runtime d)) (query Runtime (SourcePort _port _protocol)))
        (unless_check_mode (remove Runtime (SourcePort _port _protocol)) ;;
         set_changed) ;;
      when_ (and_then (truthy (permanent d)) (query Permanent (SourcePort _port _protocol)))
        (unless_check_mode (remove Permanent (SourcePort _port _protocol)) ;;
         set_changed)
  end.

(** Lines 490-520. *)
Definition forward_port_body
  (x : string * string * option string * option string) : St B unit :=
  let '(_port, _protocol, _to_port, _to_addr) := x in
  let e := ForwardPort _port _protocol _to_port _to_addr in
  match state d with
  | enabled =>
      when_ (and_then (truthy (runtime d)) (not_ (query Runtime e)))
        (unless_check_mode (add Runtime e (Some (timeout d))) ;;
         set_changed) ;;
      when_ (and_then (truthy (permanent d)) (not_ (query Permanent e)))
        (unless_check_mode (add Permanent e None) ;;
         set_changed)
  | disabled =>
      when_ (and_then (truthy (runtime d)) (query Runtime e))
        (unless_check_mode (remove Runtime e) ;;
         set_changed) ;;
      when_ (and_then (truthy (permanent d)) (query Permanent e))
        (unless_check_mode (remove Permanent e) ;;
         set_changed)
  end.

(** Lines 523-541: the branch is chosen by the value of [masquerade],
    not by [state]. *)
Definition masquerade_block : St B unit :=
  match masquerade d with
  | None => ret tt
  | Some true =>
      when_ (and_then (truthy (runtime d)) (not_ (query Runtime Masquerade)))
        (unless_check_mode (add Runtime Masquerade (Some (timeout d))) ;;
         set_changed) ;;
      when_ (and_then (truthy (permanent d)) (not_ (query Permanent Masquerade)))
        (unless_check_mode (add Permanent Masquerade None) ;;
         set_changed)
  | Some false =>
      when_ (and_then (truthy (runtime d)) (query Runtime Masquerade))
        (unless_check_mode (remove Runtime Masquerade) ;;
         set_changed) ;;
      when_ (and_then (truthy (permanent d)) (query Permanent Masquerade))
        (unless_check_mode (remove Permanent Masquerade) ;;
         set_changed)
  end.

(** Lines 544-562. *)
Definition rich_rule_body (item : string) : St B unit :=
  match state d with
  | enabled =>
      when_ (and_then (truthy (runtime d)) (not_ (query Runtime (RichRule item))))
        (unless_check_mode (add Runtime (RichRule item) (Some (timeout d))) ;;
         set_changed) ;;
      when_ (and_then (truthy (permanent d)) (not_ (query Permanent (RichRule item))))
        (unless_check_mode (add Permanent (RichRule item) None) ;;
         set_changed)
  | disabled =>
      when_ (and_then (truthy (runtime d)) (query Runtime (RichRule item)))
        (unless_check_mode (remove Runtime (RichRule item)) ;;
         set_changed) ;;
      when_ (and_then (truthy (permanent d)) (query Permanent (RichRule item)))
        (unless_check_mode (remove Permanent (RichRule item)) ;;
         set_changed)
  end.

(** Lines 565-583: the calls on [fw] are not guarded by [runtime]. *)
Definition source_body (item : string) : St B unit :=
  match state d with
  | enabled =>
      when_ (not_ (query Runtime (Source item)))
        (unless_check_mode (add Runtime (Source item) None) ;;
         set_changed) ;;
      when_ (and_then (truthy (permanent d)) (not_ (query Permanent (Source item))))
        (unless_check_mode (add Permanent (Source item) None) ;;
         set_changed)
  | disabled =>
      when_ (query Runtime (Source item))
        (unless_check_mode (remove Runtime (Source item)) ;;
         set_changed) ;;
      when_ (and_then (truthy (permanent d)) (query Permanent (Source item)))
        (unless_check_mode (remove Permanent (Source item)) ;;
         set_changed)
  end.

(** Lines 586-604. *)
Definition interface_body (item : string) : St B unit :=
  match state d with
  | enabled =>
      when_ (and_then (truthy (runtime d)) (not_ (query Runtime (Interface item))))
        (unless_check_mode (add Runtime (Interface item) None) ;;
         set_changed) ;;
      when_ (and_then (truthy (permanent d)) (not_ (query Permanent (Interface item))))
        (unless_check_mode (add Permanent (Interface item) None) ;;
         set_changed)
  | disabled =>
      when_ (and_then (truthy (runtime d)) (query Runtime (Interface item)))
        (unless_check_mode (remove Runtime (Interface item)) ;;
         set_changed) ;;
      when_ (and_then (truthy (permanent d)) (query Permanent (Interface item)))
        (unless_check_mode (remove Permanent (Interface item)) ;;
         set_changed)
  end.

(** Lines 607-625. *)
Definition icmp_block_body (item : string) : St B unit :=
  match state d with
  | enabled =>
      when_ (and_then (truthy (runtime d)) (not_ (query Runtime (IcmpBlock item))))
        (unless_check_mode (add Runtime (IcmpBlock item) (Some (timeout d))) ;;
         set_changed) ;;
      when_ (and_then (truthy (permanent d)) (not_ (query Permanent (IcmpBlock item))))
        (unless_check_mode (add Permanent (IcmpBlock item) None) ;;
         set_changed)
  | disabled =>
      when_ (and_then (truthy (runtime d)) (query Runtime (IcmpBlock item)))
        (unless_check_mode (remove Runtime (IcmpBlock item)) ;;
         set_changed) ;;
      when_ (and_then (truthy (permanent d)) (query Permanent (IcmpBlock item)))
        (unless_check_mode (remove Permanent (IcmpBlock item)) ;;
         set_changed)
  end.

(** Lines 628-646. *)
Definition icmp_block_inversion_block : St B unit :=
  match icmp_block_inversion d with
  | None => ret tt
  | Some true =>
      when_ (and_then (truthy (runtime d)) (not_ (query Runtime IcmpBlockInversion)))
        (unless_check_mode (add Runtime IcmpBlockInversion None) ;;
         set_changed) ;;
      when_ (and_then (truthy (permanent d)) (not_ (query Permanent IcmpBlockInversion)))
        (unless_check_mode (add Permanent IcmpBlockInversion None) ;;
         set_changed)
  | Some false =>
      when_ (and_then (truthy (runtime d)) (query Runtime IcmpBlockInversion))
        (unless_check_mode (remove Runtime IcmpBlockInversion) ;;
         set_changed) ;;
      when_ (and_then (truthy (permanent d)) (query Permanent IcmpBlockInversion))
        (unless_check_mode (remove Permanent IcmpBlockInversion) ;;
         set_changed)
  end.

(** [fw_settings.getTarget() != target] *)
Definition target_differs (t : string) : St B bool :=
  cur <- get_target ;; ret (negb (String.eqb cur t)).

(** Lines 649-659: both presence states do the same. *)
Definition target_block : St B unit :=
  match target d with
  | None => ret tt
  | Some t =>
      match state d with
      | enabled =>
          when_ (and_then (truthy (permanent d)) (target_differs t))
            (unless_check_mode (set_target t) ;;
             set_changed)
      | disabled =>
          when_ (and_then (truthy (permanent d)) (target_differs t))
            (unless_check_mode (set_target t) ;;
             set_changed)
      end
  end.

(** Lines 662-666: not guarded by [module.check_mode]. *)
Definition apply_permanent : St B unit :=
  if truthy (permanent d) then commit else ret tt.

Definition modification : St B unit :=
  for_each (service d) service_body ;;
  for_each (port d) port_body ;;
  for_each (source_port d) source_port_body ;;
  for_each (forward_port d) forward_port_body ;;
  masquerade_block ;;
  for_each (rich_rule d) rich_rule_body ;;
  for_each (source d) source_body ;;
  for_each (interface d) interface_body ;;
  for_each (icmp_block d) icmp_block_body ;;
  icmp_block_inversion_block ;;
  target_block ;;
  apply_permanent.

End Modification.

(** ** Connecting, lines 345-420, and [main] *)

Section Entry.

Context {B : Backend}.
Variables (env : environment) (check_mode : bool).

Definition note (c : call) (w : world B) : world B :=
  {| fw_state := fw_state w; calls := calls w ++ [c] |}.

(** [zone in names] *)
Definition zone_in (zn : string) (names : list string) : bool :=
  existsb (String.eqb zn) names.

(** What the modification part starts from: [fw_offline], the zone name,
    the request with the final [runtime] and [permanent], [fw_settings]. *)
Definition session : Type := (bool * string * desired * settingsT B)%type.

(** Lines 395-407. *)
Definition offline_zone (d : desired) (w : world B) : result session * world B :=
  let w := note GetDefaultZone w in
  let default_zone := get_default_zone B (fw_state w) in
  match zone d with
  | Some zn =>
      let w := note GetZones w in
      if negb (zone_in zn (get_zones B (fw_state w)))
      then (FailJson ("Permanent zone '" ++ zn ++ "' does not exist."), w)
      else
        let w := note GetSettings w in
        (Ok (true, zn, d, get_zone_config B zn (fw_state w)), w)
  | None =>
      let w := note GetSettings w in
      (Ok (true, default_zone, d, get_zone_config B default_zone (fw_state w)), w)
  end.

(** Lines 409-420. *)
Definition connected_zone (d : desired) (w : world B) : result session * world B :=
  let w := note GetDefaultZone w in
  let default_zone := getDefaultZone B (fw_state w) in
  match zone d with
  | Some zn =>
      let w := if truthy (runtime d) then note GetZones w else w in
      if truthy (runtime d) && negb (zone_in zn (getZones B (fw_state w)))
      then (FailJson ("Runtime zone '" ++ zn ++ "' does not exist."), w)
      else
        let w := if truthy (permanent d) then note GetZoneNames w else w in
        if truthy (permanent d) && negb (zone_in zn (getZoneNames B (fw_state w)))
        then (FailJson ("Permanent zone '" ++ zn ++ "' does not exist."), w)
        else
          let w := note GetSettings w in
          (Ok (false, zn, d, getSettings B zn (fw_state w)), w)
  | None =>
      let w := note GetSettings w in
      (Ok (false, default_zone, d, getSettings B default_zone (fw_state w)), w)
  end.

(** Lines 345-420. *)
Definition connect (d : desired) (w : world B) : result session * world B :=
  if negb (HAS_FIREWALLD env) then (FailJson "No firewalld", w)
  else
    let w := note FirewallClient w in
    if negb (connected env) then
      if negb (truthy (offline d))
      then (FailJson "Firewalld is not running and offline operation is declined.", w)
      else
        (* permanent-only operations *)
        let d := set_permanent (Some true) (set_runtime (Some false) d) in
        if version_lt env "0.3.9"
        then (FailJson ("Unsupported firewalld version " ++ FW_VERSION env
                        ++ ", offline operation requires >= 0.3.9"), w)
        else offline_zone d (note Start w)
    else
      if version_lt env "0.2.11"
      then (FailJson ("Unsupported firewalld version " ++ FW_VERSION env
                      ++ ", requires >= 0.2.11"), w)
      else connected_zone d w.

(** Lines 424-668 from the session [connect] returns, for a run in
    which every call to firewalld returns (see [Backend]): such a run
    ends with [exit_json].  Statements about failed runs are therefore
    about runs that fail before this part. *)
Definition modify (s : session) (w : world B) : result bool * world B :=
  let '(fw_offline, z, d, st) := s in
  let l := exec (modification check_mode fw_offline z d)
             {| fw := fw_state w; fw_settings := st; changed := false;
                log := calls w |} in
  (Ok (changed l), {| fw_state := fw l; calls := log l |}).

Definition main (p : params) (w : world B) : result bool * world B :=
  if negb (HAS_FIREWALLD env)
  then (FailJson "No firewall backend could be imported.", w)
  else
    match rbind (parse_params env p) validate with
    | Ok d =>
        match connect d w with
        | (Ok s, w') => modify s w'
        | (FailJson msg, w') => (FailJson msg, w')
        | (Raised e, w') => (Raised e, w')
        end
    | FailJson msg => (FailJson msg, w)
    | Raised e => (Raised e, w)
    end.

End Entry.

(** ** A firewalld that stores what it is told

    Runtime entries are kept per zone in a list, the stored zone
    configurations in an association list read at its first match.  It
    serves to run [main] on concrete requests. *)

Module Stub.

Record settings : Type := {
  entries : list entry;
  zone_target : string
}.

Record firewalld : Type := {
  default_zone : string;
  zones : list string;
  running : list (string * entry);
  stored : list (string * settings)
}.

Definition has (e : entry) (es : list entry) : bool :=
  existsb (entry_eqb e) es.

Definition without (e : entry) (es : list entry) : list entry :=
  filter (fun x => negb (entry_eqb e x)) es.

Definition runtime_of (zn : string) (f : firewalld) : list entry :=
  map snd (filter (fun ze => String.eqb zn (fst ze)) (running f)).

Fixpoint lookup (zn : string) (cfg : list (string * settings)) : settings :=
  match cfg with
  | [] => {| entries := []; zone_target := "default" |}
  | (zn', s) :: cfg' => if String.eqb zn zn' then s else lookup zn cfg'
  end.

Definition store (zn : string) (s : settings) (f : firewalld) : firewalld :=
  {| default_zone := default_zone f; zones := zones f; running := running f;
     stored := (zn, s) :: stored f |}.

Definition backend : Backend := {|
  fwT := firewalld;
  settingsT := settings;
  getDefaultZone := default_zone;
  getZones := zones;
  getZoneNames := zones;
  getSettings := fun zn f => lookup zn (stored f);
  update := store;
  get_default_zone := default_zone;
  get_zones := zones;
  get_zone_config := fun zn f => lookup zn (stored f);
  set_zone_config := store;
  queryRuntime := fun zn e f => has e (runtime_of zn f);
  addRuntime := fun zn e _ f =>
    {| default_zone := default_zone f; zones := zones f;
       running := (zn, e) :: running f; stored := stored f |};
  removeRuntime := fun zn e f =>
    {| default_zone := default_zone f; zones := zones f;
       running := filter (fun ze => negb (String.eqb zn (fst ze) && entry_eqb e (snd ze)))
                    (running f);
       stored := stored f |};
  querySettings := fun e s => has e (entries s);
  addSettings := fun e s => {| entries := e :: entries s; zone_target := zone_target s |};
  removeSettings := fun e s =>
    {| entries := without e (entries s); zone_target := zone_target s |};
  getTarget := zone_target;
  setTarget := fun t s => {| entries := entries s; zone_target := t |}
|}.

(** A running firewalld 1.0 whose rich rule parser accepts every string
    unchanged. *)
Definition online : environment := {|
  HAS_FIREWALLD := true;
  connected := true;
  FW_VERSION := "1.0.0";
  version_lt := fun _ => false;
  Rich_Rule := fun s => inl s
|}.

(** The same installation with the daemon stopped. *)
Definition stopped : environment := {|
  HAS_FIREWALLD := true;
  connected := false;
  FW_VERSION := "1.0.0";
  version_lt := fun _ => false;
  Rich_Rule := fun s => inl s
|}.

Definition fresh : firewalld := {|
  default_zone := "public";
  zones := ["public"; "internal"];
  running := [];
  stored := []
|}.

Definition start (f : firewalld) : world backend :=
  Build_world backend f [].

(** A request for services and sources with the given timeout and plane
    flags; every other option at its default. *)
Definition ask (st : presence) (services sources : list string) (tmo : Z)
  (perm rt off : option bool) : params := {|
  params_service := services;
  params_port := [];
  params_source_port := [];
  params_forward_port := [];
  params_masquerade := None;
  params_rich_rule := [];
  params_source := sources;
  params_interface := [];
  params_icmp_block := [];
  params_icmp_block_inversion := None;
  params_timeout := tmo;
  params_target := None;
  params_zone := None;
  params_permanent := perm;
  params_runtime := rt;
  params_offline := off;
  params_state := st
|}.

(** The same request after parsing. *)
Definition wish (st : presence) (services sources : list string) (tmo : Z)
  (perm rt off : option bool) : desired := {|
  service := services;
  port := [];
  source_port := [];
  forward_port := [];
  masquerade := None;
  rich_rule := [];
  source := sources;
  interface := [];
  icmp_block := [];
  icmp_block_inversion := None;
  timeout := tmo;
  target := None;
  zone := None;
  permanent := perm;
  runtime := rt;
  offline := off;
  state := st
|}.

(** A firewalld whose runtime configuration of zone public has [es]. *)
Definition serving (es : list entry) : firewalld := {|
  default_zone := "public";
  zones := ["public"; "internal"];
  running := map (fun e => ("public", e)) es;
  stored := []
|}.

End Stub.

(** ** The modification part as a list of uniform steps

    Every block of the modification part is a sequence of guarded
    query-then-mutate steps.  A [step] names the plane, the guard (the
    [runtime] or [permanent] flag, or no guard), the entry, whether the
    entry is wanted present, the timeout passed to a runtime [add], and
    whether the executed branch assigns [changed = True]. *)

Record step : Type := {
  s_plane : plane;
  s_gate : bool;
  s_entry : entry;
  s_want : bool;
  s_tmo : option Z;
  s_mark : bool
}.

Section Steps.

Context {B : Backend}.
Variables (check_mode : bool) (z : string).

(** What a query of plane [p] for [e] answers in [l]. *)
Definition observe (p : plane) (e : entry) (l : locals B) : bool :=
  match p with
  | Runtime => queryRuntime B z e (fw l)
  | Permanent => querySettings B e (fw_settings l)
  end.

Definition run_step (s : step) : St B unit :=
  when_ (and_then (s_gate s)
           (if s_want s then not_ (query z (s_plane s) (s_entry s))
            else query z (s_plane s) (s_entry s)))
    (unless_check_mode check_mode
       (if s_want s then add z (s_plane s) (s_entry s) (s_tmo s)
        else remove z (s_plane s) (s_entry s)) ;;
     if s_mark s then set_changed else ret tt).

Definition run_plan (ss : list step) : St B unit := for_each ss run_step.

End Steps.

Section Plan.

Variable d : desired.

Definition wanted : bool :=
  match state d with enabled => true | disabled => false end.

(** The entries the request names, each with the presence it asks for,
    in the order of the blocks: a list entry is wanted as [state] says, a
    zone-wide toggle as its own value says. *)
Definition toggle (v : option bool) (e : entry) : list (entry * bool) :=
  match v with
  | None => []
  | Some b => [(e, b)]
  end.

Definition requested : list (entry * bool) :=
  map (fun item => (Service item, wanted)) (service d)
  ++ map (fun x => (Port (fst x) (snd x), wanted)) (port d)
  ++ map (fun x => (SourcePort (fst x) (snd x), wanted)) (source_port d)
  ++ map (fun x => let '(_port, _protocol, _to_port, _to_addr) := x in
                   (ForwardPort _port _protocol _to_port _to_addr, wanted))
       (forward_port d)
  ++ toggle (masquerade d) Masquerade
  ++ map (fun item => (RichRule item, wanted)) (rich_rule d)
  ++ map (fun item => (Source item, wanted)) (source d)
  ++ map (fun item => (Interface item, wanted)) (interface d)
  ++ map (fun item => (IcmpBlock item, wanted)) (icmp_block d)
  ++ toggle (icmp_block_inversion d) IcmpBlockInversion.

(** The guard of the runtime step: [runtime], except for a source. *)
Definition rt_gate_of (e : entry) : bool :=
  match e with
  | Source _ => true
  | _ => truthy (runtime d)
  end.

(** The timeout argument of the runtime [add]. *)
Definition tmo_of (e : entry) : option Z :=
  match e with
  | Source _ | Interface _ | IcmpBlockInversion => None
  | _ => Some (timeout d)
  end.

(** Whether the executed runtime branch assigns [changed]: always,
    except when a service is removed. *)
Definition rt_mark_of (e : entry) (want : bool) : bool :=
  match e with
  | Service _ => want
  | _ => true
  end.

(** The runtime step and the permanent step of an entry. *)
Definition steps_of (eb : entry * bool) : list step :=
  [ {| s_plane := Runtime; s_gate := rt_gate_of (fst eb); s_entry := fst eb;
       s_want := snd eb; s_tmo := tmo_of (fst eb);
       s_mark := rt_mark_of (fst eb) (snd eb) |};
    {| s_plane := Permanent; s_gate := truthy (permanent d); s_entry := fst eb;
       s_want := snd eb; s_tmo := None; s_mark := true |} ].

Definition plan : list step := flat_map steps_of requested.

End Plan.

(** ** The steps in closed form *)

Section StepForms.

Context {B : Backend}.
Variables (check_mode : bool) (z : string).

Definition mark_changed (l : locals B) : locals B :=
  {| fw := fw l; fw_settings := fw_settings l; changed := true; log := log l |}.

(** The mutation of a step whose query disagreed. *)
Definition mutate (s : step) (l : locals B) : locals B :=
  exec (if s_want s then add z (s_plane s) (s_entry s) (s_tmo s)
        else remove z (s_plane s) (s_entry s)) l.

Definition mutation_call (s : step) : call :=
  if s_want s then Add (s_plane s) (s_entry s) (s_tmo s)
  else Remove (s_plane s) (s_entry s).

Definition agrees (s : step) (l : locals B) : bool :=
  Bool.eqb (observe z (s_plane s) (s_entry s) l) (s_want s).

Definition step_fn (s : step) (l : locals B) : locals B :=
  if s_gate s then
    let l1 := record (Query (s_plane s) (s_entry s)) l in
    if agrees s l then l1
    else
      let l2 := if check_mode then l1 else mutate s l1 in
      if s_mark s then mark_changed l2 else l2
  else l.

Definition plan_fn (ss : list step) (l : locals B) : locals B :=
  fold_left (fun l s => step_fn s l) ss l.

(** The calls of a step, given the state it starts in. *)
Definition step_calls (s : step) (l : locals B) : list call :=
  if s_gate s then
    Query (s_plane s) (s_entry s)
    :: (if agrees s l then []
        else if check_mode then [] else [mutation_call s])
  else [].

Fixpoint plan_calls (ss : list step) (l : locals B) : list call :=
  match ss with
  | [] => []
  | s :: ss' => step_calls s l ++ plan_calls ss' (step_fn s l)
  end.

(** [c] is a call step [s] can issue: its query, or, outside check
    mode, its mutation; only a guarded step issues calls. *)
Definition from_step (s : step) (c : call) : Prop :=
  s_gate s = true /\
  (c = Query (s_plane s) (s_entry s)
   \/ (check_mode = false /\ c = mutation_call s)).

End StepForms.

(** ** The target block and the commit in closed form *)

Section ModificationForms.

Context {B : Backend}.
Variables (check_mode fw_offline : bool) (z : string) (d : desired).

(** Lines 649-659 in closed form. *)
Definition target_fn (l : locals B) : locals B :=
  match target d with
  | None => l
  | Some t =>
      if truthy (permanent d) then
        let l1 := record GetTarget l in
        if String.eqb (getTarget B (fw_settings l)) t then l1
        else mark_changed (if check_mode then l1 else exec (set_target t) l1)
      else l
  end.

Definition target_calls (l : locals B) : list call :=
  match target d with
  | None => []
  | Some t =>
      if truthy (permanent d) then
        GetTarget
        :: (if String.eqb (getTarget B (fw_settings l)) t then []
            else if check_mode then [] else [SetTarget t])
      else []
  end.

(** Lines 662-666 in closed form. *)
Definition apply_fn (l : locals B) : locals B :=
  if truthy (permanent d) then exec (commit fw_offline z) l else l.

Definition apply_calls : list call :=
  if truthy (permanent d) then [Commit] else [].

(** The calls of the modification part, oldest first. *)
Definition modification_calls (l : locals B) : list call :=
  plan_calls check_mode z (plan d) l
  ++ target_calls (plan_fn check_mode z (plan d) l)
  ++ apply_calls.

End ModificationForms.

(** ** The rules of validation and the course of a run, as predicates *)

(** The value [runtime] has after lines 271-279 when they pass. *)
Definition runtime_after (d : desired) : option bool :=
  match permanent d with None => Some true | Some _ => runtime d end.

(** The request the modification part works on: the offline fallback
    (lines 357-360) turns [runtime] off and [permanent] on. *)
Definition session_request (env : environment) (d : desired) : desired :=
  if connected env then d
  else set_permanent (Some true) (set_runtime (Some false) d).

Definition is_bookkeeping (c : call) : bool :=
  match c with
  | FirewallClient | Start | GetDefaultZone | GetZones | GetZoneNames
  | GetSettings => true
  | _ => false
  end.

(** No plane is selected: [permanent], [runtime] and [offline] are all
    given and all false. *)
Definition selects_no_plane (d : desired) : Prop :=
  permanent d = Some false /\ runtime d = Some false /\ offline d = Some false.

Definition empty_request (d : desired) : Prop :=
  masquerade d = None /\ icmp_block_inversion d = None /\ target d = None
  /\ zone d = None /\ service d = [] /\ port d = [] /\ source_port d = []
  /\ forward_port d = [] /\ rich_rule d = [] /\ source d = []
  /\ interface d = [] /\ icmp_block d = [].

(** One of the kinds a timeout applies to is requested. *)
Definition timeout_bearing (d : desired) : Prop :=
  service d <> [] \/ port d <> [] \/ source_port d <> []
  \/ forward_port d <> [] \/ rich_rule d <> [] \/ icmp_block d <> []
  \/ masquerade d = Some true.

(** One of the kinds without a timeout is requested. *)
Definition timeout_free (d : desired) : Prop :=
  icmp_block_inversion d <> None \/ source d <> [] \/ interface d <> []
  \/ target d <> None.

Definition incompatible_with_disabled (msg : string) : Prop :=
  msg = msg_disabled_timeout \/ msg = msg_disabled_masquerade
  \/ msg = msg_disabled_inversion.

Definition timeout_not_applicable (msg : string) : Prop :=
  msg = msg_timeout_inversion \/ msg = msg_timeout_source
  \/ msg = msg_timeout_interface \/ msg = msg_timeout_target.

Fixpoint contains (c : ascii) (s : string) : bool :=
  match s with
  | EmptyString => false
  | String c' s' => Ascii.eqb c' c || contains c s'
  end.

Definition is_add_remove (c : call) : bool :=
  match c with
  | Add _ _ _ | Remove _ _ | SetTarget _ => true
  | _ => false
  end.

(** The permanent plane is worked on: [permanent] was given true, or
    firewalld is not running and the offline fallback turned it on. *)
Definition permanent_active (env : environment) (p : params) : bool :=
  truthy (params_permanent p) || negb (connected env).

Section Wants.

Variable d : desired.

(** What an enabled request wants of an entry. *)
Definition want_for (e : entry) : bool :=
  match e with
  | Masquerade => truthy (masquerade d)
  | IcmpBlockInversion => truthy (icmp_block_inversion d)
  | _ => true
  end.

End Wants.

(** ** What is assumed of firewalld when a request is run twice *)

(** The zone bookkeeping of [f'] is that of [f]. *)
Definition same_zones {B : Backend} (f f' : fwT B) : Prop :=
  getDefaultZone B f' = getDefaultZone B f
  /\ getZones B f' = getZones B f
  /\ getZoneNames B f' = getZoneNames B f
  /\ get_default_zone B f' = get_default_zone B f
  /\ get_zones B f' = get_zones B f.

(** Loading the settings object of a zone and writing it back, offline
    ([fw.config.get_zone_config], [set_zone_config]) or connected
    ([getSettings], [update]). *)
Definition load {B : Backend} (off : bool) (z : string) (f : fwT B) : settingsT B :=
  if off then get_zone_config B z f else getSettings B z f.

Definition save {B : Backend} (off : bool) (z : string) (st : settingsT B)
  (f : fwT B) : fwT B :=
  if off then set_zone_config B z st f else update B z st f.

(** A firewalld that does what it is asked: an added entry is queried
    present and a removed one absent from then on, other entries and the
    other plane are left as they were, a target that was set is the
    target read, settings written back are the settings loaded next, and
    none of this renames zones. *)
Record Lawful (B : Backend) : Prop := {
  query_add : forall z e t f,
    queryRuntime B z e (addRuntime B z e t f) = true;
  query_remove : forall z e f,
    queryRuntime B z e (removeRuntime B z e f) = false;
  query_add_other : forall z e e' t f, e <> e' ->
    queryRuntime B z e' (addRuntime B z e t f) = queryRuntime B z e' f;
  query_remove_other : forall z e e' f, e <> e' ->
    queryRuntime B z e' (removeRuntime B z e f) = queryRuntime B z e' f;
  settings_add : forall e s, querySettings B e (addSettings B e s) = true;
  settings_remove : forall e s, querySettings B e (removeSettings B e s) = false;
  settings_add_other : forall e e' s, e <> e' ->
    querySettings B e' (addSettings B e s) = querySettings B e' s;
  settings_remove_other : forall e e' s, e <> e' ->
    querySettings B e' (removeSettings B e s) = querySettings B e' s;
  target_set : forall t s, getTarget B (setTarget B t s) = t;
  target_keeps : forall t e s,
    querySettings B e (setTarget B t s) = querySettings B e s;
  save_runtime : forall off z st e f,
    queryRuntime B z e (save off z st f) = queryRuntime B z e f;
  load_save_query : forall off z st e f,
    querySettings B e (load off z (save off z st f)) = querySettings B e st;
  load_save_target : forall off z st f,
    getTarget B (load off z (save off z st f)) = getTarget B st;
  zones_add : forall z e t (f : fwT B), same_zones f (addRuntime B z e t f);
  zones_remove : forall z e (f : fwT B), same_zones f (removeRuntime B z e f);
  zones_save : forall off z (st : settingsT B) (f : fwT B),
    same_zones f (save off z st f)
}.

(** Some plane the request works on disagrees with it: an entry it names
    is not as wanted on the runtime plane (when [runtime] is on, or the
    entry is a source) or in the settings (when [permanent] is on), or
    the settings' target is not the requested one. *)
Definition plane_disagrees {B : Backend} (z : string) (d : desired)
  (f : fwT B) (st : settingsT B) : Prop :=
  (exists e b, In (e, b) (requested d)
     /\ ((rt_gate_of d e = true /\ queryRuntime B z e f <> b)
         \/ (truthy (permanent d) = true /\ querySettings B e st <> b)))
  \/ (truthy (permanent d) = true
      /\ exists t, target d = Some t /\ getTarget B st <> t).

(** The same for a run of [main] from world [w]: the request as parsed,
    validated and connected. *)
Definition disagreement {B : Backend} (env : environment) (p : params)
  (w : world B) : Prop :=
  exists d0 off zn st w1,
    rbind (parse_params env p) validate = Ok d0
    /\ connect env d0 w = (Ok (off, zn, session_request env d0, st), w1)
    /\ plane_disagrees zn (session_request env d0) (fw_state w) st.

Section SecondRun.

Context {B : Backend}.
Variables (fw_offline : bool) (z : string) (d : desired).

(** The state the first run ends in, and the locals the second run
    starts from: firewalld as the first run left it, the settings
    loaded afresh. *)
Definition after_first (l0 : locals B) : locals B :=
  exec (modification false fw_offline z d) l0.

Definition second_start (l0 : locals B) (cs : list call) : locals B :=
  {| fw := fw (after_first l0);
     fw_settings := load fw_offline z (fw (after_first l0));
     changed := false; log := cs |}.

End SecondRun.

(** [mk p e] tells whether the steps for entry [e] on plane [p] assign
    [changed].  A check-mode state [ld] and a real state [lw] are
    related when they have the same [changed] and, as long as it is
    false, the same settings buffer and the same runtime answers for the
    entries whose steps assign [changed]. *)
Definition dry_wet {B : Backend} (z : string) (mk : plane -> entry -> bool)
  (ld lw : locals B) : Prop :=
  changed ld = changed lw
  /\ (changed lw = false ->
      fw_settings lw = fw_settings ld
      /\ forall e, mk Runtime e = true ->
                   queryRuntime B z e (fw lw) = queryRuntime B z e (fw ld)).

(** Whether the steps of a plan for entry [e] on plane [p] assign
    [changed]: all do, except the runtime removal of a service. *)
Definition marks (d : desired) (p : plane) (e : entry) : bool :=
  match p, e with
  | Runtime, Service _ => wanted d
  | _, _ => true
  end.

(** ** Notions for the properties of parsing, validation and the calls *)

(** How often [c] occurs in [s]. *)
Fixpoint count (c : ascii) (s : string) : nat :=
  match s with
  | EmptyString => 0
  | String c' s' => (if Ascii.eqb c' c then 1 else 0) + count c s'
  end.

(** A parsed port written back as [port/protocol]. *)
Definition port_string (x : string * string) : string :=
  (fst x ++ String "/" (snd x))%string.

(** Every rule list of the parameters is empty and no toggle, target or
    zone is given. *)
Definition empty_params (p : params) : Prop :=
  params_masquerade p = None /\ params_icmp_block_inversion p = None
  /\ params_target p = None /\ params_zone p = None
  /\ params_service p = [] /\ params_port p = []
  /\ params_source_port p = [] /\ params_forward_port p = []
  /\ params_rich_rule p = [] /\ params_source p = []
  /\ params_interface p = [] /\ params_icmp_block p = [].

(** What a request wants of an entry, for either presence state: a list
    entry as [state] says, a toggle as its value says. *)
Definition want_of (d : desired) (e : entry) : bool :=
  match e with
  | Masquerade => truthy (masquerade d)
  | IcmpBlockInversion => truthy (icmp_block_inversion d)
  | _ => wanted d
  end.

(** The position of a rule kind in the order of the blocks, and of a
    call: the target block comes after all kinds, the commit last. *)
Definition rank (e : entry) : nat :=
  match e with
  | Service _ => 0
  | Port _ _ => 1
  | SourcePort _ _ => 2
  | ForwardPort _ _ _ _ => 3
  | Masquerade => 4
  | RichRule _ => 5
  | Source _ => 6
  | Interface _ => 7
  | IcmpBlock _ => 8
  | IcmpBlockInversion => 9
  end%nat.

Definition call_rank (c : call) : nat :=
  match c with
  | Query _ e | Add _ e _ | Remove _ e => rank e
  | GetTarget | SetTarget _ => 10
  | Commit => 11
  | _ => 0
  end%nat.

(** The query a mutating call answers to. *)
Definition query_of (c : call) : option call :=
  match c with
  | Add p e _ | Remove p e => Some (Query p e)
  | SetTarget _ => Some GetTarget
  | _ => None
  end.

(** In [cs] every add, remove and setTarget comes right after the query
    it answers to. *)
Definition mutation_follows_query (cs : list call) : Prop :=
  forall pre c post q,
    cs = pre ++ c :: post -> query_of c = Some q ->
    exists pre', pre = pre' ++ [q].

(** [cs] does not begin with an add, remove or setTarget. *)
Definition starts_plain (cs : list call) : Prop :=
  forall c rest, cs = c :: rest -> query_of c = None.

(** The timeout argument of an [add]: the request's timeout on the
    runtime plane for the kinds whose [add] takes one, none otherwise. *)
Definition timeout_argument (tmo : Z) (pl : plane) (e : entry) : option Z :=
  match pl, e with
  | Runtime, (Service _ | Port _ _ | SourcePort _ _ | ForwardPort _ _ _ _
              | Masquerade | RichRule _ | IcmpBlock _) => Some tmo
  | _, _ => None
  end.

(** A request with ports, source ports, forward ports and a rich rule,
    for the permanent and the runtime plane of zone internal. *)
Definition web_request : params := {|
  params_service := ["http"];
  params_port := ["80/tcp"; "443/tcp"];
  params_source_port := ["1024-2048/udp"];
  params_forward_port := ["80/tcp;8080;"; "443/tcp;;10.0.0.5"];
  params_masquerade := Some false;
  params_rich_rule := ["rule family=ipv4 accept"];
  params_source := ["10.0.0.0/8"];
  params_interface := ["eth0"];
  params_icmp_block := ["echo-request"];
  params_icmp_block_inversion := None;
  params_timeout := 0;
  params_target := Some "DROP";
  params_zone := Some "internal";
  params_permanent := Some true;
  params_runtime := Some true;
  params_offline := None;
  params_state := enabled
|}.

(** The calls of the modification part that only read: the query of
    every guarded step, [getTarget] when a target is requested on the
    permanent plane, and the commit. *)
Definition is_read (c : call) : bool := negb (is_add_remove c).

Definition step_reads (s : step) : list call :=
  if s_gate s then [Query (s_plane s) (s_entry s)] else [].

Definition target_reads (d : desired) : list call :=
  match target d with
  | Some _ => if truthy (permanent d) then [GetTarget] else []
  | None => []
  end.

Definition read_calls (d : desired) : list call :=
  flat_map step_reads (plan d) ++ target_reads d ++ apply_calls d.

(** The same parameters with other values of [permanent] and
    [runtime]. *)
Definition with_planes (pm rt : option bool) (p : params) : params := {|
  params_service := params_service p;
  params_port := params_port p;
  params_source_port := params_source_port p;
  params_forward_port := params_forward_port p;
  params_masquerade := params_masquerade p;
  params_rich_rule := params_rich_rule p;
  params_source := params_source p;
  params_interface := params_interface p;
  params_icmp_block := params_icmp_block p;
  params_icmp_block_inversion := params_icmp_block_inversion p;
  params_timeout := params_timeout p;
  params_target := params_target p;
  params_zone := params_zone p;
  params_permanent := pm;
  params_runtime := rt;
  params_offline := params_offline p;
  params_state := params_state p
|}.

Definition msg_declined : string :=
  "Firewalld is not running and offline operation is declined.".

Definition msg_offline_version (env : environment) : string :=
  "Unsupported firewalld version " ++ FW_VERSION env
  ++ ", offline operation requires >= 0.3.9".

(** A parsed forward port written back as
    [port/protocol;to_port;to_addr], an absent segment as the empty
    string. *)
Definition segment (o : option string) : string :=
  match o with Some s => s | None => EmptyString end.

Definition forward_port_string
  (x : string * string * option string * option string) : string :=
  let '(a, b, tp, ta) := x in
  (port_string (a, b) ++ String ";" (segment tp ++ String ";" (segment ta)))%string.

(** The run gets as far as the modification part: the firewall package
    is there, the parameters parse and pass validation, and connecting
    gives a session. *)
Definition reaches_modification {B : Backend} (env : environment)
  (p : params) (w : world B) : Prop :=
  HAS_FIREWALLD env = true
  /\ exists d s w1,
       rbind (parse_params env p) validate = Ok d
       /\ connect env d w = (Ok s, w1).

(** A request for a target and nothing else. *)
Definition target_request (st : presence) (t : string)
  (perm rt : option bool) : desired := {|
  service := [];
  port := [];
  source_port := [];
  forward_port := [];
  masquerade := None;
  rich_rule := [];
  source := [];
  interface := [];
  icmp_block := [];
  icmp_block_inversion := None;
  timeout := 0;
  target := Some t;
  zone := None;
  permanent := perm;
  runtime := rt;
  offline := None;
  state := st
|}.

(** ** Basic facts about running the state monad *)

Section ExecFacts.

Context {B : Backend}.

Lemma exec_bind {A C : Type} (m : St B A) (k : A -> St B C) (l : locals B) :
  exec (bind m k) l = exec (k (fst (m l))) (snd (m l)).
Proof. unfold exec, bind. destruct (m l); reflexivity. Qed.

Lemma exec_seq {A : Type} (m : St B A) (k : St B unit) (l : locals B) :
  exec (m ;; k) l = exec k (exec m l).
Proof. rewrite exec_bind. reflexivity. Qed.

Lemma exec_ret {A : Type} (a : A) (l : locals B) : exec (ret a) l = l.
Proof. reflexivity. Qed.

Lemma exec_for_each_cons {A : Type} (x : A) (xs : list A)
  (body : A -> St B unit) (l : locals B) :
  exec (for_each (x :: xs) body) l = exec (for_each xs body) (exec (body x) l).
Proof. simpl. apply exec_seq. Qed.

Lemma exec_for_each_app {A : Type} (xs ys : list A)
  (body : A -> St B unit) (l : locals B) :
  exec (for_each (xs ++ ys) body) l
  = exec (for_each ys body) (exec (for_each xs body) l).
Proof.
  revert l. induction xs as [|x xs IH]; intro l.
  - reflexivity.
  - rewrite <- app_comm_cons, !exec_for_each_cons. apply IH.
Qed.

(** A loop whose body runs the steps [f x] runs the concatenated steps. *)
Lemma exec_for_each_steps {A : Type} (cm : bool) (z : string)
  (body : A -> St B unit) (f : A -> list step) (xs : list A) :
  (forall x l, exec (body x) l = exec (run_plan cm z (f x)) l) ->
  forall l, exec (for_each xs body) l = exec (run_plan cm z (flat_map f xs)) l.
Proof.
  intros Hbody. induction xs as [|x xs IH]; intro l.
  - reflexivity.
  - rewrite exec_for_each_cons. simpl flat_map. unfold run_plan in *.
    rewrite exec_for_each_app, <- Hbody. apply IH.
Qed.

End ExecFacts.

(** ** Each block runs its steps *)

Section Blocks.

Context {B : Backend}.
Variables (check_mode : bool) (z : string) (d : desired).

Ltac block :=
  intros; unfold run_plan, for_each, run_step, steps_of, rt_gate_of, tmo_of,
    rt_mark_of, wanted, when_, and_then, not_, unless_check_mode, exec,
    bind, ret; simpl;
  repeat match goal with
         | |- context [state d] => destruct (state d); simpl
         | |- context [truthy ?o] => destruct (truthy o); simpl
         | |- context [if check_mode then _ else _] => destruct check_mode; simpl
         | |- context [queryRuntime B ?a ?b ?c] => destruct (queryRuntime B a b c); simpl
         | |- context [querySettings B ?a ?b] => destruct (querySettings B a b); simpl
         end;
  reflexivity.

Lemma service_body_steps (item : string) (l : locals B) :
  exec (service_body check_mode z d item) l
  = exec (run_plan check_mode z (steps_of d (Service item, wanted d))) l.
Proof. unfold service_body. block. Qed.

Lemma port_body_steps (x : string * string) (l : locals B) :
  exec (port_body check_mode z d x) l
  = exec (run_plan check_mode z (steps_of d (Port (fst x) (snd x), wanted d))) l.
Proof. destruct x. unfold port_body. block. Qed.

Lemma source_port_body_steps (x : string * string) (l : locals B) :
  exec (source_port_body check_mode z d x) l
  = exec (run_plan check_mode z
            (steps_of d (SourcePort (fst x) (snd x), wanted d))) l.
Proof. destruct x. unfold source_port_body. block. Qed.

Lemma forward_port_body_steps
  (x : string * string * option string * option string) (l : locals B) :
  exec (forward_port_body check_mode z d x) l
  = exec (run_plan check_mode z
            (steps_of d
               (let '(_port, _protocol, _to_port, _to_addr) := x in
                (ForwardPort _port _protocol _to_port _to_addr, wanted d)))) l.
Proof. destruct x as [[[a b] c] e]. unfold forward_port_body. block. Qed.

Lemma rich_rule_body_steps (item : string) (l : locals B) :
  exec (rich_rule_body check_mode z d item) l
  = exec (run_plan check_mode z (steps_of d (RichRule item, wanted d))) l.
Proof. unfold rich_rule_body. block. Qed.

Lemma source_body_steps (item : string) (l : locals B) :
  exec (source_body check_mode z d item) l
  = exec (run_plan check_mode z (steps_of d (Source item, wanted d))) l.
Proof. unfold source_body. block. Qed.

Lemma interface_body_steps (item : string) (l : locals B) :
  exec (interface_body check_mode z d item) l
  = exec (run_plan check_mode z (steps_of d (Interface item, wanted d))) l.
Proof. unfold interface_body. block. Qed.

Lemma icmp_block_body_steps (item : string) (l : locals B) :
  exec (icmp_block_body check_mode z d item) l
  = exec (run_plan check_mode z (steps_of d (IcmpBlock item, wanted d))) l.
Proof. unfold icmp_block_body. block. Qed.

Lemma masquerade_block_steps (l : locals B) :
  exec (masquerade_block check_mode z d) l
  = exec (run_plan check_mode z
            (flat_map (steps_of d) (toggle (masquerade d) Masquerade))) l.
Proof.
  unfold masquerade_block, toggle. destruct (masquerade d) as [[|]|]; block.
Qed.

Lemma icmp_block_inversion_block_steps (l : locals B) :
  exec (icmp_block_inversion_block check_mode z d) l
  = exec (run_plan check_mode z
            (flat_map (steps_of d)
               (toggle (icmp_block_inversion d) IcmpBlockInversion))) l.
Proof.
  unfold icmp_block_inversion_block, toggle.
  destruct (icmp_block_inversion d) as [[|]|]; block.
Qed.

End Blocks.

(** ** What a step does, in closed form *)

Section StepFacts.

Context {B : Backend}.
Variables (check_mode : bool) (z : string).

Lemma exec_run_step (s : step) (l : locals B) :
  exec (run_step check_mode z s) l = step_fn check_mode z s l.
Proof.
  unfold run_step, step_fn, agrees, mutate, observe, when_, and_then, not_,
    unless_check_mode, exec, bind, ret, query.
  destruct s as [p g e w t m]; simpl.
  destruct g; [|reflexivity].
  destruct w, p, check_mode, m; simpl;
    try (destruct (queryRuntime B z e (fw l)); reflexivity);
    destruct (querySettings B e (fw_settings l)); reflexivity.
Qed.

Lemma exec_run_plan (ss : list step) (l : locals B) :
  exec (run_plan check_mode z ss) l = plan_fn check_mode z ss l.
Proof.
  revert l. induction ss as [|s ss IH]; intro l.
  - reflexivity.
  - unfold run_plan. rewrite exec_for_each_cons, exec_run_step. apply IH.
Qed.

Lemma plan_fn_app (ss ts : list step) (l : locals B) :
  plan_fn check_mode z (ss ++ ts) l = plan_fn check_mode z ts (plan_fn check_mode z ss l).
Proof. apply fold_left_app. Qed.

Lemma log_step_fn (s : step) (l : locals B) :
  log (step_fn check_mode z s l) = log l ++ step_calls check_mode z s l.
Proof.
  unfold step_fn, step_calls, mutate, mutation_call, exec.
  destruct (s_gate s); [|symmetry; apply app_nil_r].
  destruct (agrees z s l); [reflexivity|].
  destruct check_mode, (s_mark s), (s_want s), (s_plane s); simpl;
    rewrite <- ?app_assoc; reflexivity.
Qed.

Lemma log_plan_fn (ss : list step) (l : locals B) :
  log (plan_fn check_mode z ss l) = log l ++ plan_calls check_mode z ss l.
Proof.
  revert l. induction ss as [|s ss IH]; intro l; simpl.
  - symmetry; apply app_nil_r.
  - unfold plan_fn in *. rewrite IH, log_step_fn, app_assoc. reflexivity.
Qed.

Lemma changed_step_fn (s : step) (l : locals B) :
  changed (step_fn check_mode z s l)
  = changed l || (s_gate s && negb (agrees z s l) && s_mark s).
Proof.
  unfold step_fn, mutate, exec.
  destruct (s_gate s); [|simpl; rewrite orb_false_r; reflexivity].
  destruct (agrees z s l); [simpl; rewrite orb_false_r; reflexivity|].
  destruct check_mode, (s_mark s), (s_want s), (s_plane s); simpl;
    rewrite ?orb_true_r, ?orb_false_r; reflexivity.
Qed.

(** A step whose query agrees, or whose guard is off, leaves firewalld
    and the settings buffer alone; so does every step in check mode. *)
Lemma step_fn_idle (s : step) (l : locals B) :
  s_gate s = false \/ agrees z s l = true \/ check_mode = true ->
  fw (step_fn check_mode z s l) = fw l /\ fw_settings (step_fn check_mode z s l) = fw_settings l.
Proof.
  unfold step_fn. intros [H | [H | H]].
  - rewrite H. split; reflexivity.
  - rewrite H. destruct (s_gate s); split; reflexivity.
  - rewrite H. destruct (s_gate s), (agrees z s l), (s_mark s); split; reflexivity.
Qed.

Lemma step_calls_from (s : step) (l : locals B) :
  Forall (from_step check_mode s) (step_calls check_mode z s l).
Proof.
  unfold step_calls, from_step.
  destruct (s_gate s) eqn:Hg; [|constructor].
  constructor; [auto|].
  destruct (agrees z s l); [constructor|].
  destruct check_mode; constructor; auto.
Qed.

Lemma plan_calls_from (ss : list step) (l : locals B) :
  Forall (fun c => exists s, In s ss /\ from_step check_mode s c) (plan_calls check_mode z ss l).
Proof.
  revert l. induction ss as [|s ss IH]; intro l; simpl.
  - constructor.
  - apply Forall_app. split.
    + eapply Forall_impl; [|apply step_calls_from].
      intros c Hc. exists s. split; [left; reflexivity|exact Hc].
    + eapply Forall_impl; [|apply IH].
      intros c [s' [Hin Hc]]. exists s'. split; [right; exact Hin|exact Hc].
Qed.

(** Every guarded step of a plan issues its query. *)
Lemma plan_calls_query (ss : list step) (l : locals B) (s : step) :
  In s ss -> s_gate s = true ->
  In (Query (s_plane s) (s_entry s)) (plan_calls check_mode z ss l).
Proof.
  revert l. induction ss as [|s' ss IH]; intros l Hin Hg; simpl.
  - destruct Hin.
  - apply in_or_app. destruct Hin as [-> | Hin].
    + left. unfold step_calls. rewrite Hg. left; reflexivity.
    + right. apply IH; assumption.
Qed.

End StepFacts.

(** ** The modification part is its plan, the target block and the commit *)

Section ModificationFacts.

Context {B : Backend}.
Variables (check_mode fw_offline : bool) (z : string) (d : desired).

Lemma exec_target_block (l : locals B) :
  exec (target_block check_mode d) l = target_fn check_mode d l.
Proof.
  unfold target_block, target_fn, target_differs, when_, and_then,
    unless_check_mode, exec, bind, ret, get_target.
  destruct (target d) as [t|]; [|reflexivity].
  destruct (state d), (truthy (permanent d)); simpl; try reflexivity;
    destruct (String.eqb (getTarget B (fw_settings l)) t), check_mode;
    reflexivity.
Qed.

Lemma exec_apply_permanent (l : locals B) :
  exec (apply_permanent fw_offline z d) l = apply_fn fw_offline z d l.
Proof.
  unfold apply_permanent, apply_fn. destruct (truthy (permanent d)); reflexivity.
Qed.

Lemma log_target_fn (l : locals B) :
  log (target_fn check_mode d l) = log l ++ target_calls check_mode d l.
Proof.
  unfold target_fn, target_calls.
  destruct (target d) as [t|]; [|symmetry; apply app_nil_r].
  destruct (truthy (permanent d)); [|symmetry; apply app_nil_r].
  destruct (String.eqb (getTarget B (fw_settings l)) t); [reflexivity|].
  destruct check_mode; simpl; rewrite <- ?app_assoc; reflexivity.
Qed.

Lemma log_apply_fn (l : locals B) :
  log (apply_fn fw_offline z d l) = log l ++ apply_calls d.
Proof.
  unfold apply_fn, apply_calls.
  destruct (truthy (permanent d)); [reflexivity|symmetry; apply app_nil_r].
Qed.

Lemma changed_apply_fn (l : locals B) : changed (apply_fn fw_offline z d l) = changed l.
Proof. unfold apply_fn. destruct (truthy (permanent d)); reflexivity. Qed.

Lemma flat_map_map {A C D : Type} (f : C -> list D) (g : A -> C) (xs : list A) :
  flat_map f (map g xs) = flat_map (fun x => f (g x)) xs.
Proof.
  induction xs as [|x xs IH]; simpl; [reflexivity|]. rewrite IH. reflexivity.
Qed.

Theorem modification_plan (l : locals B) :
  exec (modification check_mode fw_offline z d) l
  = apply_fn fw_offline z d (target_fn check_mode d (plan_fn check_mode z (plan d) l)).
Proof.
  unfold modification.
  rewrite !exec_seq, exec_apply_permanent, exec_target_block.
  do 2 f_equal.
  rewrite (exec_for_each_steps check_mode z _ _ _ (service_body_steps check_mode z d)).
  rewrite (exec_for_each_steps check_mode z _ _ _ (port_body_steps check_mode z d)).
  rewrite (exec_for_each_steps check_mode z _ _ _ (source_port_body_steps check_mode z d)).
  rewrite (exec_for_each_steps check_mode z _ _ _ (forward_port_body_steps check_mode z d)).
  rewrite masquerade_block_steps.
  rewrite (exec_for_each_steps check_mode z _ _ _ (rich_rule_body_steps check_mode z d)).
  rewrite (exec_for_each_steps check_mode z _ _ _ (source_body_steps check_mode z d)).
  rewrite (exec_for_each_steps check_mode z _ _ _ (interface_body_steps check_mode z d)).
  rewrite (exec_for_each_steps check_mode z _ _ _ (icmp_block_body_steps check_mode z d)).
  rewrite icmp_block_inversion_block_steps.
  rewrite !exec_run_plan. unfold plan, requested.
  rewrite !flat_map_app, !flat_map_map, !plan_fn_app. reflexivity.
Qed.

Lemma log_modification (l : locals B) :
  log (exec (modification check_mode fw_offline z d) l)
  = log l ++ modification_calls check_mode z d l.
Proof.
  rewrite modification_plan, log_apply_fn, log_target_fn, log_plan_fn.
  unfold modification_calls. rewrite <- !app_assoc. reflexivity.
Qed.

End ModificationFacts.

(** ** The shape of the steps of a plan *)

Section PlanShape.

Variable d : desired.

Lemma in_plan (s : step) :
  In s (plan d) <->
  exists e b, In (e, b) (requested d)
    /\ (s = {| s_plane := Runtime; s_gate := rt_gate_of d e; s_entry := e;
               s_want := b; s_tmo := tmo_of d e; s_mark := rt_mark_of e b |}
        \/ s = {| s_plane := Permanent; s_gate := truthy (permanent d);
                  s_entry := e; s_want := b; s_tmo := None; s_mark := true |}).
Proof.
  unfold plan. rewrite in_flat_map. split.
  - intros [[e b] [Hin Hs]]. exists e, b. split; [exact Hin|].
    simpl in Hs. destruct Hs as [<- | [<- | []]]; auto.
  - intros [e [b [Hin Hs]]]. exists (e, b). split; [exact Hin|].
    simpl. destruct Hs as [-> | ->]; auto.
Qed.

Ltac in_requested H :=
  unfold requested in H;
  repeat (apply in_app_or in H; destruct H as [H | H]);
  try (apply in_map_iff in H; destruct H as [x [Hx H]];
       repeat match type of Hx with
              | (let '(_, _) := ?y in _) = _ => destruct y
              end;
       inversion Hx; subst; clear Hx).

(** The entries of the request and where they come from. *)
Lemma requested_source (item : string) (b : bool) :
  In (Source item, b) (requested d) -> In item (source d).
Proof.
  intro H. in_requested H; try assumption.
  all: unfold toggle in H.
  all: match type of H with
       | In _ (match ?v with _ => _ end) => destruct v
       end; simpl in H.
  all: try (destruct H as [H | []]; discriminate H).
  all: destruct H.
Qed.

Lemma source_requested (item : string) :
  In item (source d) -> In (Source item, wanted d) (requested d).
Proof.
  intro H. unfold requested.
  do 6 (apply in_or_app; right). apply in_or_app; left.
  apply in_map_iff. exists item. split; [reflexivity|exact H].
Qed.

Lemma requested_service (item : string) (b : bool) :
  In (Service item, b) (requested d) -> b = wanted d.
Proof.
  intro H. in_requested H; try reflexivity.
  all: unfold toggle in H.
  all: match type of H with
       | In _ (match ?v with _ => _ end) => destruct v
       end; simpl in H.
  all: try (destruct H as [H | []]; discriminate H).
  all: destruct H.
Qed.

(** A runtime step is guarded by [runtime], except the steps of a source
    entry, which have no guard; a permanent step is guarded by
    [permanent]. *)
Lemma plan_gate (s : step) :
  In s (plan d) ->
  match s_plane s with
  | Runtime =>
      s_gate s = truthy (runtime d)
      \/ (s_gate s = true /\ exists item, In item (source d) /\ s_entry s = Source item)
  | Permanent => s_gate s = truthy (permanent d)
  end.
Proof.
  intro H. apply in_plan in H. destruct H as [e [b [Hin [-> | ->]]]]; simpl.
  - destruct e; simpl; auto. right. split; [reflexivity|].
    exists item. split; [|reflexivity]. eapply requested_source; eassumption.
  - reflexivity.
Qed.

(** Every source entry has its unguarded runtime step in the plan. *)
Lemma plan_source (item : string) :
  In item (source d) ->
  In {| s_plane := Runtime; s_gate := true; s_entry := Source item;
        s_want := wanted d; s_tmo := None; s_mark := true |} (plan d).
Proof.
  intro H. apply in_plan. exists (Source item), (wanted d).
  split; [apply source_requested; exact H|]. left. reflexivity.
Qed.

Lemma requested_enabled (e : entry) (b : bool) :
  state d = enabled -> In (e, b) (requested d) -> b = want_for d e.
Proof.
  intros Hst H. in_requested H; unfold wanted, want_for; rewrite ?Hst;
    try reflexivity.
  all: unfold toggle in H.
  all: match type of H with
       | In _ (match ?v with _ => _ end) => destruct v as [tv|] eqn:Hv
       end; simpl in H.
  all: try (destruct H as [H | []]; inversion H; subst;
            destruct b; reflexivity).
  all: destruct H.
Qed.

Lemma plan_enabled (s : step) :
  state d = enabled -> In s (plan d) ->
  s_want s = want_for d (s_entry s) /\ s_mark s = true.
Proof.
  intros Hst H. apply in_plan in H. destruct H as [e [b [Hin Hs]]].
  pose proof (requested_enabled e b Hst Hin) as Hb.
  destruct Hs as [-> | ->]; simpl; split; auto.
  subst b. destruct e; simpl; auto.
Qed.

End PlanShape.

(** ** Parsing, validation and connecting: what a successful run went through *)

Lemma rbind_ok {A C : Type} (r : result A) (k : A -> result C) (c : C) :
  rbind r k = Ok c -> exists a, r = Ok a /\ k a = Ok c.
Proof. destruct r; simpl; intro H; try discriminate. eauto. Qed.

Lemma check_plane_selection_ok (d : desired) (r : option bool) :
  check_plane_selection d = Ok r -> r = runtime_after d.
Proof.
  unfold check_plane_selection, runtime_after.
  destruct (permanent d) as [[|]|]; try congruence.
  destruct (explicitly_false (runtime d) && explicitly_false (offline d));
    congruence.
Qed.

Lemma validate_ok (d d' : desired) :
  validate d = Ok d' -> d' = set_runtime (runtime_after d) d.
Proof.
  unfold validate. intro H.
  apply rbind_ok in H. destruct H as [r [Hr H]].
  apply check_plane_selection_ok in Hr. subst r.
  apply rbind_ok in H. destruct H as [_ [_ H]].
  apply rbind_ok in H. destruct H as [_ [_ H]].
  apply rbind_ok in H. destruct H as [_ [_ H]].
  congruence.
Qed.

(** The fields [parse_params] copies. *)
Lemma parse_params_ok (env : environment) (p : params) (d : desired) :
  parse_params env p = Ok d ->
  service d = params_service p /\ source d = params_source p
  /\ interface d = params_interface p /\ icmp_block d = params_icmp_block p
  /\ masquerade d = params_masquerade p
  /\ icmp_block_inversion d = params_icmp_block_inversion p
  /\ timeout d = params_timeout p /\ target d = params_target p
  /\ zone d = params_zone p /\ permanent d = params_permanent p
  /\ runtime d = params_runtime p /\ offline d = params_offline p
  /\ state d = params_state p.
Proof.
  unfold parse_params. intro H.
  repeat (apply rbind_ok in H; destruct H as [? [_ H]]).
  inversion H; subst; simpl. repeat split; reflexivity.
Qed.

Section ConnectFacts.

Context {B : Backend}.
Variable env : environment.

Lemma note_calls (c : call) (w : world B) : calls (note c w) = calls w ++ [c].
Proof. reflexivity. Qed.

Lemma connect_ok (d0 : desired) (w w1 : world B) (s : session) :
  connect env d0 w = (Ok s, w1) ->
  let '(off, zn, d, st) := s in
  off = negb (connected env) /\ d = session_request env d0
  /\ fw_state w1 = fw_state w
  /\ exists cs, calls w1 = calls w ++ cs /\ forallb is_bookkeeping cs = true.
Proof.
  destruct s as [[[off zn] d] st].
  unfold connect, offline_zone, connected_zone, session_request.
  destruct (HAS_FIREWALLD env); simpl; [|discriminate].
  destruct (connected env); simpl.
  - destruct (version_lt env "0.2.11"); [discriminate|].
    destruct (zone d0) as [zn0|].
    + destruct (truthy (runtime d0)); simpl;
        repeat match goal with
               | |- context [if ?c then _ else _] => destruct c; simpl
               end;
        intro H; inversion H; subst; simpl; repeat split;
        eexists; rewrite <- ?app_assoc; split; reflexivity.
    + intro H; inversion H; subst; simpl; repeat split.
      eexists; rewrite <- ?app_assoc; split; reflexivity.
  - destruct (truthy (offline d0)); simpl; [|discriminate].
    destruct (version_lt env "0.3.9"); [discriminate|].
    destruct (zone d0) as [zn0|]; simpl.
    + match goal with
      | |- context [if ?c then _ else _] => destruct c; simpl
      end; [discriminate|].
      intro H; inversion H; subst; simpl; repeat split.
      eexists; rewrite <- ?app_assoc; split; reflexivity.
    + intro H; inversion H; subst; simpl; repeat split.
      eexists; rewrite <- ?app_assoc; split; reflexivity.
Qed.

(** A successful run: the request parsed and validated, the connection
    made, and the modification part run from there. *)
Lemma main_ok (check_mode : bool) (p : params) (w w' : world B) (c : bool) :
  main env check_mode p w = (Ok c, w') ->
  exists d0 off zn st w1,
    rbind (parse_params env p) validate = Ok d0
    /\ connect env d0 w = (Ok (off, zn, session_request env d0, st), w1)
    /\ off = negb (connected env)
    /\ let l := exec (modification check_mode off zn (session_request env d0))
                  {| fw := fw_state w1; fw_settings := st; changed := false;
                     log := calls w1 |} in
       c = changed l /\ w' = {| fw_state := fw l; calls := log l |}.
Proof.
  unfold main. destruct (HAS_FIREWALLD env); simpl; [|discriminate].
  destruct (rbind (parse_params env p) validate) as [d0| |] eqn:Hp;
    try discriminate.
  destruct (connect env d0 w) as [[s| |] w1] eqn:Hc; try discriminate.
  pose proof (connect_ok _ _ _ _ Hc) as Hs.
  destruct s as [[[off zn] d] st]. destruct Hs as [Hoff [Hd _]]. subst d.
  unfold modify. intro H. inversion H; subst.
  exists d0, (negb (connected env)), zn, st, w1.
  split; [reflexivity|]. split; [exact Hc|]. repeat split; reflexivity.
Qed.

(** A run that parsing or validation rejects returns at once. *)
Lemma main_rejected (check_mode : bool) (p : params) (w : world B) :
  (forall d, rbind (parse_params env p) validate <> Ok d) ->
  exists r, main env check_mode p w = (r, w) /\ forall c, r <> Ok c.
Proof.
  unfold main. intro H. destruct (HAS_FIREWALLD env); simpl.
  - destruct (rbind (parse_params env p) validate) as [d| |].
    + exfalso. apply (H d). reflexivity.
    + eexists; split; [reflexivity|discriminate].
    + eexists; split; [reflexivity|discriminate].
  - eexists; split; [reflexivity|discriminate].
Qed.

End ConnectFacts.

(** ** Validation in the words of the rules *)

Lemma len_nonneg {A : Type} (l : list A) : 0 <= len l.
Proof. unfold len. lia. Qed.

Lemma len_zero {A : Type} (l : list A) : len l = 0 <-> l = [].
Proof.
  unfold len. split.
  - destruct l; [reflexivity|simpl; lia].
  - intros ->. reflexivity.
Qed.

Lemma len_pos {A : Type} (l : list A) : 0 < len l <-> l <> [].
Proof.
  pose proof (len_nonneg l). pose proof (len_zero l). split.
  - intros Hp He. apply H0 in He. lia.
  - intro Hn. destruct (Z.eq_dec (len l) 0) as [E|E]; [|lia].
    apply H0 in E. contradiction.
Qed.

Lemma is_none_true {A : Type} (o : option A) : is_none o = true <-> o = None.
Proof. destruct o; simpl; split; congruence. Qed.

Lemma is_none_false {A : Type} (o : option A) : is_none o = false <-> o <> None.
Proof. destruct o; simpl; split; congruence. Qed.

Lemma truthy_true (o : option bool) : truthy o = true <-> o = Some true.
Proof. destruct o as [[|]|]; simpl; split; congruence. Qed.

Lemma explicitly_false_true (o : option bool) :
  explicitly_false o = true <-> o = Some false.
Proof. destruct o as [[|]|]; simpl; split; congruence. Qed.

Lemma check_plane_selection_fails (d : desired) :
  (exists msg, check_plane_selection d = FailJson msg) <-> selects_no_plane d.
Proof.
  unfold check_plane_selection, selects_no_plane. split.
  - intros [msg H]. destruct (permanent d) as [[|]|]; try discriminate.
    destruct (explicitly_false (runtime d)) eqn:Hr; simpl in H; [|discriminate].
    destruct (explicitly_false (offline d)) eqn:Ho; [|discriminate].
    apply explicitly_false_true in Hr, Ho. auto.
  - intros [-> [-> ->]]. eexists; reflexivity.
Qed.

Lemma check_plane_selection_passes (d : desired) :
  ~ selects_no_plane d -> check_plane_selection d = Ok (runtime_after d).
Proof.
  intro H. destruct (check_plane_selection d) as [r| |] eqn:E.
  - apply check_plane_selection_ok in E. congruence.
  - exfalso. apply H. apply check_plane_selection_fails. eauto.
  - unfold check_plane_selection in E.
    destruct (permanent d) as [[|]|]; try discriminate.
    destruct (explicitly_false (runtime d) && explicitly_false (offline d));
      discriminate.
Qed.

Lemma check_empty_request_fails (d : desired) :
  check_empty_request d = FailJson msg_empty <-> empty_request d.
Proof.
  unfold check_empty_request, empty_request.
  pose proof (len_nonneg (service d)). pose proof (len_nonneg (port d)).
  pose proof (len_nonneg (source_port d)). pose proof (len_nonneg (forward_port d)).
  pose proof (len_nonneg (rich_rule d)). pose proof (len_nonneg (source d)).
  pose proof (len_nonneg (interface d)). pose proof (len_nonneg (icmp_block d)).
  split.
  - intro E.
    destruct (is_none (masquerade d)) eqn:N1; simpl in E; [|discriminate].
    destruct (is_none (icmp_block_inversion d)) eqn:N2; simpl in E; [|discriminate].
    destruct (is_none (target d)) eqn:N3; simpl in E; [|discriminate].
    destruct (is_none (zone d)) eqn:N4; simpl in E; [|discriminate].
    match type of E with
    | (if ?c then _ else _) = _ => destruct c eqn:N5; [|discriminate]
    end.
    apply Z.eqb_eq in N5.
    apply is_none_true in N1, N2, N3, N4.
    repeat split; try assumption; apply len_zero; lia.
  - intros (-> & -> & -> & -> & -> & -> & -> & -> & -> & -> & -> & ->).
    reflexivity.
Qed.

Lemma check_empty_request_passes (d : desired) :
  ~ empty_request d -> check_empty_request d = Ok tt.
Proof.
  intro H. destruct (check_empty_request d) as [[]| |] eqn:E; try reflexivity.
  - exfalso. apply H. apply check_empty_request_fails.
    unfold check_empty_request in *.
    match type of E with
    | (if ?c then _ else _) = _ => destruct c; [reflexivity|discriminate]
    end.
  - unfold check_empty_request in E.
    match type of E with
    | (if ?c then _ else _) = _ => destruct c; discriminate
    end.
Qed.

Lemma sum6_pos (a b c e f g : Z) :
  0 <= a -> 0 <= b -> 0 <= c -> 0 <= e -> 0 <= f -> 0 <= g ->
  (0 < a + b + c + e + f + g <-> 0 < a \/ 0 < b \/ 0 < c \/ 0 < e \/ 0 < f \/ 0 < g).
Proof. lia. Qed.

Lemma _timeout_ok_true (d : desired) : _timeout_ok d = true <-> timeout_bearing d.
Proof.
  unfold _timeout_ok, timeout_bearing.
  rewrite orb_true_iff, truthy_true, Z.gtb_lt.
  rewrite (sum6_pos _ _ _ _ _ _ (len_nonneg (service d)) (len_nonneg (port d))
             (len_nonneg (source_port d)) (len_nonneg (forward_port d))
             (len_nonneg (rich_rule d)) (len_nonneg (icmp_block d))).
  rewrite !len_pos.
  split.
  - intros [Hm | [Hs | [Hs | [Hs | [Hs | [Hs | Hs]]]]]]; auto 10.
  - intros [Hs | [Hs | [Hs | [Hs | [Hs | [Hs | Hm]]]]]]; auto 10.
Qed.

(** The checks after plane selection do not read [runtime]. *)
Lemma validate_after_selection (d : desired) :
  ~ selects_no_plane d ->
  validate d
  = rbind (check_empty_request d) (fun _ =>
    rbind (check_disabled d) (fun _ =>
    rbind (check_timeout d) (fun _ =>
    Ok (set_runtime (runtime_after d) d)))).
Proof.
  intro H. unfold validate. rewrite (check_plane_selection_passes d H).
  reflexivity.
Qed.

Lemma validate_no_plane (d : desired) :
  selects_no_plane d -> validate d = FailJson msg_no_plane.
Proof. intros [H1 [H2 H3]]. unfold validate, check_plane_selection.
  rewrite H1, H2, H3. reflexivity.
Qed.

Lemma check_empty_request_msg (d : desired) (msg : string) :
  check_empty_request d = FailJson msg -> msg = msg_empty.
Proof.
  unfold check_empty_request.
  match goal with
  | |- (if ?c then _ else _) = _ -> _ => destruct c
  end; congruence.
Qed.

Lemma check_disabled_msg (d : desired) (msg : string) :
  check_disabled d = FailJson msg ->
  state d = disabled /\ incompatible_with_disabled msg.
Proof.
  unfold check_disabled, incompatible_with_disabled.
  destruct (state d); [discriminate|].
  destruct (timeout d >? 0); [intro H; inversion H; auto|].
  destruct (truthy (masquerade d)); [intro H; inversion H; auto|].
  destruct (truthy (icmp_block_inversion d)); [intro H; inversion H; auto|].
  discriminate.
Qed.

Lemma check_timeout_msg (d : desired) (msg : string) :
  check_timeout d = FailJson msg -> timeout_not_applicable msg.
Proof.
  unfold check_timeout, timeout_not_applicable.
  destruct (timeout d >? 0); [|discriminate].
  repeat match goal with
         | |- (if ?c then _ else _) = _ -> _ =>
             destruct c; [intro H; inversion H; auto|]
         end.
  discriminate.
Qed.

Lemma selects_no_plane_dec (d : desired) :
  selects_no_plane d \/ ~ selects_no_plane d.
Proof.
  unfold selects_no_plane.
  destruct (permanent d) as [[|]|]; try (right; intros [H _]; discriminate).
  destruct (runtime d) as [[|]|]; try (right; intros [_ [H _]]; discriminate).
  destruct (offline d) as [[|]|]; try (right; intros [_ [_ H]]; discriminate).
  left. auto.
Qed.

(** The message a failed validation carries tells which rule fired. *)
Lemma validate_fails (d : desired) (msg : string) :
  validate d = FailJson msg ->
  (selects_no_plane d /\ msg = msg_no_plane)
  \/ (~ selects_no_plane d /\ empty_request d /\ msg = msg_empty)
  \/ (~ selects_no_plane d /\ ~ empty_request d
      /\ check_disabled d = FailJson msg)
  \/ (~ selects_no_plane d /\ ~ empty_request d /\ check_disabled d = Ok tt
      /\ check_timeout d = FailJson msg).
Proof.
  intro Hv. destruct (selects_no_plane_dec d) as [Hn | Hn].
  - left. rewrite (validate_no_plane d Hn) in Hv. split; congruence.
  - right. rewrite (validate_after_selection d Hn) in Hv.
    destruct (check_empty_request d) as [[]| |] eqn:He; simpl in Hv;
      try discriminate.
    + assert (Hne : ~ empty_request d).
      { intro H. apply check_empty_request_fails in H. congruence. }
      right.
      destruct (check_disabled d) as [[]| |] eqn:Hd; simpl in Hv;
        try discriminate.
      * right. destruct (check_timeout d) as [[]| |] eqn:Ht; simpl in Hv;
          try discriminate. inversion Hv; subst. auto.
      * left. inversion Hv; subst. auto.
    + left. inversion Hv; subst.
      pose proof (check_empty_request_msg d _ He) as ->.
      split; [assumption|]. split; [|reflexivity].
      apply check_empty_request_fails. assumption.
Qed.

Lemma validate_never_raises (d : desired) (e : pyexc) : validate d <> Raised e.
Proof.
  intro Hv. destruct (selects_no_plane_dec d) as [Hn | Hn].
  - rewrite (validate_no_plane d Hn) in Hv. discriminate.
  - rewrite (validate_after_selection d Hn) in Hv.
    destruct (check_empty_request d) as [[]| |] eqn:He; simpl in Hv;
      try discriminate.
    + destruct (check_disabled d) as [[]| |] eqn:Hd; simpl in Hv;
        try discriminate.
      * destruct (check_timeout d) as [[]| |] eqn:Ht; simpl in Hv;
          try discriminate.
        unfold check_timeout in Ht.
        repeat match type of Ht with
               | (if ?c then _ else _) = _ => destruct c; try discriminate
               end.
      * unfold check_disabled in Hd. destruct (state d); try discriminate.
        repeat match type of Hd with
               | (if ?c then _ else _) = _ => destruct c; try discriminate
               end.
    + unfold check_empty_request in He.
      match type of He with
      | (if ?c then _ else _) = _ => destruct c; discriminate
      end.
Qed.

(** ** parse_port *)

Lemma split_without_separator (sep : ascii) (s : string) :
  contains sep s = false -> split sep s = [s].
Proof.
  induction s as [|c s IH]; simpl; intro H.
  - reflexivity.
  - apply orb_false_iff in H. destruct H as [Hc Hs].
    rewrite Hc, (IH Hs). reflexivity.
Qed.

(** An item without a slash never reaches the format check of
    [parse_port]: unpacking the one-element list raises. *)
Lemma parse_port_without_slash (item : string) :
  contains "/" item = false ->
  parse_port item
  = Raised (ValueError "not enough values to unpack (expected 2, got 1)").
Proof.
  intro H. unfold parse_port. rewrite (split_without_separator _ _ H).
  reflexivity.
Qed.

Example parse_port_range : parse_port "80-82/tcp" = Ok ("80-82", "tcp").
Proof. reflexivity. Qed.

Example parse_port_bare : exists m, parse_port "80" = Raised (ValueError m).
Proof. eexists; reflexivity. Qed.

Example parse_forward_port_3 :
  parse_forward_port "80/tcp;8080;" = Ok ("80", "tcp", Some "8080", None).
Proof. reflexivity. Qed.

(** The format message of [parse_port] is never produced. *)
Lemma parse_port_never_fail_json (item msg : string) :
  parse_port item <> FailJson msg.
Proof.
  unfold parse_port, unpack2, is_None.
  destruct (split "/" item) as [|a [|b [|c rest]]]; discriminate.
Qed.

(** An item with two slashes is not split at the last one: it raises. *)
Example parse_port_two_slashes :
  parse_port "80/tcp/udp"
  = Raised (ValueError "too many values to unpack (expected 2)").
Proof. reflexivity. Qed.

(** C3.  [parse_port "80-82/tcp"] is [("80-82", "tcp")], but on ["80"],
    which has no protocol segment, [parse_port] does not fail through
    [module.fail_json] with the port format message: the unpacking of
    [item.split("/")] raises ValueError first. *)
Theorem parse_port_missing_protocol_raises :
  parse_port "80-82/tcp" = Ok ("80-82", "tcp")
  /\ parse_port "80"
     = Raised (ValueError "not enough values to unpack (expected 2, got 1)")
  /\ forall msg, parse_port "80" <> FailJson msg.
Proof.
  split; [reflexivity|]. split; [reflexivity|]. intros msg H. discriminate H.
Qed.

(** ** Plane selection *)

(** With [permanent] false and [runtime] and [offline] left unset, no
    plane is selected and validation passes. *)
Lemma plane_selection_unset_passes :
  let d := Stub.wish enabled ["http"] [] 0 (Some false) None None in
  permanent d = Some false /\ truthy (runtime d) = false
  /\ truthy (offline d) = false /\ validate d = Ok d.
Proof. repeat split; reflexivity. Qed.

(** The plane check as lines 271-279 have it.  With [permanent]
    explicitly false, validation fails with the no-plane message exactly
    when [runtime] and [offline] are both explicitly false; with
    [permanent] unset the plane check passes with [runtime] set to true,
    whatever the caller gave, and that is the value a validated request
    carries. *)
Theorem plane_selection_explicit (d : desired) :
  (permanent d = Some false ->
   (validate d = FailJson msg_no_plane
    <-> runtime d = Some false /\ offline d = Some false))
  /\ (permanent d = None ->
      check_plane_selection d = Ok (Some true)
      /\ forall d', validate d = Ok d' -> runtime d' = Some true).
Proof.
  split.
  - intro Hp. split.
    + intro Hv. apply validate_fails in Hv.
      destruct Hv as [[[_ [Hr Ho]] _] | [[_ [_ Hm]] | [[_ [_ Hc]] | [_ [_ [_ Hc]]]]]].
      * auto.
      * discriminate Hm.
      * apply check_disabled_msg in Hc. destruct Hc as [_ [H | [H | H]]];
          discriminate H.
      * apply check_timeout_msg in Hc. destruct Hc as [H | [H | [H | H]]];
          discriminate H.
    + intros [Hr Ho]. apply validate_no_plane. repeat split; assumption.
  - intro Hp. split.
    + unfold check_plane_selection. rewrite Hp. reflexivity.
    + intros d' Hv. apply validate_ok in Hv. subst d'.
      unfold runtime_after. rewrite Hp. reflexivity.
Qed.

Lemma plane_selection_explicit_witness :
  validate (Stub.wish enabled ["http"] [] 0 (Some false) (Some false) (Some false))
  = FailJson msg_no_plane
  /\ check_plane_selection (Stub.wish enabled ["http"] [] 0 None (Some false) None)
     = Ok (Some true).
Proof.
  split.
  - apply (proj1 (plane_selection_explicit _)); [reflexivity|].
    split; reflexivity.
  - apply (proj2 (plane_selection_explicit _)). reflexivity.
Defined.

(** C4.  With [permanent] false, the plane check of lines 271-279 lets
    every request pass that leaves [runtime] or [offline] unset, though
    neither of them is true and no plane is selected: lines 274-275 test
    [is not None and not ...].  Such a request for a service is
    accepted, the run connects, never asks firewalld about the service,
    changes nothing and exits with [changed = False]. *)
Theorem no_plane_request_accepted :
  (forall d, permanent d = Some false ->
             runtime d = None \/ offline d = None ->
             check_plane_selection d = Ok (runtime d)
             /\ validate d <> FailJson msg_no_plane)
  /\ let p := Stub.ask enabled ["http"] [] 0 (Some false) None None in
     let r := main Stub.online false p (Stub.start Stub.fresh) in
     truthy (params_runtime p) = false /\ truthy (params_offline p) = false
     /\ fst r = Ok false
     /\ calls (snd r) = [FirewallClient; GetDefaultZone; GetSettings]
     /\ fw_state (snd r) = Stub.fresh.
Proof.
  split.
  - intros d Hp Hu. split.
    + unfold check_plane_selection. rewrite Hp.
      destruct Hu as [-> | ->]; simpl; rewrite ?andb_false_r; reflexivity.
    + intro Hv. apply (proj1 (plane_selection_explicit d) Hp) in Hv.
      destruct Hv as [Hr Ho]. destruct Hu; congruence.
  - repeat split; reflexivity.
Qed.

(** ** Timeout scoping *)

Lemma check_timeout_fails (d : desired) :
  timeout d > 0 ->
  ((exists msg, check_timeout d = FailJson msg)
   <-> ~ timeout_bearing d /\ timeout_free d).
Proof.
  intro Ht. apply Z.gt_lt in Ht. apply Z.gtb_lt in Ht.
  unfold check_timeout, timeout_free. rewrite Ht.
  pose proof (_timeout_ok_true d) as Hok.
  destruct (_timeout_ok d); simpl; rewrite ?andb_false_r.
  - split; [intros [msg H]; discriminate|].
    intros [Hn _]. exfalso. apply Hn. apply Hok. reflexivity.
  - assert (Hn : ~ timeout_bearing d) by (intro H; apply Hok in H; discriminate).
    rewrite !andb_true_r.
    destruct (icmp_block_inversion d) as [b|]; simpl.
    { split; [intros _; split; [exact Hn|left; discriminate]|eauto]. }
    destruct (source d) as [|x xs]; unfold len; simpl.
    2:{ split; [intros _; split; [exact Hn|right; left; discriminate]|eauto]. }
    destruct (interface d) as [|y ys]; simpl.
    2:{ split; [intros _; split; [exact Hn|right; right; left; discriminate]|eauto]. }
    destruct (target d) as [t|]; simpl.
    { split; [intros _; split; [exact Hn|right; right; right; discriminate]|eauto]. }
    split; [intros [msg H]; discriminate|].
    intros [_ [H | [H | [H | H]]]]; exfalso; apply H; reflexivity.
Qed.

Lemma check_timeout_bearing (d : desired) :
  timeout_bearing d -> check_timeout d = Ok tt.
Proof.
  intro H. apply _timeout_ok_true in H. unfold check_timeout. rewrite H.
  simpl. rewrite !andb_false_r. destruct (timeout d >? 0); reflexivity.
Qed.

Lemma timeout_free_not_empty (d : desired) : timeout_free d -> ~ empty_request d.
Proof.
  unfold timeout_free, empty_request.
  intros [H | [H | [H | H]]] (E1 & E2 & E3 & E4 & E5 & E6 & E7 & E8 & E9 & E10 & E11 & E12);
    contradiction.
Qed.

Lemma timeout_bearing_not_empty (d : desired) :
  timeout_bearing d -> ~ empty_request d.
Proof.
  unfold timeout_bearing, empty_request.
  intros [H | [H | [H | [H | [H | [H | H]]]]]]
    (E1 & E2 & E3 & E4 & E5 & E6 & E7 & E8 & E9 & E10 & E11 & E12);
    try contradiction. congruence.
Qed.

Lemma check_disabled_enabled (d : desired) :
  state d = enabled -> check_disabled d = Ok tt.
Proof. unfold check_disabled. intros ->. reflexivity. Qed.

(** C5, as stated, fails: a disabled request with a positive timeout and
    a source as the only thing set is rejected by the disabled-state
    rule, which comes first, not by the timeout rule. *)
Lemma timeout_scoping_after_disabled_rule :
  let d := Stub.wish disabled [] ["10.0.0.1"] 5 None None None in
  timeout d > 0 /\ ~ timeout_bearing d /\ timeout_free d
  /\ validate d = FailJson msg_disabled_timeout
  /\ ~ timeout_not_applicable msg_disabled_timeout.
Proof.
  split; [reflexivity|]. split.
  - intros [H | [H | [H | [H | [H | [H | H]]]]]];
      try (apply H; reflexivity). discriminate H.
  - split; [right; left; discriminate|]. split; [reflexivity|].
    intros [H | [H | [H | H]]]; discriminate H.
Qed.

(** C5, amended.  For a request with a positive timeout that selects a
    plane and asks for presence, validation fails with one of the
    timeout messages exactly when none of the timeout-bearing kinds and
    at least one of inversion, source, interface, target is requested;
    with a timeout-bearing kind requested the request passes. *)
Theorem timeout_scoping (d : desired) :
  timeout d > 0 -> state d = enabled -> ~ selects_no_plane d ->
  ((exists msg, validate d = FailJson msg /\ timeout_not_applicable msg)
   <-> ~ timeout_bearing d /\ timeout_free d)
  /\ (timeout_bearing d ->
      check_timeout d = Ok tt
      /\ validate d = Ok (set_runtime (runtime_after d) d)).
Proof.
  intros Ht Hst Hsel. split; [split|].
  - intros [msg [Hv Hm]]. apply validate_fails in Hv.
    destruct Hv as [[Hn _] | [[_ [_ He]] | [[_ [_ Hc]] | [_ [_ [_ Hc]]]]]].
    + contradiction.
    + subst msg. destruct Hm as [H | [H | [H | H]]]; discriminate H.
    + apply check_disabled_msg in Hc. destruct Hc as [Hd _]. congruence.
    + apply (check_timeout_fails d Ht). eauto.
  - intros [Hn Hf].
    destruct (proj2 (check_timeout_fails d Ht) (conj Hn Hf)) as [msg Hc].
    exists msg. split; [|apply (check_timeout_msg d); exact Hc].
    rewrite (validate_after_selection d Hsel).
    rewrite (check_empty_request_passes d (timeout_free_not_empty d Hf)).
    simpl. rewrite (check_disabled_enabled d Hst). simpl. rewrite Hc.
    reflexivity.
  - intro Hb. split; [apply check_timeout_bearing; exact Hb|].
    rewrite (validate_after_selection d Hsel).
    rewrite (check_empty_request_passes d (timeout_bearing_not_empty d Hb)).
    simpl. rewrite (check_disabled_enabled d Hst). simpl.
    rewrite (check_timeout_bearing d Hb). reflexivity.
Qed.

Lemma timeout_scoping_witness :
  (exists msg,
     validate (Stub.wish enabled [] ["10.0.0.1"] 5 None None None) = FailJson msg
     /\ timeout_not_applicable msg)
  /\ check_timeout (Stub.wish enabled ["http"] ["10.0.0.1"] 5 None None None) = Ok tt.
Proof.
  split.
  - apply (proj1 (timeout_scoping
                    (Stub.wish enabled [] ["10.0.0.1"] 5 None None None)
                    eq_refl eq_refl
                    ltac:(intros [H _]; discriminate H))).
    split.
    + intros [H | [H | [H | [H | [H | [H | H]]]]]];
        try (apply H; reflexivity). discriminate H.
    + right; left. discriminate.
  - apply (proj2 (timeout_scoping
                    (Stub.wish enabled ["http"] ["10.0.0.1"] 5 None None None)
                    eq_refl eq_refl
                    ltac:(intros [H _]; discriminate H))).
    left. discriminate.
Defined.

(** ** Restrictions of state: disabled *)

Lemma check_disabled_fails (d : desired) :
  state d = disabled ->
  timeout d > 0 \/ masquerade d = Some true \/ icmp_block_inversion d = Some true ->
  exists msg, check_disabled d = FailJson msg /\ incompatible_with_disabled msg.
Proof.
  intros Hst H. unfold check_disabled, incompatible_with_disabled. rewrite Hst.
  destruct (timeout d >? 0) eqn:Ht; [eauto|].
  destruct (truthy (masquerade d)) eqn:Hm; [eauto|].
  destruct (truthy (icmp_block_inversion d)) eqn:Hi; [eauto 6|].
  exfalso. destruct H as [H | [H | H]].
  - apply Z.gt_lt, Z.gtb_lt in H. congruence.
  - apply truthy_true in H. congruence.
  - apply truthy_true in H. congruence.
Qed.

(** C9, as stated, fails: a disabled request with timeout 5 and nothing
    else is rejected as an empty request. *)
Lemma disabled_timeout_alone_is_empty :
  main Stub.online false (Stub.ask disabled [] [] 5 None None None)
    (Stub.start Stub.fresh)
  = (FailJson msg_empty, Stub.start Stub.fresh)
  /\ ~ incompatible_with_disabled msg_empty.
Proof.
  split; [reflexivity|]. intros [H | [H | H]]; discriminate H.
Qed.

(** C9, amended.  A disabled request that selects a plane and is not
    empty fails with one of the disabled-state messages when its timeout
    is positive, or masquerade is true, or icmp_block_inversion is true;
    the run ends in the world it started in: no firewalld client was
    created and no call was made. *)
Theorem disabled_restrictions {B : Backend} (env : environment)
  (check_mode : bool) (p : params) (d : desired) (w : world B) :
  HAS_FIREWALLD env = true -> parse_params env p = Ok d ->
  state d = disabled -> ~ selects_no_plane d -> ~ empty_request d ->
  timeout d > 0 \/ masquerade d = Some true \/ icmp_block_inversion d = Some true ->
  exists msg,
    incompatible_with_disabled msg
    /\ main env check_mode p w = (FailJson msg, w).
Proof.
  intros Hfw Hp Hst Hsel Hne H.
  destruct (check_disabled_fails d Hst H) as [msg [Hc Hm]].
  exists msg. split; [exact Hm|].
  unfold main. rewrite Hfw, Hp. simpl.
  rewrite (validate_after_selection d Hsel).
  rewrite (check_empty_request_passes d Hne). simpl. rewrite Hc. reflexivity.
Qed.

Lemma disabled_restrictions_witness :
  exists msg,
    incompatible_with_disabled msg
    /\ main Stub.online false (Stub.ask disabled ["http"] [] 5 None None None)
         (Stub.start Stub.fresh)
       = (FailJson msg, Stub.start Stub.fresh).
Proof.
  apply (disabled_restrictions Stub.online false
           (Stub.ask disabled ["http"] [] 5 None None None)
           (Stub.wish disabled ["http"] [] 5 None None None)
           (Stub.start Stub.fresh) eq_refl eq_refl eq_refl).
  - intros [H _]. discriminate H.
  - intros (_ & _ & _ & _ & H & _). discriminate H.
  - left. reflexivity.
Defined.

(** ** The calls of a run *)

Section CallFacts.

Context {B : Backend}.

Lemma bookkeeping_forall (P : call -> Prop) (cs : list call) :
  (forall c, is_bookkeeping c = true -> P c) ->
  forallb is_bookkeeping cs = true -> Forall P cs.
Proof.
  intros HP H. apply Forall_forall. intros c Hc.
  apply HP. rewrite forallb_forall in H. apply H. exact Hc.
Qed.

Lemma connect_calls (env : environment) (d0 : desired) (w w1 : world B)
  (r : result (@session B)) :
  connect env d0 w = (r, w1) ->
  fw_state w1 = fw_state w
  /\ exists cs, calls w1 = calls w ++ cs /\ forallb is_bookkeeping cs = true.
Proof.
  unfold connect, offline_zone, connected_zone.
  repeat match goal with
         | |- context [if ?c then _ else _] => destruct c; simpl
         | |- context [match zone d0 with _ => _ end] => destruct (zone d0); simpl
         end;
    intro H; inversion H; subst; simpl; (split; [reflexivity|]);
    try (exists []; rewrite app_nil_r; split; reflexivity);
    eexists; rewrite <- ?app_assoc; split; reflexivity.
Qed.

Variables (check_mode : bool) (z : string) (d : desired).

(** A property of calls holds of every call of the modification part
    once it holds of what the plan's guarded steps, the target block and
    the commit can issue. *)
Lemma modification_calls_forall (P : call -> Prop) (l : locals B) :
  (forall s c, In s (plan d) -> from_step check_mode s c -> P c) ->
  (truthy (permanent d) = true -> P GetTarget) ->
  (forall t, truthy (permanent d) = true -> target d = Some t ->
             check_mode = false -> P (SetTarget t)) ->
  (truthy (permanent d) = true -> P Commit) ->
  Forall P (modification_calls check_mode z d l).
Proof.
  intros Hs Hg Ht Hc. unfold modification_calls.
  apply Forall_app. split; [|apply Forall_app; split].
  - eapply Forall_impl; [|apply plan_calls_from].
    intros c [s [Hin Hf]]. eapply Hs; eassumption.
  - unfold target_calls. destruct (target d) as [t|] eqn:Et; [|constructor].
    destruct (truthy (permanent d)) eqn:Ep; [|constructor].
    constructor; [auto|].
    destruct (String.eqb _ t); [constructor|].
    destruct check_mode eqn:Ec; constructor; [|constructor].
    apply (Ht t); auto.
  - unfold apply_calls. destruct (truthy (permanent d)); repeat constructor.
    auto.
Qed.

Lemma from_step_not_commit (s : step) (c : call) :
  from_step check_mode s c -> is_commit c = false.
Proof.
  intros [_ [-> | [_ ->]]]; [reflexivity|].
  unfold mutation_call. destruct (s_want s); reflexivity.
Qed.

Lemma from_step_plane (s : step) (c : call) :
  from_step check_mode s c ->
  call_plane c = Some (s_plane s) /\ call_entry c = Some (s_entry s).
Proof.
  intros [_ [-> | [_ ->]]]; [split; reflexivity|].
  unfold mutation_call. destruct (s_want s); split; reflexivity.
Qed.

(** Before the commit no commit is issued. *)
Lemma modification_calls_commit (l : locals B) :
  exists before,
    modification_calls check_mode z d l = before ++ apply_calls d
    /\ Forall (fun c => is_commit c = false) before.
Proof.
  unfold modification_calls. eexists. rewrite app_assoc. split; [reflexivity|].
  apply Forall_app. split.
  - eapply Forall_impl; [|apply plan_calls_from].
    intros c [s [_ Hf]]. eapply from_step_not_commit; eassumption.
  - unfold target_calls. destruct (target d); [|constructor].
    destruct (truthy (permanent d)); [|constructor].
    constructor; [reflexivity|].
    destruct (String.eqb _ _); [constructor|].
    destruct check_mode; repeat constructor.
Qed.

End CallFacts.

Lemma session_permanent (env : environment) (p : params) (d0 : desired) :
  rbind (parse_params env p) validate = Ok d0 ->
  truthy (permanent (session_request env d0)) = permanent_active env p.
Proof.
  intro H. apply rbind_ok in H. destruct H as [d [Hp Hv]].
  apply validate_ok in Hv. apply parse_params_ok in Hp.
  destruct Hp as (_ & _ & _ & _ & _ & _ & _ & _ & _ & Hperm & _).
  subst d0. unfold session_request, permanent_active.
  destruct (connected env); simpl.
  - rewrite Hperm, orb_false_r. reflexivity.
  - rewrite orb_true_r. reflexivity.
Qed.

(** The calls of a whole run: bookkeeping, then, when the run gets that
    far, the calls of the modification part. *)
Lemma main_calls {B : Backend} (env : environment) (check_mode : bool)
  (p : params) (w w' : world B) (r : result bool) :
  main env check_mode p w = (r, w') ->
  exists cs, forallb is_bookkeeping cs = true
    /\ ((calls w' = calls w ++ cs /\ forall c, r <> Ok c)
        \/ exists d0 zn (l : locals B),
             rbind (parse_params env p) validate = Ok d0
             /\ r = Ok (changed (exec (modification check_mode
                                   (negb (connected env)) zn
                                   (session_request env d0)) l))
             /\ calls w' = calls w ++ cs
                  ++ modification_calls check_mode zn (session_request env d0) l).
Proof.
  intro H. destruct r as [c| |].
  - apply main_ok in H.
    destruct H as (d0 & off & zn & st & w1 & Hp & Hc & -> & Hch & ->).
    apply connect_calls in Hc. destruct Hc as [_ [cs [Hcs Hb]]].
    exists cs. split; [exact Hb|]. right.
    eexists d0, zn, _. split; [exact Hp|]. split; [subst c; reflexivity|].
    simpl. rewrite log_modification. simpl. rewrite Hcs, app_assoc. reflexivity.
  - unfold main in H. destruct (HAS_FIREWALLD env); simpl in H.
    + destruct (rbind (parse_params env p) validate) as [d0| |].
      * destruct (connect env d0 w) as [[s| |] w1] eqn:Hc;
          [destruct s as [[[? ?] ?] ?]; discriminate| |discriminate].
        inversion H; subst. apply connect_calls in Hc.
        destruct Hc as [_ [cs [Hcs Hb]]]. exists cs. split; [exact Hb|].
        left. split; [exact Hcs|discriminate].
      * inversion H; subst. exists []. split; [reflexivity|]. left.
        rewrite app_nil_r. split; [reflexivity|discriminate].
      * discriminate.
    + inversion H; subst. exists []. split; [reflexivity|]. left.
      rewrite app_nil_r. split; [reflexivity|discriminate].
  - unfold main in H. destruct (HAS_FIREWALLD env); simpl in H.
    + destruct (rbind (parse_params env p) validate) as [d0| |].
      * destruct (connect env d0 w) as [[s| |] w1] eqn:Hc;
          [destruct s as [[[? ?] ?] ?]; discriminate|discriminate|].
        inversion H; subst. apply connect_calls in Hc.
        destruct Hc as [_ [cs [Hcs Hb]]]. exists cs. split; [exact Hb|].
        left. split; [exact Hcs|discriminate].
      * discriminate.
      * inversion H; subst. exists []. split; [reflexivity|]. left.
        rewrite app_nil_r. split; [reflexivity|discriminate].
    + discriminate.
Qed.

(** ** The changed flag of an executed removal *)

(** The service block on a disabled request, with [runtime] on and
    [permanent] off, when firewalld has the service at runtime: the
    service is removed and [changed] stays as it was. *)
Lemma service_removal_keeps_changed {B : Backend} (z : string) (d : desired)
  (item : string) (l : locals B) :
  state d = disabled -> truthy (runtime d) = true ->
  truthy (permanent d) = false ->
  queryRuntime B z (Service item) (fw l) = true ->
  let l' := exec (service_body false z d item) l in
  log l' = log l ++ [Query Runtime (Service item); Remove Runtime (Service item)]
  /\ fw l' = removeRuntime B z (Service item) (fw l)
  /\ changed l' = changed l.
Proof.
  intros Hst Hrt Hpm Hq.
  unfold service_body, when_, and_then, unless_check_mode, exec, bind, query,
    remove, record.
  rewrite Hst, Hrt, Hpm. simpl. rewrite Hq. simpl.
  rewrite <- app_assoc. repeat split; reflexivity.
Qed.

(** C1.  A disabled request for service http, run against a firewalld
    whose runtime configuration has the service: the service is removed
    from the runtime plane and the run reports [changed = False]. *)
Theorem service_runtime_removal_unreported :
  let r := main Stub.online false
             (Stub.ask disabled ["http"] [] 0 None None None)
             (Stub.start (Stub.serving [Service "http"])) in
  fst r = Ok false
  /\ calls (snd r)
     = [FirewallClient; GetDefaultZone; GetSettings;
        Query Runtime (Service "http"); Remove Runtime (Service "http")]
  /\ Stub.running (fw_state (snd r)) = [].
Proof. repeat split; reflexivity. Qed.

(** The sibling kinds report the same removal: here a source. *)
Example source_runtime_removal_reported :
  let r := main Stub.online false
             (Stub.ask disabled [] ["10.0.0.1"] 0 None None None)
             (Stub.start (Stub.serving [Source "10.0.0.1"])) in
  fst r = Ok true
  /\ calls (snd r)
     = [FirewallClient; GetDefaultZone; GetSettings;
        Query Runtime (Source "10.0.0.1"); Remove Runtime (Source "10.0.0.1")].
Proof. repeat split; reflexivity. Qed.

(** ** Check mode *)

(** C2.  In check mode with [permanent] true the run queries the
    settings, adds nothing, and still writes the settings back. *)
Theorem check_mode_commits :
  let r := main Stub.online true
             (Stub.ask enabled ["http"] [] 0 (Some true) None None)
             (Stub.start Stub.fresh) in
  fst r = Ok true
  /\ calls (snd r)
     = [FirewallClient; GetDefaultZone; GetSettings;
        Query Permanent (Service "http"); Commit].
Proof. repeat split; reflexivity. Qed.

(** In check mode no add, remove or setTarget is ever issued. *)
Lemma check_mode_no_add_remove {B : Backend} (env : environment)
  (p : params) (w w' : world B) (r : result bool) :
  main env true p w = (r, w') ->
  exists cs, calls w' = calls w ++ cs
             /\ Forall (fun c => is_add_remove c = false) cs.
Proof.
  intro H. apply main_calls in H. destruct H as [cs [Hb H]].
  assert (Hcs : Forall (fun c => is_add_remove c = false) cs).
  { apply bookkeeping_forall; [|exact Hb]. intros [] Hc; try discriminate;
      reflexivity. }
  destruct H as [[Hw _] | (d0 & zn & l & _ & _ & Hw)].
  - exists cs. split; assumption.
  - eexists. split; [exact Hw|]. apply Forall_app. split; [exact Hcs|].
    apply modification_calls_forall; try reflexivity; try discriminate.
    intros s c _ [_ [-> | [Hc _]]]; [reflexivity|discriminate].
Qed.

(** ** One commit per run *)

(** C6.  A run that completes with the permanent plane active issues
    exactly one commit, as its last call; a run without the permanent
    plane, or one that fails, issues none. *)
Theorem commit_once {B : Backend} (env : environment) (check_mode : bool)
  (p : params) (w w' : world B) (r : result bool) :
  main env check_mode p w = (r, w') ->
  exists cs, calls w' = calls w ++ cs
    /\ match r with
       | Ok _ =>
           if permanent_active env p
           then exists before, cs = before ++ [Commit]
                               /\ Forall (fun c => is_commit c = false) before
           else Forall (fun c => is_commit c = false) cs
       | _ => Forall (fun c => is_commit c = false) cs
       end.
Proof.
  intro H. apply main_calls in H. destruct H as [cs [Hb H]].
  assert (Hcs : Forall (fun c => is_commit c = false) cs).
  { apply bookkeeping_forall; [|exact Hb]. intros [] Hc; try discriminate;
      reflexivity. }
  destruct H as [[Hw Hr] | (d0 & zn & l & Hp & -> & Hw)].
  - exists cs. split; [exact Hw|].
    destruct r as [c| |]; [exfalso; apply (Hr c); reflexivity| |]; exact Hcs.
  - eexists. split; [exact Hw|].
    destruct (modification_calls_commit check_mode zn (session_request env d0) l)
      as [before [Hm Hbefore]].
    rewrite Hm. unfold apply_calls. rewrite (session_permanent env p d0 Hp).
    destruct (permanent_active env p).
    + exists (cs ++ before). rewrite app_assoc. split; [reflexivity|].
      apply Forall_app. split; assumption.
    + rewrite app_nil_r. apply Forall_app. split; assumption.
Qed.

Lemma commit_once_witness :
  exists cs,
    calls (snd (main Stub.online false
                  (Stub.ask enabled ["http"; "ssh"] ["10.0.0.1"] 0 (Some true) None None)
                  (Stub.start Stub.fresh)))
    = calls (Stub.start Stub.fresh) ++ cs
    /\ exists before, cs = before ++ [Commit]
                      /\ Forall (fun c => is_commit c = false) before.
Proof.
  exact (commit_once Stub.online false
           (Stub.ask enabled ["http"; "ssh"] ["10.0.0.1"] 0 (Some true) None None)
           (Stub.start Stub.fresh) _ _ eq_refl).
Defined.

(** ** Source entries and the runtime flag *)

(** C8.  The block of a source entry queries the runtime plane first,
    whatever [runtime] is, and adds or removes there when the answer
    disagrees (outside check mode); what follows are permanent calls, and
    only when [permanent] is true.  In the whole modification part every
    source entry has its runtime query; with [runtime] off every runtime
    call is about a source entry; with [permanent] off no call goes to
    the permanent plane. *)
Theorem source_runtime_unguarded {B : Backend} (check_mode fw_offline : bool)
  (z : string) (d : desired) :
  (forall (item : string) (l : locals B),
     exists rest,
       log (exec (source_body check_mode z d item) l)
       = log l
         ++ Query Runtime (Source item)
            :: (if Bool.eqb (queryRuntime B z (Source item) (fw l)) (wanted d)
                then []
                else if check_mode then []
                else [if wanted d then Add Runtime (Source item) None
                      else Remove Runtime (Source item)])
         ++ rest
       /\ Forall (fun c => call_plane c = Some Permanent
                           /\ truthy (permanent d) = true) rest)
  /\ (forall l : locals B,
        exists cs,
          log (exec (modification check_mode fw_offline z d) l) = log l ++ cs
          /\ (forall item, In item (source d) ->
                In (Query Runtime (Source item)) cs)
          /\ (truthy (runtime d) = false ->
              forall c, In c cs -> call_plane c = Some Runtime ->
                exists item, In item (source d)
                             /\ call_entry c = Some (Source item))
          /\ (truthy (permanent d) = false ->
              forall c, In c cs -> call_plane c <> Some Permanent)).
Proof.
  split.
  - intros item l. rewrite source_body_steps, exec_run_plan.
    unfold steps_of, plan_fn. simpl fold_left.
    rewrite !log_step_fn.
    match goal with
    | |- context [step_calls _ _ ?s (step_fn _ _ ?s0 _)] =>
        exists (step_calls check_mode z s (step_fn check_mode z s0 l))
    end.
    split.
    + rewrite <- app_assoc. reflexivity.
    + eapply Forall_impl; [|apply step_calls_from].
      intros c Hc. split.
      * apply from_step_plane in Hc. apply Hc.
      * destruct Hc as [Hg _]. exact Hg.
  - intro l. exists (modification_calls check_mode z d l).
    split; [apply log_modification|]. split; [|split].
    + intros item Hin. unfold modification_calls. apply in_or_app. left.
      apply (plan_calls_query check_mode z (plan d) l _ (plan_source d item Hin)).
      reflexivity.
    + intros Hrt.
      apply (proj1 (Forall_forall
               (fun c => call_plane c = Some Runtime ->
                         exists item, In item (source d)
                                      /\ call_entry c = Some (Source item)) _)).
      apply modification_calls_forall.
      * intros s c Hin Hf Hpl.
        destruct (from_step_plane _ _ _ Hf) as [Hp He].
        rewrite Hp in Hpl. inversion Hpl as [Hs].
        pose proof (plan_gate d s Hin) as Hg. rewrite Hs in Hg.
        destruct Hf as [Hgate _].
        destruct Hg as [Hg | [_ [item [Hi Hent]]]]; [congruence|].
        exists item. split; [exact Hi|]. rewrite He, Hent. reflexivity.
      * discriminate.
      * discriminate.
      * discriminate.
    + intros Hpm.
      apply (proj1 (Forall_forall
               (fun c => call_plane c <> Some Permanent) _)).
      apply modification_calls_forall.
      * intros s c Hin Hf Hpl.
        destruct (from_step_plane _ _ _ Hf) as [Hp _].
        rewrite Hp in Hpl. inversion Hpl as [Hs].
        pose proof (plan_gate d s Hin) as Hg. rewrite Hs in Hg.
        destruct Hf as [Hgate _]. congruence.
      * congruence.
      * congruence.
      * congruence.
Qed.

Lemma source_runtime_unguarded_witness :
  let d := Stub.wish enabled ["http"] ["10.0.0.1"] 0 (Some true) (Some false) None in
  let l := Build_locals Stub.backend Stub.fresh (Stub.lookup "public" []) false [] in
  truthy (runtime d) = false
  /\ exists cs,
       log (exec (modification false false "public" d) l) = log l ++ cs
       /\ In (Query Runtime (Source "10.0.0.1")) cs.
Proof.
  intros d l. split; [reflexivity|].
  destruct (proj2 (source_runtime_unguarded false false "public" d) l)
    as [cs [Hlog [Hsrc _]]].
  exists cs. split; [exact Hlog|]. apply Hsrc. left. reflexivity.
Defined.

(** ** Requests that leave permanent unset *)

(** C10, as stated, fails: with [permanent] unset, [offline] true and
    firewalld not running, the fallback turns [permanent] on; the
    settings are queried, changed and committed. *)
Lemma permanent_unset_offline_fallback :
  let p := Stub.ask enabled ["http"] [] 0 None None (Some true) in
  let r := main Stub.stopped false p (Stub.start Stub.fresh) in
  params_permanent p = None
  /\ fst r = Ok true
  /\ calls (snd r)
     = [FirewallClient; Start; GetDefaultZone; GetSettings;
        Query Permanent (Service "http"); Add Permanent (Service "http") None;
        Commit].
Proof. repeat split; reflexivity. Qed.

(** C10, amended.  When firewalld is running and [permanent] is unset,
    the validated request has [runtime] true whatever the caller gave,
    and no call of the run goes to the permanent plane: no query, add or
    remove on the settings, no target read or write, no commit. *)
Theorem permanent_unset_connected {B : Backend} (env : environment)
  (check_mode : bool) (p : params) (w w' : world B) (r : result bool) :
  connected env = true -> params_permanent p = None ->
  main env check_mode p w = (r, w') ->
  (forall d, rbind (parse_params env p) validate = Ok d ->
             runtime d = Some true
             /\ runtime (session_request env d) = Some true)
  /\ exists cs, calls w' = calls w ++ cs
                /\ Forall (fun c => call_plane c <> Some Permanent) cs.
Proof.
  intros Hconn Hperm H. split.
  - intros d Hd. apply rbind_ok in Hd. destruct Hd as [d1 [Hp Hv]].
    apply parse_params_ok in Hp.
    destruct Hp as (_ & _ & _ & _ & _ & _ & _ & _ & _ & Hpm & _).
    apply validate_ok in Hv. subst d. unfold session_request, runtime_after.
    rewrite Hconn, Hpm, Hperm. split; reflexivity.
  - pose proof H as H0. apply main_calls in H. destruct H as [cs [Hb H]].
    assert (Hcs : Forall (fun c => call_plane c <> Some Permanent) cs).
    { apply bookkeeping_forall; [|exact Hb]. intros [] Hc; discriminate. }
    destruct H as [[Hw _] | (d0 & zn & l & Hp & _ & Hw)].
    + exists cs. split; assumption.
    + eexists. split; [exact Hw|]. apply Forall_app. split; [exact Hcs|].
      pose proof (session_permanent env p d0 Hp) as Hact.
      unfold permanent_active in Hact. rewrite Hperm, Hconn in Hact.
      simpl in Hact.
      apply modification_calls_forall; try congruence.
      intros s c Hin Hf Hpl.
      destruct (from_step_plane _ _ _ Hf) as [Hpc _].
      rewrite Hpc in Hpl. inversion Hpl as [Hs].
      pose proof (plan_gate _ s Hin) as Hg. rewrite Hs in Hg.
      destruct Hf as [Hgate _]. congruence.
Qed.

Lemma permanent_unset_connected_witness :
  exists cs,
    calls (snd (main Stub.online false
                  (Stub.ask enabled ["http"] [] 0 None (Some false) None)
                  (Stub.start Stub.fresh)))
    = calls (Stub.start Stub.fresh) ++ cs
    /\ Forall (fun c => call_plane c <> Some Permanent) cs.
Proof.
  exact (proj2 (permanent_unset_connected Stub.online false
                  (Stub.ask enabled ["http"] [] 0 None (Some false) None)
                  (Stub.start Stub.fresh) _ _ eq_refl eq_refl eq_refl)).
Defined.

(** ** Running an enabled request twice *)

Lemma entry_eqb_eq (a b : entry) : entry_eqb a b = true <-> a = b.
Proof.
  unfold entry_eqb. destruct (entry_eq_dec a b); split; congruence.
Qed.

Lemma same_zones_refl {B : Backend} (f : fwT B) : same_zones f f.
Proof. repeat split. Qed.

Lemma same_zones_trans {B : Backend} (f g h : fwT B) :
  same_zones f g -> same_zones g h -> same_zones f h.
Proof.
  intros (A1 & A2 & A3 & A4 & A5) (B1 & B2 & B3 & B4 & B5).
  repeat split; congruence.
Qed.

Section Agreement.

Context {B : Backend}.
Variables (check_mode : bool) (z : string).

Lemma observe_ext (p : plane) (e : entry) (l l' : locals B) :
  fw l' = fw l -> fw_settings l' = fw_settings l ->
  observe z p e l' = observe z p e l.
Proof. unfold observe. intros -> ->. reflexivity. Qed.

Lemma agrees_ext (s : step) (l l' : locals B) :
  fw l' = fw l -> fw_settings l' = fw_settings l ->
  agrees z s l' = agrees z s l.
Proof. unfold agrees. intros H1 H2. rewrite (observe_ext _ _ l l' H1 H2). reflexivity. Qed.

Lemma changed_step_fn_mono (s : step) (l : locals B) :
  changed l = true -> changed (step_fn check_mode z s l) = true.
Proof. intro H. rewrite changed_step_fn, H. reflexivity. Qed.

Lemma changed_plan_fn_mono (ss : list step) (l : locals B) :
  changed l = true -> changed (plan_fn check_mode z ss l) = true.
Proof.
  revert l. induction ss as [|s ss IH]; intros l H; [exact H|].
  apply IH. apply changed_step_fn_mono. exact H.
Qed.

(** A step that has nothing to do changes nothing but the log. *)
Lemma step_fn_agreeing (s : step) (l : locals B) :
  (s_gate s = true -> agrees z s l = true) ->
  fw (step_fn check_mode z s l) = fw l
  /\ fw_settings (step_fn check_mode z s l) = fw_settings l
  /\ changed (step_fn check_mode z s l) = changed l.
Proof.
  intro H. unfold step_fn. destruct (s_gate s); [|auto].
  rewrite (H eq_refl). auto.
Qed.

(** When every guarded step agrees, the plan changes nothing. *)
Lemma plan_fn_agreeing (ss : list step) (l : locals B) :
  (forall s, In s ss -> s_gate s = true -> agrees z s l = true) ->
  fw (plan_fn check_mode z ss l) = fw l
  /\ fw_settings (plan_fn check_mode z ss l) = fw_settings l
  /\ changed (plan_fn check_mode z ss l) = changed l.
Proof.
  revert l. induction ss as [|s ss IH]; intros l H; [auto|].
  destruct (step_fn_agreeing s l (H s (or_introl eq_refl))) as [H1 [H2 H3]].
  simpl. destruct (IH (step_fn check_mode z s l)) as [I1 [I2 I3]].
  - intros s' Hin Hg. rewrite (agrees_ext s' l _ H1 H2).
    apply H; [right; exact Hin|exact Hg].
  - unfold plan_fn in *. repeat split; congruence.
Qed.

(** When a guarded step disagrees and every step assigns [changed], the
    plan ends with [changed] true. *)
Lemma plan_fn_disagreeing (ss : list step) (l : locals B) :
  (forall s, In s ss -> s_mark s = true) ->
  (exists s, In s ss /\ s_gate s = true /\ agrees z s l = false) ->
  changed (plan_fn check_mode z ss l) = true.
Proof.
  revert l. induction ss as [|s0 ss IH]; intros l Hm [s [Hin [Hg Ha]]].
  - destruct Hin.
  - simpl. destruct (s_gate s0 && negb (agrees z s0 l)) eqn:E.
    + apply andb_true_iff in E. destruct E as [E1 E2].
      apply (changed_plan_fn_mono ss). rewrite changed_step_fn, E1, E2.
      rewrite (Hm s0 (or_introl eq_refl)). apply orb_true_r.
    + assert (Hs0 : s_gate s0 = true -> agrees z s0 l = true).
      { intro G. rewrite G in E. simpl in E. apply negb_false_iff in E. exact E. }
      destruct (step_fn_agreeing s0 l Hs0) as [H1 [H2 _]].
      apply IH.
      * intros s' Hs'. apply Hm. right. exact Hs'.
      * destruct Hin as [-> | Hin].
        -- rewrite (Hs0 Hg) in Ha. discriminate.
        -- exists s. rewrite (agrees_ext s l _ H1 H2). auto.
Qed.

End Agreement.

Section Lawfully.

Context {B : Backend} (L : Lawful B).
Variable z : string.

(** Outside check mode a guarded step leaves its entry as wanted. *)
Lemma observe_step_established (s : step) (l : locals B) :
  s_gate s = true ->
  observe z (s_plane s) (s_entry s) (step_fn false z s l) = s_want s.
Proof.
  intro Hg. unfold step_fn. rewrite Hg.
  destruct (agrees z s l) eqn:Ha.
  - unfold agrees in Ha. apply eqb_prop in Ha. exact Ha.
  - unfold mutate, observe, exec, add, remove.
    destruct (s_mark s), (s_want s), (s_plane s); simpl;
      first [ apply (query_add _ L) | apply (query_remove _ L)
            | apply (settings_add _ L) | apply (settings_remove _ L) ].
Qed.

(** It leaves every other entry and the other plane as they were. *)
Lemma observe_step_other (s : step) (p : plane) (e : entry) (l : locals B) :
  s_plane s <> p \/ s_entry s <> e ->
  observe z p e (step_fn false z s l) = observe z p e l.
Proof.
  intro Hne. unfold step_fn. destruct (s_gate s); [|reflexivity].
  destruct (agrees z s l); [reflexivity|].
  unfold mutate, observe, exec, add, remove.
  destruct (s_mark s), (s_want s), (s_plane s), p; simpl; try reflexivity;
    (destruct Hne as [Hne | Hne]; [exfalso; apply Hne; reflexivity|]);
    first [ apply (query_add_other _ L) | apply (query_remove_other _ L)
          | apply (settings_add_other _ L) | apply (settings_remove_other _ L) ];
    exact Hne.
Qed.

Lemma plane_eq_dec (p q : plane) : {p = q} + {p <> q}.
Proof. decide equality. Qed.

Lemma observe_step_preserved (s : step) (p : plane) (e : entry) (w : bool)
  (l : locals B) :
  (s_plane s = p -> s_entry s = e -> s_want s = w) ->
  observe z p e l = w ->
  observe z p e (step_fn false z s l) = w.
Proof.
  intros Hw Ho.
  destruct (plane_eq_dec (s_plane s) p) as [Hp | Hp];
    [|rewrite observe_step_other; auto].
  destruct (entry_eq_dec (s_entry s) e) as [He | He];
    [|rewrite observe_step_other; auto].
  destruct (s_gate s) eqn:Hg.
  - subst p e. rewrite (observe_step_established s l Hg). auto.
  - unfold step_fn. rewrite Hg. exact Ho.
Qed.

(** After the plan, an entry that some guarded step handled, or that
    was as wanted before, is as wanted, provided all steps for it want
    the same. *)
Lemma observe_plan_fn (ss : list step) (p : plane) (e : entry) (w : bool)
  (l : locals B) :
  (forall s, In s ss -> s_plane s = p -> s_entry s = e -> s_want s = w) ->
  (exists s, In s ss /\ s_gate s = true /\ s_plane s = p /\ s_entry s = e)
  \/ observe z p e l = w ->
  observe z p e (plan_fn false z ss l) = w.
Proof.
  revert l. induction ss as [|s0 ss IH]; intros l Hw H.
  - destruct H as [[s [[] _]] | H]. exact H.
  - simpl. apply IH.
    + intros s Hs. apply Hw. right. exact Hs.
    + destruct H as [[s [[<- | Hin] [Hg [Hp He]]]] | H].
      * right. subst p e. rewrite (observe_step_established s0 l Hg).
        apply Hw; auto. left; reflexivity.
      * left. exists s. auto.
      * right. apply observe_step_preserved; [|exact H].
        apply Hw. left; reflexivity.
Qed.

Lemma step_fn_zones (s : step) (l : locals B) :
  same_zones (fw l) (fw (step_fn false z s l)).
Proof.
  unfold step_fn. destruct (s_gate s); [|apply same_zones_refl].
  destruct (agrees z s l); [apply same_zones_refl|].
  unfold mutate, exec, add, remove.
  destruct (s_mark s), (s_want s), (s_plane s); simpl;
    first [ apply (zones_add _ L) | apply (zones_remove _ L)
          | apply same_zones_refl ].
Qed.

Lemma plan_fn_zones (ss : list step) (l : locals B) :
  same_zones (fw l) (fw (plan_fn false z ss l)).
Proof.
  revert l. induction ss as [|s ss IH]; intro l; [apply same_zones_refl|].
  simpl. eapply same_zones_trans; [apply step_fn_zones|apply IH].
Qed.

End Lawfully.

Section Twice.

Context {B : Backend} (L : Lawful B).
Variables (fw_offline : bool) (z : string) (d : desired).
Hypothesis Hen : state d = enabled.

Lemma changed_target_fn_mono (cm : bool) (l : locals B) :
  changed l = true -> changed (target_fn cm d l) = true.
Proof.
  intro H. unfold target_fn. destruct (target d); [|exact H].
  destruct (truthy (permanent d)); [|exact H].
  destruct (String.eqb _ _); [exact H|reflexivity].
Qed.

Lemma observe_target_fn (p : plane) (e : entry) (l : locals B) :
  observe z p e (target_fn false d l) = observe z p e l.
Proof.
  unfold target_fn. destruct (target d) as [t|]; [|reflexivity].
  destruct (truthy (permanent d)); [|reflexivity].
  destruct (String.eqb _ t); [reflexivity|].
  unfold observe. destruct p; simpl; [reflexivity|apply (target_keeps _ L)].
Qed.

Lemma fw_target_fn (cm : bool) (l : locals B) : fw (target_fn cm d l) = fw l.
Proof.
  unfold target_fn. destruct (target d) as [t|]; [|reflexivity].
  destruct (truthy (permanent d)); [|reflexivity].
  destruct (String.eqb _ t), cm; reflexivity.
Qed.

(** Outside check mode the target block leaves the requested target. *)
Lemma target_after_target_fn (t : string) (l : locals B) :
  truthy (permanent d) = true -> target d = Some t ->
  getTarget B (fw_settings (target_fn false d l)) = t.
Proof.
  intros Hp Ht. unfold target_fn. rewrite Ht, Hp.
  destruct (String.eqb (getTarget B (fw_settings l)) t) eqn:E.
  - apply String.eqb_eq in E. exact E.
  - simpl. apply (target_set _ L).
Qed.

Lemma fw_apply_fn (l : locals B) :
  fw (apply_fn fw_offline z d l)
  = if truthy (permanent d) then save fw_offline z (fw_settings l) (fw l)
    else fw l.
Proof. unfold apply_fn, save. destruct (truthy (permanent d)); reflexivity. Qed.

Lemma plan_wants (s : step) (p : plane) (e : entry) :
  In s (plan d) -> s_plane s = p -> s_entry s = e -> s_want s = want_for d e.
Proof.
  intros Hin _ <-. apply (plan_enabled d s Hen Hin).
Qed.

(** Every guarded step of the plan agrees when the second run starts. *)
Lemma second_start_agrees (l0 : locals B) (cs : list call) (s : step) :
  In s (plan d) -> s_gate s = true -> agrees z s (second_start fw_offline z d l0 cs) = true.
Proof.
  intros Hin Hg. unfold agrees.
  assert (Hplan : observe z (s_plane s) (s_entry s)
                    (plan_fn false z (plan d) l0) = s_want s).
  { rewrite (plan_wants s _ _ Hin eq_refl eq_refl).
    apply (observe_plan_fn L).
    - intros s' Hs' Hp He. apply (plan_wants s' _ _ Hs' Hp He).
    - left. exists s. auto. }
  rewrite <- observe_target_fn in Hplan.
  rewrite <- Hplan. apply eqb_true_iff.
  unfold second_start, after_first. rewrite modification_plan.
  set (lt := target_fn false d (plan_fn false z (plan d) l0)).
  unfold observe. simpl. rewrite fw_apply_fn.
  pose proof (plan_gate d s Hin) as Hpg.
  destruct (s_plane s).
  - destruct (truthy (permanent d)); [apply (save_runtime _ L)|reflexivity].
  - rewrite Hg in Hpg. rewrite <- Hpg. apply (load_save_query _ L).
Qed.

Lemma second_start_target (l0 : locals B) (cs : list call) (t : string) :
  truthy (permanent d) = true -> target d = Some t ->
  getTarget B (fw_settings (second_start fw_offline z d l0 cs)) = t.
Proof.
  intros Hp Ht. unfold second_start, after_first. simpl.
  rewrite modification_plan, fw_apply_fn, Hp.
  rewrite (load_save_target _ L).
  apply target_after_target_fn; assumption.
Qed.

(** The second run changes nothing. *)
Lemma second_run_unchanged (cm : bool) (l0 : locals B) (cs : list call) :
  changed (exec (modification cm fw_offline z d) (second_start fw_offline z d l0 cs)) = false.
Proof.
  rewrite modification_plan, changed_apply_fn.
  destruct (plan_fn_agreeing cm z (plan d) (second_start fw_offline z d l0 cs)
              (second_start_agrees l0 cs)) as [_ [Hst Hch]].
  unfold target_fn. destruct (target d) as [t|] eqn:Ht; [|exact Hch].
  destruct (truthy (permanent d)) eqn:Hp; [|exact Hch].
  rewrite Hst, (second_start_target l0 cs t Hp Ht), String.eqb_refl.
  exact Hch.
Qed.

(** The first run reports a change when a plane disagrees, and none
    when none does. *)
Lemma first_run_changed (cm : bool) (l0 : locals B) :
  plane_disagrees z d (fw l0) (fw_settings l0) ->
  changed (exec (modification cm fw_offline z d) l0) = true.
Proof.
  intro H. rewrite modification_plan, changed_apply_fn.
  assert (Hmark : forall s, In s (plan d) -> s_mark s = true).
  { intros s Hs. apply (plan_enabled d s Hen Hs). }
  destruct H as [[e [b [Hin H]]] | [Hp [t [Ht Hne]]]].
  - apply changed_target_fn_mono. apply plan_fn_disagreeing; [exact Hmark|].
    destruct H as [[Hg Hq] | [Hg Hq]].
    + eexists. split; [apply in_plan; exists e, b; split; [exact Hin|left; reflexivity]|].
      split; [exact Hg|]. unfold agrees, observe. simpl.
      apply eqb_false_iff. exact Hq.
    + eexists. split; [apply in_plan; exists e, b; split; [exact Hin|right; reflexivity]|].
      split; [exact Hg|]. unfold agrees, observe. simpl.
      apply eqb_false_iff. exact Hq.
  - destruct (existsb (fun s => s_gate s && negb (agrees z s l0)) (plan d)) eqn:E.
    + apply changed_target_fn_mono. apply plan_fn_disagreeing; [exact Hmark|].
      apply existsb_exists in E. destruct E as [s [Hs E]].
      apply andb_true_iff in E. destruct E as [E1 E2].
      apply negb_true_iff in E2. exists s. auto.
    + destruct (plan_fn_agreeing cm z (plan d) l0) as [_ [Hst _]].
      { intros s Hs Hg. destruct (agrees z s l0) eqn:Ha; [reflexivity|].
        exfalso. rewrite <- not_true_iff_false in E. apply E.
        apply existsb_exists. exists s. rewrite Hg, Ha. auto. }
      unfold target_fn. rewrite Ht, Hp, Hst.
      apply String.eqb_neq in Hne. rewrite Hne. reflexivity.
Qed.

Lemma first_run_unchanged (cm : bool) (l0 : locals B) :
  ~ plane_disagrees z d (fw l0) (fw_settings l0) -> changed l0 = false ->
  changed (exec (modification cm fw_offline z d) l0) = false.
Proof.
  intros Hno Hc. rewrite modification_plan, changed_apply_fn.
  destruct (plan_fn_agreeing cm z (plan d) l0) as [_ [Hst Hch]].
  { intros s Hs Hg. destruct (agrees z s l0) eqn:Ha; [reflexivity|].
    exfalso. apply Hno. left. unfold agrees in Ha. apply eqb_false_iff in Ha.
    apply in_plan in Hs. destruct Hs as [e [b [Hin [-> | ->]]]];
      exists e, b; (split; [exact Hin|]); simpl in *; auto. }
  unfold target_fn. destruct (target d) as [t|] eqn:Ht; [|congruence].
  destruct (truthy (permanent d)) eqn:Hp; [|congruence].
  rewrite Hst.
  destruct (String.eqb (getTarget B (fw_settings l0)) t) eqn:E; [simpl; congruence|].
  exfalso. apply Hno. right. split; [exact Hp|]. exists t.
  split; [exact Ht|]. apply String.eqb_neq. exact E.
Qed.

(** The first run does not rename zones. *)
Lemma after_first_zones (l0 : locals B) :
  same_zones (fw l0) (fw (after_first fw_offline z d l0)).
Proof.
  unfold after_first. rewrite modification_plan, fw_apply_fn, fw_target_fn.
  eapply same_zones_trans; [apply (plan_fn_zones L)|].
  destruct (truthy (permanent d)); [apply (zones_save _ L)|apply same_zones_refl].
Qed.

End Twice.

Lemma session_state (env : environment) (p : params) (d0 : desired) :
  rbind (parse_params env p) validate = Ok d0 ->
  state (session_request env d0) = params_state p.
Proof.
  intro H. apply rbind_ok in H. destruct H as [d [Hp Hv]].
  apply validate_ok in Hv. apply parse_params_ok in Hp.
  destruct Hp as (_ & _ & _ & _ & _ & _ & _ & _ & _ & _ & _ & _ & Hst).
  subst d0. unfold session_request. destruct (connected env); exact Hst.
Qed.

(** Connecting again to a firewalld with the same zones gives the same
    session, with the settings loaded from the firewalld it finds. *)
Lemma connect_again {B : Backend} (env : environment) (d0 d : desired)
  (w w1 v : world B) (off : bool) (zn : string) (st : settingsT B) :
  connect env d0 w = (Ok (off, zn, d, st), w1) ->
  same_zones (fw_state w) (fw_state v) ->
  HAS_FIREWALLD env = true
  /\ st = load off zn (fw_state w)
  /\ exists v1,
       connect env d0 v = (Ok (off, zn, d, load off zn (fw_state v)), v1)
       /\ fw_state v1 = fw_state v.
Proof.
  intros H (Z1 & Z2 & Z3 & Z4 & Z5).
  unfold connect, offline_zone, connected_zone, load in *.
  destruct (HAS_FIREWALLD env); simpl in *; [|discriminate].
  split; [reflexivity|].
  destruct (connected env); simpl in *.
  - destruct (version_lt env "0.2.11"); [discriminate|].
    destruct (zone d0) as [zn0|].
    + destruct (truthy (runtime d0)), (truthy (permanent d0)); simpl in *;
        rewrite ?Z2, ?Z3;
        repeat match type of H with
               | (if ?c then _ else _) = _ => destruct c; simpl in *
               end;
        try discriminate; inversion H; subst;
        (split; [reflexivity|]); eexists; split; reflexivity.
    + rewrite Z1. inversion H; subst.
      split; [reflexivity|]. eexists; split; reflexivity.
  - destruct (truthy (offline d0)); simpl in *; [|discriminate].
    destruct (version_lt env "0.3.9"); [discriminate|].
    destruct (zone d0) as [zn0|]; simpl in *.
    + rewrite Z5.
      repeat match type of H with
             | (if ?c then _ else _) = _ => destruct c; simpl in *
             end;
        try discriminate; inversion H; subst.
      split; [reflexivity|]. eexists; split; reflexivity.
    + rewrite Z4. inversion H; subst.
      split; [reflexivity|]. eexists; split; reflexivity.
Qed.

(** C7.  Against a lawful firewalld, outside check mode, an enabled
    request that ran to the end reports [changed = True] when some plane
    it works on disagreed at the start and [changed = False] when none
    did; run again from the world the first run left, it ends with
    [changed = False]. *)
Theorem enabled_twice {B : Backend} (L : Lawful B) (env : environment)
  (p : params) (w0 w1 : world B) (c1 : bool) :
  params_state p = enabled ->
  main env false p w0 = (Ok c1, w1) ->
  (disagreement env p w0 -> c1 = true)
  /\ (~ disagreement env p w0 -> c1 = false)
  /\ exists w2, main env false p w1 = (Ok false, w2).
Proof.
  intros Hst H. apply main_ok in H.
  destruct H as (d0 & off & zn & st & w01 & Hp & Hc & Hoff & Hch & Hw1).
  pose proof (connect_ok env _ _ _ _ Hc) as Hok. simpl in Hok.
  destruct Hok as (_ & _ & Hfw & _).
  assert (Hen : state (session_request env d0) = enabled).
  { rewrite (session_state env p d0 Hp). exact Hst. }
  set (l0 := {| fw := fw_state w01; fw_settings := st; changed := false;
                log := calls w01 |}) in *.
  split; [|split].
  - intros (d0' & off' & zn' & st' & w1' & Hp' & Hc' & Hdis).
    rewrite Hp in Hp'. inversion Hp'; subst d0'.
    rewrite Hc in Hc'. inversion Hc'; subst off' zn' st' w1'.
    subst c1. apply (first_run_changed _ _ _ Hen).
    simpl. rewrite Hfw. exact Hdis.
  - intro Hno. subst c1. apply first_run_unchanged; [|reflexivity].
    intro Hdis. apply Hno. exists d0, off, zn, st, w01.
    split; [exact Hp|]. split; [exact Hc|]. simpl in Hdis.
    rewrite Hfw in Hdis. exact Hdis.
  - pose proof (after_first_zones L off zn (session_request env d0) l0) as Hz.
    simpl in Hz. rewrite Hfw in Hz.
    assert (Hz1 : same_zones (fw_state w0) (fw_state w1)).
    { subst w1. exact Hz. }
    destruct (connect_again env d0 _ w0 w01 w1 off zn st Hc Hz1)
      as (Hhas & _ & v1 & Hc2 & Hfw2).
    eexists. unfold main. rewrite Hhas, Hp, Hc2. simpl. unfold modify.
    f_equal. f_equal.
    rewrite Hfw2. subst w1. simpl.
    apply (second_run_unchanged L off zn (session_request env d0) Hen false l0
             (calls v1)).
Qed.

(** ** The storing firewalld is lawful *)

Lemma entry_eqb_refl (e : entry) : entry_eqb e e = true.
Proof. apply entry_eqb_eq. reflexivity. Qed.

Lemma entry_eqb_neq (a b : entry) : a <> b -> entry_eqb a b = false.
Proof.
  intro H. destruct (entry_eqb a b) eqn:E; [|reflexivity].
  apply entry_eqb_eq in E. contradiction.
Qed.

Lemma has_without_same (e : entry) (es : list entry) :
  Stub.has e (Stub.without e es) = false.
Proof.
  unfold Stub.has, Stub.without. induction es as [|x es IH]; [reflexivity|].
  simpl. destruct (entry_eqb e x) eqn:E; simpl; [exact IH|].
  rewrite E. exact IH.
Qed.

Lemma has_without_other (e e' : entry) (es : list entry) :
  e <> e' -> Stub.has e' (Stub.without e es) = Stub.has e' es.
Proof.
  intro Hne. unfold Stub.has, Stub.without.
  induction es as [|x es IH]; [reflexivity|].
  simpl. destruct (entry_eqb e x) eqn:E; simpl.
  - apply entry_eqb_eq in E. subst x.
    rewrite (entry_eqb_neq e' e (fun H => Hne (eq_sym H))). exact IH.
  - rewrite IH. reflexivity.
Qed.

Lemma runtime_of_remove (zn : string) (e : entry) (f : Stub.firewalld) :
  Stub.runtime_of zn (removeRuntime Stub.backend zn e f)
  = Stub.without e (Stub.runtime_of zn f).
Proof.
  unfold Stub.runtime_of, Stub.without. simpl.
  induction (Stub.running f) as [|[zn' x] rs IH]; [reflexivity|].
  simpl. destruct (String.eqb zn zn') eqn:Ez; simpl.
  - destruct (entry_eqb e x); simpl; [exact IH|].
    rewrite Ez. simpl. rewrite IH. reflexivity.
  - rewrite Ez. exact IH.
Qed.

Lemma stub_lawful : Lawful Stub.backend.
Proof.
  constructor.
  - intros z e t f. unfold Stub.backend, Stub.has, Stub.runtime_of. simpl.
    rewrite String.eqb_refl. simpl. rewrite entry_eqb_refl. reflexivity.
  - intros z e f. change (Stub.has e (Stub.runtime_of z
                            (removeRuntime Stub.backend z e f)) = false).
    rewrite runtime_of_remove. apply has_without_same.
  - intros z e e' t f Hne. unfold Stub.backend, Stub.has, Stub.runtime_of.
    simpl. rewrite String.eqb_refl. simpl.
    rewrite (entry_eqb_neq e' e (fun H => Hne (eq_sym H))). reflexivity.
  - intros z e e' f Hne.
    change (Stub.has e' (Stub.runtime_of z (removeRuntime Stub.backend z e f))
            = Stub.has e' (Stub.runtime_of z f)).
    rewrite runtime_of_remove. apply has_without_other. exact Hne.
  - intros e s. unfold Stub.backend, Stub.has. simpl.
    rewrite entry_eqb_refl. reflexivity.
  - intros e s. apply has_without_same.
  - intros e e' s Hne. unfold Stub.backend, Stub.has. simpl.
    rewrite (entry_eqb_neq e' e (fun H => Hne (eq_sym H))). reflexivity.
  - intros e e' s Hne. apply has_without_other. exact Hne.
  - reflexivity.
  - reflexivity.
  - intros [] z st e f; reflexivity.
  - intros [] z st e f; unfold load, save; simpl;
      rewrite String.eqb_refl; reflexivity.
  - intros [] z st f; unfold load, save; simpl;
      rewrite String.eqb_refl; reflexivity.
  - intros z e t f. repeat split.
  - intros z e f. repeat split.
  - intros [] z st f; repeat split.
Qed.

Lemma enabled_twice_witness :
  let p := Stub.ask enabled ["http"; "ssh"] ["10.0.0.1"] 0 (Some true) (Some true) None in
  fst (main Stub.online false p (Stub.start Stub.fresh)) = Ok true
  /\ exists w2,
       main Stub.online false p
         (snd (main Stub.online false p (Stub.start Stub.fresh)))
       = (Ok false, w2).
Proof.
  intro p. split; [reflexivity|].
  exact (proj2 (proj2 (enabled_twice stub_lawful Stub.online p
                         (Stub.start Stub.fresh) _ true eq_refl eq_refl))).
Defined.

(** ** Check mode reports what a real run reports *)

Section DryRun.

Context {B : Backend} (L : Lawful B).
Variables (z : string) (mk : plane -> entry -> bool).
Hypothesis mk_permanent : forall e, mk Permanent e = true.

Lemma fw_settings_runtime_step (cm : bool) (s : step) (l : locals B) :
  s_plane s = Runtime -> fw_settings (step_fn cm z s l) = fw_settings l.
Proof.
  intro Hp. unfold step_fn, mutate, exec, add, remove. rewrite Hp.
  destruct (s_gate s), (agrees z s l), cm, (s_mark s), (s_want s); reflexivity.
Qed.

Lemma step_dry_wet (s : step) (ld lw : locals B) :
  s_mark s = mk (s_plane s) (s_entry s) ->
  dry_wet z mk ld lw ->
  dry_wet z mk (step_fn true z s ld) (step_fn false z s lw).
Proof.
  intros Hm [Hc Hs]. unfold dry_wet.
  destruct (changed lw) eqn:Ecw.
  - rewrite (changed_step_fn_mono true z s ld Hc).
    rewrite (changed_step_fn_mono false z s lw Ecw).
    split; [reflexivity|discriminate].
  - destruct (Hs eq_refl) as [Hst Hq]. clear Hs.
    assert (Hobs : mk (s_plane s) (s_entry s) = true ->
                   agrees z s lw = agrees z s ld).
    { intro Hk. unfold agrees, observe. destruct (s_plane s).
      - rewrite (Hq _ Hk). reflexivity.
      - rewrite Hst. reflexivity. }
    rewrite !changed_step_fn, Hc, Ecw. simpl.
    destruct (s_gate s) eqn:Hg; simpl.
    2:{ unfold step_fn. rewrite Hg. auto. }
    destruct (s_mark s) eqn:Em.
    + rewrite (Hobs (eq_sym Hm)), !andb_true_r.
      split; [reflexivity|]. intro Ha. apply negb_false_iff in Ha.
      destruct (step_fn_idle true z s ld (or_intror (or_introl Ha))) as [D1 D2].
      assert (Ha' : agrees z s lw = true) by (rewrite (Hobs (eq_sym Hm)); exact Ha).
      destruct (step_fn_idle false z s lw (or_intror (or_introl Ha'))) as [W1 W2].
      rewrite D1, D2, W1, W2. auto.
    + rewrite !andb_false_r. split; [reflexivity|]. intros _.
      assert (Hp : s_plane s = Runtime).
      { destruct (s_plane s) eqn:Ep; [reflexivity|].
        rewrite mk_permanent in Hm. discriminate. }
      destruct (step_fn_idle true z s ld (or_intror (or_intror eq_refl)))
        as [D1 D2].
      rewrite D1, D2, (fw_settings_runtime_step false s lw Hp).
      split; [exact Hst|]. intros e He.
      rewrite <- (Hq e He).
      change (observe z Runtime e (step_fn false z s lw) = observe z Runtime e lw).
      apply (observe_step_other L). right. intros <-.
      rewrite Hp in Hm. congruence.
Qed.

Lemma plan_dry_wet (ss : list step) (ld lw : locals B) :
  (forall s, In s ss -> s_mark s = mk (s_plane s) (s_entry s)) ->
  dry_wet z mk ld lw ->
  dry_wet z mk (plan_fn true z ss ld) (plan_fn false z ss lw).
Proof.
  revert ld lw. induction ss as [|s ss IH]; intros ld lw Hm H; [exact H|].
  simpl. apply IH.
  - intros s' Hs'. apply Hm. right. exact Hs'.
  - apply step_dry_wet; [apply Hm; left; reflexivity|exact H].
Qed.

End DryRun.

Lemma plan_marks (d : desired) (s : step) :
  In s (plan d) -> s_mark s = marks d (s_plane s) (s_entry s).
Proof.
  intro H. apply in_plan in H. destruct H as [e [b [Hin [-> | ->]]]]; simpl.
  - destruct e; simpl; try reflexivity.
    apply (requested_service d item b Hin).
  - reflexivity.
Qed.

(** Against a lawful firewalld the modification part ends with the same
    [changed] in check mode as outside it. *)
Lemma modification_check_mode_changed {B : Backend} (L : Lawful B)
  (fw_offline : bool) (z : string) (d : desired) (l : locals B) :
  changed (exec (modification true fw_offline z d) l)
  = changed (exec (modification false fw_offline z d) l).
Proof.
  rewrite !modification_plan, !changed_apply_fn.
  assert (H : dry_wet z (marks d) (plan_fn true z (plan d) l)
                (plan_fn false z (plan d) l)).
  { apply (plan_dry_wet L); [reflexivity|apply plan_marks|].
    split; [reflexivity|]. intros _. split; reflexivity. }
  destruct H as [Hc Hs]. unfold target_fn.
  destruct (target d) as [t|]; [|exact Hc].
  destruct (truthy (permanent d)); [|exact Hc].
  destruct (changed (plan_fn false z (plan d) l)) eqn:Ecw.
  - destruct (String.eqb _ t), (String.eqb _ t); simpl; congruence.
  - destruct (Hs eq_refl) as [Hst _]. rewrite Hst.
    destruct (String.eqb _ t); simpl; congruence.
Qed.

(** A check-mode run of [main] ends as the real run does: same failure
    or same [changed]. *)
Lemma check_mode_same_result {B : Backend} (L : Lawful B) (env : environment)
  (p : params) (w : world B) :
  fst (main env true p w) = fst (main env false p w).
Proof.
  unfold main. destruct (HAS_FIREWALLD env); simpl; [|reflexivity].
  destruct (rbind (parse_params env p) validate) as [d0| |]; try reflexivity.
  destruct (connect env d0 w) as [[[[[off zn] d] st]| |] w1]; try reflexivity.
  unfold modify. simpl. f_equal.
  apply (modification_check_mode_changed L).
Qed.

(** * Further properties of the module *)

(** ** Splitting and the port formats *)

Lemma split_not_nil (sep : ascii) (s : string) : split sep s <> [].
Proof.
  destruct s as [|c s]; simpl; [discriminate|].
  destruct (Ascii.eqb c sep); [discriminate|].
  destruct (split sep s); discriminate.
Qed.

(** The first piece has no separator; either it is the whole string, or
    the string is the piece, the separator and a rest that splits into
    the other pieces. *)
Lemma split_cons (sep : ascii) (s w : string) (ws : list string) :
  split sep s = w :: ws ->
  contains sep w = false
  /\ ((ws = [] /\ s = w)
      \/ exists rest, s = (w ++ String sep rest)%string /\ split sep rest = ws).
Proof.
  revert w ws. induction s as [|c s IH]; intros w ws H; simpl in H.
  - inversion H; subst. split; [reflexivity|]. left. split; reflexivity.
  - destruct (Ascii.eqb c sep) eqn:Ec.
    + apply Ascii.eqb_eq in Ec. subst c. inversion H; subst.
      split; [reflexivity|]. right. exists s. split; reflexivity.
    + destruct (split sep s) as [|w' ws'] eqn:Es.
      * exfalso. exact (split_not_nil sep s Es).
      * destruct (IH w' ws' eq_refl) as [Hc Hs]. inversion H; subst. split.
        -- simpl. rewrite Ec. exact Hc.
        -- destruct Hs as [[-> ->] | [rest [-> Hr]]].
           ++ left. split; reflexivity.
           ++ right. exists rest. split; [reflexivity|exact Hr].
Qed.

Lemma split_app (sep : ascii) (a b : string) :
  contains sep a = false ->
  split sep (a ++ String sep b)%string = a :: split sep b.
Proof.
  induction a as [|c a IH]; simpl; intro H.
  - rewrite Ascii.eqb_refl. reflexivity.
  - apply orb_false_iff in H. destruct H as [Hc Ha].
    rewrite Hc, (IH Ha). reflexivity.
Qed.

Lemma length_split (sep : ascii) (s : string) :
  List.length (split sep s) = S (count sep s).
Proof.
  induction s as [|c s IH]; simpl; [reflexivity|].
  destruct (Ascii.eqb c sep); simpl.
  - rewrite IH. reflexivity.
  - destruct (split sep s) as [|w ws] eqn:Es.
    + exfalso. exact (split_not_nil sep s Es).
    + simpl in *. exact IH.
Qed.

Lemma contains_app (c : ascii) (a b : string) :
  contains c (a ++ b)%string = contains c a || contains c b.
Proof.
  induction a as [|x a IH]; simpl; [reflexivity|].
  rewrite IH, orb_assoc. reflexivity.
Qed.

(** A string splits into exactly two pieces just when it is the two
    pieces around one separator. *)
Lemma split_two (sep : ascii) (s a b : string) :
  split sep s = [a; b]
  <-> s = (a ++ String sep b)%string
      /\ contains sep a = false /\ contains sep b = false.
Proof.
  split.
  - intro H. apply split_cons in H.
    destruct H as [Ha [[Hn _] | [rest [-> Hr]]]]; [discriminate|].
    apply split_cons in Hr.
    destruct Hr as [Hb [[_ ->] | [rest' [_ Hr']]]].
    + auto.
    + exfalso. exact (split_not_nil sep rest' Hr').
  - intros [-> [Ha Hb]]. rewrite (split_app sep a b Ha).
    rewrite (split_without_separator sep b Hb). reflexivity.
Qed.

Lemma parse_port_ok_split (item a b : string) :
  parse_port item = Ok (a, b) <-> split "/" item = [a; b].
Proof.
  unfold parse_port, is_None. split.
  - intro H. destruct (split "/" item) as [|x [|y [|u rest]]]; simpl in H;
      try discriminate. inversion H; subst. reflexivity.
  - intros ->. reflexivity.
Qed.

(** X1.  [parse_port] returns [(port, protocol)] exactly for the items
    that are [port/protocol] with no further slash: the result written
    back with a slash is the item. *)
Theorem parse_port_ok_iff (item a b : string) :
  parse_port item = Ok (a, b)
  <-> item = port_string (a, b)
      /\ contains "/" a = false /\ contains "/" b = false.
Proof.
  rewrite parse_port_ok_split. unfold port_string. simpl. apply split_two.
Qed.

(** X2.  The outcome of [parse_port] is decided by the number of
    slashes: none raises ValueError (not enough values), one gives a
    pair, two or more raise ValueError (too many values). *)
Theorem parse_port_by_slashes (item : string) :
  (count "/" item = 0%nat ->
   parse_port item
   = Raised (ValueError "not enough values to unpack (expected 2, got 1)"))
  /\ (count "/" item = 1%nat -> exists a b, parse_port item = Ok (a, b))
  /\ ((2 <= count "/" item)%nat ->
      parse_port item
      = Raised (ValueError "too many values to unpack (expected 2)")).
Proof.
  pose proof (length_split "/" item) as Hl.
  unfold parse_port, is_None.
  destruct (split "/" item) as [|x [|y [|u rest]]]; simpl in Hl;
    repeat split; intro H; try (exfalso; lia); try reflexivity.
  exists x, y. reflexivity.
Qed.

Lemma parse_port_by_slashes_witness :
  parse_port "8080"
  = Raised (ValueError "not enough values to unpack (expected 2, got 1)")
  /\ (exists a b, parse_port "8080/tcp" = Ok (a, b))
  /\ parse_port "8080/tcp/x"
     = Raised (ValueError "too many values to unpack (expected 2)").
Proof.
  split; [|split].
  - apply (proj1 (parse_port_by_slashes "8080")). reflexivity.
  - apply (proj1 (proj2 (parse_port_by_slashes "8080/tcp"))). reflexivity.
  - apply (proj2 (proj2 (parse_port_by_slashes "8080/tcp/x"))).
    simpl. lia.
Defined.

Lemma split_three (sep : ascii) (s a b c : string) :
  split sep s = [a; b; c]
  <-> s = (a ++ String sep (b ++ String sep c))%string
      /\ contains sep a = false /\ contains sep b = false
      /\ contains sep c = false.
Proof.
  split.
  - intro H. apply split_cons in H.
    destruct H as [Ha [[Hn _] | [rest [-> Hr]]]]; [discriminate|].
    apply split_two in Hr. destruct Hr as [-> [Hb Hc]]. auto.
  - intros [-> [Ha [Hb Hc]]]. rewrite (split_app sep a _ Ha).
    f_equal. apply split_two. auto.
Qed.

(** X3.  [parse_forward_port] reports the forward port format error,
    naming the item, exactly for the items that do not have two
    semicolons. *)
Theorem parse_forward_port_segments (item : string) :
  parse_forward_port item = FailJson ("improper forward_port format: " ++ item)
  <-> count ";" item <> 2%nat.
Proof.
  pose proof (length_split ";" item) as Hl.
  unfold parse_forward_port, is_None.
  destruct (split ";" item) as [|x [|y [|u [|v rest]]]]; simpl in Hl;
    try (split; [intros _; lia|reflexivity]).
  split; [|intro H; exfalso; lia].
  destruct (split "/" x) as [|a [|b [|c r]]]; simpl; intro H;
    discriminate H.
Qed.

Lemma parse_forward_port_ok_split (item a b : string) (tp ta : option string) :
  parse_forward_port item = Ok (a, b, tp, ta)
  <-> exists x s2 s3,
        split ";" item = [x; s2; s3] /\ split "/" x = [a; b]
        /\ tp = none_if_empty s2 /\ ta = none_if_empty s3.
Proof.
  unfold parse_forward_port, is_None. split.
  - intro H.
    destruct (split ";" item) as [|x [|y [|u [|v rest]]]] eqn:Es;
      try discriminate.
    destruct (split "/" x) as [|a' [|b' [|c' r']]] eqn:Ex; simpl in H;
      try discriminate.
    inversion H; subst. exists x, y, u. auto.
  - intros (x & s2 & s3 & -> & -> & -> & ->). reflexivity.
Qed.

(** X4.  [parse_forward_port] returns a result exactly for the items
    [port/protocol;to_port;to_addr] (one slash in the first segment):
    the result carries the port and protocol, and the two other
    segments with an empty one turned into [None]. *)
Theorem parse_forward_port_ok_iff (item a b : string) (tp ta : option string) :
  parse_forward_port item = Ok (a, b, tp, ta)
  <-> exists s2 s3,
        item = (port_string (a, b) ++ String ";" (s2 ++ String ";" s3))%string
        /\ contains "/" a = false /\ contains "/" b = false
        /\ contains ";" a = false /\ contains ";" b = false
        /\ contains ";" s2 = false /\ contains ";" s3 = false
        /\ tp = none_if_empty s2 /\ ta = none_if_empty s3.
Proof.
  rewrite parse_forward_port_ok_split. split.
  - intros (x & s2 & s3 & Es & Ex & -> & ->).
    apply split_three in Es. destruct Es as [-> [Hx [Hy Hu]]].
    apply split_two in Ex. destruct Ex as [-> [Ha Hb]].
    rewrite contains_app in Hx. simpl in Hx.
    apply orb_false_iff in Hx. destruct Hx as [Hxa Hxb].
    exists s2, s3. unfold port_string. simpl. repeat split; auto.
  - intros (s2 & s3 & -> & Ha & Hb & Hsa & Hsb & H2 & H3 & -> & ->).
    exists (port_string (a, b)), s2, s3.
    assert (Hx : contains ";" (port_string (a, b)) = false).
    { unfold port_string. simpl. rewrite contains_app. simpl.
      rewrite Hsa, Hsb. reflexivity. }
    split; [apply split_three; auto|].
    split; [apply split_two; unfold port_string; auto|auto].
Qed.

(** X5.  A forward port that parsed never carries an empty to-port or
    to-address: an empty segment is absent. *)
Theorem parse_forward_port_no_empty (item a b : string) (tp ta : option string) :
  parse_forward_port item = Ok (a, b, tp, ta) ->
  tp <> Some EmptyString /\ ta <> Some EmptyString.
Proof.
  intro H. apply parse_forward_port_ok_split in H.
  destruct H as (x & s2 & s3 & _ & _ & -> & ->).
  unfold none_if_empty. split.
  - destruct (String.eqb s2 "") eqn:E; [discriminate|].
    apply String.eqb_neq in E. congruence.
  - destruct (String.eqb s3 "") eqn:E; [discriminate|].
    apply String.eqb_neq in E. congruence.
Qed.

Lemma parse_forward_port_no_empty_witness :
  parse_forward_port "80/tcp;8080;" = Ok ("80", "tcp", Some "8080", None)
  /\ Some "8080" <> Some EmptyString /\ @None string <> Some EmptyString.
Proof.
  split; [reflexivity|].
  exact (parse_forward_port_no_empty "80/tcp;8080;" "80" "tcp" (Some "8080")
           None eq_refl).
Defined.

(** ** The parsed request *)

Lemma rmap_ok {A C : Type} (f : A -> result C) (xs : list A) (ys : list C) :
  rmap f xs = Ok ys -> Forall2 (fun x y => f x = Ok y) xs ys.
Proof.
  revert ys. induction xs as [|x xs IH]; simpl; intros ys H.
  - inversion H. constructor.
  - apply rbind_ok in H. destruct H as [y [Hy H]].
    apply rbind_ok in H. destruct H as [ys' [Hys H]].
    inversion H; subst. constructor; [exact Hy|apply IH; exact Hys].
Qed.

Lemma parse_ports_written_back (items : list string)
  (ports : list (string * string)) :
  rmap parse_port items = Ok ports -> map port_string ports = items.
Proof.
  intro H. apply rmap_ok in H. induction H as [|x [a b] xs ys Hx _ IH].
  - reflexivity.
  - simpl. rewrite IH. f_equal. apply parse_port_ok_split in Hx.
    apply split_two in Hx. destruct Hx as [-> _]. reflexivity.
Qed.

Lemma segment_none_if_empty (s : string) : segment (none_if_empty s) = s.
Proof.
  unfold none_if_empty. destruct (String.eqb s "") eqn:E; [|reflexivity].
  apply String.eqb_eq in E. subst s. reflexivity.
Qed.

Lemma parse_forward_ports_written_back (items : list string)
  (fports : list (string * string * option string * option string)) :
  rmap parse_forward_port items = Ok fports ->
  map forward_port_string fports = items.
Proof.
  intro H. apply rmap_ok in H.
  induction H as [|x [[[a b] tp] ta] xs ys Hx _ IH].
  - reflexivity.
  - simpl. rewrite IH. f_equal. apply parse_forward_port_ok_split in Hx.
    destruct Hx as (y & s2 & s3 & Es & Ey & -> & ->).
    apply split_three in Es. destruct Es as [-> _].
    apply split_two in Ey. destruct Ey as [-> _].
    rewrite !segment_none_if_empty. reflexivity.
Qed.

(** X6.  When the parameters parse, the request is the parameters:
    every parameter that is not a port, forward port or rich rule is
    passed through as given; every port, source port and forward port
    is the parse of its parameter and, written back as [port/protocol]
    or [port/protocol;to_port;to_addr], is the parameter string, in the
    order given; and every rich rule is the form the rich rule parser
    gives its parameter, in the order given. *)
Theorem parse_params_faithful (env : environment) (p : params) (d : desired) :
  parse_params env p = Ok d ->
  (service d = params_service p /\ masquerade d = params_masquerade p
   /\ source d = params_source p /\ interface d = params_interface p
   /\ icmp_block d = params_icmp_block p
   /\ icmp_block_inversion d = params_icmp_block_inversion p
   /\ timeout d = params_timeout p /\ target d = params_target p
   /\ zone d = params_zone p /\ permanent d = params_permanent p
   /\ runtime d = params_runtime p /\ offline d = params_offline p
   /\ state d = params_state p)
  /\ (Forall2 (fun item x => parse_port item = Ok x)
        (params_port p) (port d)
      /\ map port_string (port d) = params_port p)
  /\ (Forall2 (fun item x => parse_port item = Ok x)
        (params_source_port p) (source_port d)
      /\ map port_string (source_port d) = params_source_port p)
  /\ (Forall2 (fun item x => parse_forward_port item = Ok x)
        (params_forward_port p) (forward_port d)
      /\ map forward_port_string (forward_port d) = params_forward_port p)
  /\ Forall2 (fun item rule => Rich_Rule env item = inl rule)
       (params_rich_rule p) (rich_rule d).
Proof.
  unfold parse_params. intro H.
  apply rbind_ok in H. destruct H as [ports [Hports H]].
  apply rbind_ok in H. destruct H as [sports [Hsports H]].
  apply rbind_ok in H. destruct H as [fports [Hfports H]].
  apply rbind_ok in H. destruct H as [rules [Hrules H]].
  inversion H; subst; simpl.
  split; [repeat split; reflexivity|].
  split; [split; [apply rmap_ok|apply parse_ports_written_back];
          exact Hports|].
  split; [split; [apply rmap_ok|apply parse_ports_written_back];
          exact Hsports|].
  split; [split; [apply rmap_ok|apply parse_forward_ports_written_back];
          exact Hfports|].
  apply rmap_ok in Hrules.
  eapply Forall2_impl; [|exact Hrules].
  intros item rule Hr. unfold parse_rich_rule in Hr.
  destruct (Rich_Rule env item); [inversion Hr; reflexivity|discriminate].
Qed.

Lemma parse_params_faithful_witness :
  exists d,
    parse_params Stub.online web_request = Ok d
    /\ service d = ["http"] /\ source d = ["10.0.0.0/8"]
    /\ interface d = ["eth0"] /\ target d = Some "DROP"
    /\ state d = enabled
    /\ map port_string (port d) = ["80/tcp"; "443/tcp"]
    /\ map port_string (source_port d) = ["1024-2048/udp"]
    /\ map forward_port_string (forward_port d)
       = ["80/tcp;8080;"; "443/tcp;;10.0.0.5"].
Proof.
  eexists. split; [reflexivity|].
  destruct (parse_params_faithful Stub.online web_request _ eq_refl)
    as ((H1 & _ & H3 & H4 & _ & _ & _ & H8 & _ & _ & _ & _ & H13)
        & (_ & Hp) & (_ & Hs) & (_ & Hf) & _).
  repeat split; assumption.
Defined.

(** ** Which requests validation accepts *)

Lemma check_disabled_fails_inv (d : desired) (msg : string) :
  check_disabled d = FailJson msg ->
  state d = disabled
  /\ (timeout d > 0 \/ masquerade d = Some true
      \/ icmp_block_inversion d = Some true).
Proof.
  unfold check_disabled. destruct (state d); [discriminate|].
  intro H. split; [reflexivity|].
  destruct (timeout d >? 0) eqn:Ht.
  - left. apply Z.gtb_lt in Ht. lia.
  - destruct (truthy (masquerade d)) eqn:Hm.
    + right; left. apply truthy_true. exact Hm.
    + destruct (truthy (icmp_block_inversion d)) eqn:Hi; [|discriminate].
      right; right. apply truthy_true. exact Hi.
Qed.

Lemma check_disabled_never_raises (d : desired) (e : pyexc) :
  check_disabled d <> Raised e.
Proof.
  unfold check_disabled. destruct (state d); [discriminate|].
  destruct (timeout d >? 0); [discriminate|].
  destruct (truthy (masquerade d)); [discriminate|].
  destruct (truthy (icmp_block_inversion d)); discriminate.
Qed.

Lemma check_timeout_never_raises (d : desired) (e : pyexc) :
  check_timeout d <> Raised e.
Proof.
  unfold check_timeout. destruct (timeout d >? 0); [|discriminate].
  repeat match goal with
         | |- (if ?c then _ else _) <> _ => destruct c; [discriminate|]
         end.
  discriminate.
Qed.

Lemma check_timeout_no_timeout (d : desired) :
  ~ timeout d > 0 -> check_timeout d = Ok tt.
Proof.
  intro H. unfold check_timeout. destruct (timeout d >? 0) eqn:Ht;
    [|reflexivity].
  apply Z.gtb_lt in Ht. exfalso. apply H. lia.
Qed.

(** X7.  Validation accepts a request exactly when a plane is selected,
    something is requested, a disabled request has no positive timeout
    and no true masquerade or icmp_block_inversion, and a positive
    timeout comes with a timeout-bearing kind whenever a kind without
    timeout is requested; the accepted request is the given one with
    [runtime] settled. *)
Theorem validate_accepts_iff (d d' : desired) :
  validate d = Ok d'
  <-> d' = set_runtime (runtime_after d) d
      /\ ~ selects_no_plane d
      /\ ~ empty_request d
      /\ (state d = disabled ->
          ~ timeout d > 0 /\ masquerade d <> Some true
          /\ icmp_block_inversion d <> Some true)
      /\ (timeout d > 0 -> timeout_free d -> timeout_bearing d).
Proof.
  split.
  - intro Hv. split; [apply validate_ok; exact Hv|].
    assert (Hsel : ~ selects_no_plane d).
    { intro H. rewrite (validate_no_plane d H) in Hv. discriminate. }
    split; [exact Hsel|].
    rewrite (validate_after_selection d Hsel) in Hv.
    destruct (check_empty_request d) as [[]| |] eqn:He; simpl in Hv;
      try discriminate.
    destruct (check_disabled d) as [[]| |] eqn:Hd; simpl in Hv;
      try discriminate.
    destruct (check_timeout d) as [[]| |] eqn:Ht; simpl in Hv;
      try discriminate.
    split; [|split].
    + intro H. apply check_empty_request_fails in H. congruence.
    + intro Hst.
      assert (Hno : ~ (timeout d > 0 \/ masquerade d = Some true
                       \/ icmp_block_inversion d = Some true)).
      { intro H. destruct (check_disabled_fails d Hst H) as [msg [Hc _]].
        congruence. }
      repeat split; intro H; apply Hno; auto.
    + intros Hpos Hfree. destruct (_timeout_ok d) eqn:Hok.
      * apply _timeout_ok_true. exact Hok.
      * exfalso.
        assert (Hnb : ~ timeout_bearing d).
        { intro H. apply _timeout_ok_true in H. congruence. }
        destruct (proj2 (check_timeout_fails d Hpos) (conj Hnb Hfree))
          as [msg Hc]. congruence.
  - intros (-> & Hsel & Hne & Hdis & Htmo).
    rewrite (validate_after_selection d Hsel).
    rewrite (check_empty_request_passes d Hne). simpl.
    destruct (check_disabled d) as [[]| |] eqn:Hd; simpl.
    + destruct (check_timeout d) as [[]| |] eqn:Ht; simpl.
      * reflexivity.
      * exfalso. destruct (Z_gt_dec (timeout d) 0) as [Hpos | Hpos].
        -- destruct (proj1 (check_timeout_fails d Hpos) (ex_intro _ msg Ht))
             as [Hnb Hfree].
           apply Hnb. apply Htmo; assumption.
        -- rewrite (check_timeout_no_timeout d Hpos) in Ht. discriminate.
      * exfalso. exact (check_timeout_never_raises d e Ht).
    + exfalso. apply check_disabled_fails_inv in Hd.
      destruct Hd as [Hst H]. destruct (Hdis Hst) as [H1 [H2 H3]].
      destruct H as [H | [H | H]]; contradiction.
    + exfalso. exact (check_disabled_never_raises d e Hd).
Qed.

(** ** Runs that do not reach the modification part *)

Lemma parse_params_empty (env : environment) (p : params) :
  empty_params p ->
  exists d, parse_params env p = Ok d /\ empty_request d
            /\ permanent d = params_permanent p
            /\ runtime d = params_runtime p
            /\ offline d = params_offline p.
Proof.
  intros (E1 & E2 & E3 & E4 & E5 & E6 & E7 & E8 & E9 & E10 & E11 & E12).
  unfold parse_params. rewrite E6, E7, E8, E9. simpl.
  eexists. split; [reflexivity|]. unfold empty_request. simpl.
  repeat split; assumption.
Qed.

(** X8.  A request that names nothing (every rule list empty, and no
    masquerade, icmp_block_inversion, target or zone given) and whose
    [permanent], [runtime] and [offline] are not all three explicitly
    false is rejected with the "needs to be set" message, whatever its
    state, timeout and check mode, and firewalld is not contacted: the
    run ends in the world it started in. *)
Theorem empty_request_rejected {B : Backend} (env : environment)
  (check_mode : bool) (p : params) (w : world B) :
  HAS_FIREWALLD env = true -> empty_params p ->
  ~ (params_permanent p = Some false /\ params_runtime p = Some false
     /\ params_offline p = Some false) ->
  main env check_mode p w = (FailJson msg_empty, w).
Proof.
  intros Hfw He Hsel.
  destruct (parse_params_empty env p He) as (d & Hp & Hd & Hpm & Hrt & Hof).
  assert (Hsel' : ~ selects_no_plane d).
  { unfold selects_no_plane. rewrite Hpm, Hrt, Hof. exact Hsel. }
  unfold main. rewrite Hfw, Hp. simpl.
  rewrite (validate_after_selection d Hsel').
  rewrite (proj2 (check_empty_request_fails d) Hd). reflexivity.
Qed.

Lemma empty_request_rejected_witness :
  main Stub.online true (Stub.ask disabled [] [] 30 (Some true) None None)
    (Stub.start Stub.fresh)
  = (FailJson msg_empty, Stub.start Stub.fresh).
Proof.
  apply (empty_request_rejected Stub.online true
           (Stub.ask disabled [] [] 30 (Some true) None None)
           (Stub.start Stub.fresh) eq_refl).
  - repeat split; reflexivity.
  - intros [H _]. discriminate H.
Defined.

(** X9.  A run that is turned down before the modification part (the
    firewall package is missing, a parameter does not parse, a
    validation check fails or connecting fails) ends in a failure and
    has not touched firewalld: its calls are at most the creation of
    the client, the start of the offline object and zone lookups, and
    the state of firewalld is the one it started from. *)
Theorem rejected_run_leaves_firewalld {B : Backend} (env : environment)
  (check_mode : bool) (p : params) (w w' : world B) (r : result bool) :
  main env check_mode p w = (r, w') ->
  ~ reaches_modification env p w ->
  (forall c, r <> Ok c)
  /\ fw_state w' = fw_state w
  /\ exists cs, calls w' = calls w ++ cs /\ forallb is_bookkeeping cs = true.
Proof.
  intros H Hr. unfold main in H. unfold reaches_modification in Hr.
  assert (Hsame : fw_state w = fw_state w
                  /\ exists cs, calls w = calls w ++ cs
                                /\ forallb is_bookkeeping cs = true).
  { split; [reflexivity|]. exists []. rewrite app_nil_r. auto. }
  destruct (HAS_FIREWALLD env); simpl in H;
    [|inversion H; subst; split; [discriminate|exact Hsame]].
  destruct (rbind (parse_params env p) validate) as [d0| |];
    try (inversion H; subst; split; [discriminate|exact Hsame]).
  destruct (connect env d0 w) as [[s| |] w1] eqn:Hc.
  - exfalso. apply Hr. split; [reflexivity|].
    exists d0, s, w1. split; [reflexivity|exact Hc].
  - inversion H; subst. split; [discriminate|].
    exact (connect_calls env d0 w w' _ Hc).
  - inversion H; subst. split; [discriminate|].
    exact (connect_calls env d0 w w' _ Hc).
Qed.

Lemma rejected_run_leaves_firewalld_witness :
  let r := main Stub.stopped false
             (Stub.ask enabled ["http"] [] 0 None None None)
             (Stub.start Stub.fresh) in
  (forall c, fst r <> Ok c)
  /\ fw_state (snd r) = Stub.fresh
  /\ exists cs, calls (snd r) = [] ++ cs /\ forallb is_bookkeeping cs = true.
Proof.
  apply (rejected_run_leaves_firewalld Stub.stopped false
           (Stub.ask enabled ["http"] [] 0 None None None)
           (Stub.start Stub.fresh) _ _ eq_refl).
  intros (_ & d & s0 & w1 & Hp & Hc).
  vm_compute in Hp. inversion Hp; subst d. vm_compute in Hc. discriminate Hc.
Defined.

(** ** The zone a run works on *)

(** X10.  When connecting succeeds, the session works on the requested
    zone, and that zone exists wherever the run will look: among the
    runtime zones when [runtime] is on and among the permanent zones
    when [permanent] is on (connected), among the zones of the offline
    object (offline).  Without a requested zone it works on the default
    zone.  The settings object is the one loaded for that zone, and
    connecting leaves the state of firewalld as it was: its calls are
    the creation of the client, the start of the offline object, zone
    lookups and the loading of the settings. *)
Theorem connect_zone {B : Backend} (env : environment) (d d' : desired)
  (w w1 : world B) (off : bool) (zn : string) (st : settingsT B) :
  connect env d w = (Ok (off, zn, d', st), w1) ->
  fw_state w1 = fw_state w
  /\ (exists cs, calls w1 = calls w ++ cs /\ forallb is_bookkeeping cs = true)
  /\ st = load off zn (fw_state w)
  /\ match zone d with
     | Some z0 =>
         zn = z0
         /\ if connected env
            then (truthy (runtime d) = true ->
                  zone_in z0 (getZones B (fw_state w)) = true)
                 /\ (truthy (permanent d) = true ->
                     zone_in z0 (getZoneNames B (fw_state w)) = true)
            else zone_in z0 (get_zones B (fw_state w)) = true
     | None =>
         zn = if connected env then getDefaultZone B (fw_state w)
              else get_default_zone B (fw_state w)
     end.
Proof.
  intro Hc. destruct (connect_calls env d w w1 _ Hc) as [Hfw Hcs].
  split; [exact Hfw|]. split; [exact Hcs|]. clear Hfw Hcs. revert Hc.
  unfold connect, offline_zone, connected_zone, load.
  destruct (HAS_FIREWALLD env); simpl; [|discriminate].
  destruct (connected env); simpl.
  - destruct (version_lt env "0.2.11"); [discriminate|].
    destruct (zone d) as [z0|].
    + destruct (truthy (runtime d)), (truthy (permanent d)); simpl;
        repeat match goal with
               | |- context [zone_in ?a ?b] => destruct (zone_in a b); simpl
               end;
        intro H; inversion H; subst; repeat split; auto; discriminate.
    + intro H; inversion H; subst. split; reflexivity.
  - destruct (truthy (offline d)); simpl; [|discriminate].
    destruct (version_lt env "0.3.9"); [discriminate|].
    destruct (zone d) as [z0|]; simpl.
    + destruct (zone_in z0 (get_zones B (fw_state w))); simpl;
        intro H; inversion H; subst; repeat split; auto.
    + intro H; inversion H; subst. split; reflexivity.
Qed.

Lemma connect_zone_witness :
  exists d st w1,
    parse_params Stub.online web_request = Ok d
    /\ connect Stub.online d (Stub.start Stub.fresh)
       = (Ok (false, "internal", d, st), w1)
    /\ fw_state w1 = Stub.fresh
    /\ zone_in "internal" (Stub.zones Stub.fresh) = true.
Proof.
  eexists. eexists. eexists. split; [reflexivity|].
  match goal with
  | |- ?E /\ _ => assert (Hc : E) by reflexivity
  end.
  split; [exact Hc|].
  destruct (connect_zone _ _ _ _ _ _ _ _ Hc) as (Hfw & _ & _ & _ & Hz).
  split; [exact Hfw|exact (proj1 Hz eq_refl)].
Defined.

(** ** A completed run, with what the modification part started from *)

Lemma session_fields (env : environment) (p : params) (d0 : desired) :
  rbind (parse_params env p) validate = Ok d0 ->
  let d := session_request env d0 in
  service d = params_service p /\ source d = params_source p
  /\ timeout d = params_timeout p /\ target d = params_target p
  /\ state d = params_state p /\ masquerade d = params_masquerade p
  /\ icmp_block_inversion d = params_icmp_block_inversion p
  /\ offline d0 = params_offline p.
Proof.
  intro H. apply rbind_ok in H. destruct H as [d1 [Hp Hv]].
  apply validate_ok in Hv. apply parse_params_ok in Hp.
  destruct Hp as (H1 & H2 & _ & _ & H5 & H6 & H7 & H8 & _ & _ & _ & H12 & H13).
  subst d0. unfold session_request. destruct (connected env); simpl;
    repeat split; assumption.
Qed.

Lemma main_run {B : Backend} (env : environment) (check_mode : bool)
  (p : params) (w w' : world B) (c : bool) :
  main env check_mode p w = (Ok c, w') ->
  exists d0 zn st w1 cs,
    rbind (parse_params env p) validate = Ok d0
    /\ connect env d0 w
       = (Ok (negb (connected env), zn, session_request env d0, st), w1)
    /\ fw_state w1 = fw_state w
    /\ calls w1 = calls w ++ cs /\ forallb is_bookkeeping cs = true
    /\ let l0 := {| fw := fw_state w1; fw_settings := st; changed := false;
                    log := calls w1 |} in
       let lf := exec (modification check_mode (negb (connected env)) zn
                         (session_request env d0)) l0 in
       c = changed lf /\ fw_state w' = fw lf
       /\ calls w' = calls w ++ cs
            ++ modification_calls check_mode zn (session_request env d0) l0.
Proof.
  intro H. apply main_ok in H.
  destruct H as (d0 & off & zn & st & w1 & Hp & Hc & -> & Hch & ->).
  pose proof (connect_calls env d0 w w1 _ Hc) as [Hfw [cs [Hcs Hb]]].
  exists d0, zn, st, w1, cs. repeat split; try assumption.
  simpl. rewrite log_modification. simpl. rewrite Hcs, app_assoc. reflexivity.
Qed.

(** ** Which calls the modification part makes *)

Lemma requested_want (d : desired) (e : entry) (b : bool) :
  In (e, b) (requested d) -> b = want_of d e.
Proof.
  unfold requested, want_of. intro H.
  repeat (apply in_app_or in H; destruct H as [H | H]);
    try (apply in_map_iff in H; destruct H as [x [Hx H]];
         repeat match type of Hx with
                | (let '(_, _) := ?y in _) = _ => destruct y
                end;
         inversion Hx; subst; reflexivity).
  all: unfold toggle in H.
  all: match type of H with
       | In _ (match ?v with _ => _ end) => destruct v as [tv|] eqn:Hv
       end; simpl in H.
  all: try (destruct H as [H | []]; inversion H; subst;
            destruct b; reflexivity).
  all: destruct H.
Qed.

(** The queries of a plan are those of its guarded steps. *)
Lemma plan_query_iff {B : Backend} (check_mode : bool) (z : string)
  (d : desired) (l : locals B) (pl : plane) (e : entry) :
  In (Query pl e) (plan_calls check_mode z (plan d) l)
  <-> exists b, In (e, b) (requested d)
                /\ match pl with
                   | Runtime => rt_gate_of d e = true
                   | Permanent => truthy (permanent d) = true
                   end.
Proof.
  split.
  - intro H.
    pose proof (plan_calls_from check_mode z (plan d) l) as Hf.
    rewrite Forall_forall in Hf. destruct (Hf _ H) as [s [Hin [Hg Hc]]].
    assert (Hq : Query pl e = Query (s_plane s) (s_entry s)).
    { destruct Hc as [Hc | [_ Hc]]; [exact Hc|].
      unfold mutation_call in Hc. destruct (s_want s); discriminate. }
    inversion Hq; subst. apply in_plan in Hin.
    destruct Hin as [e' [b [Hr [-> | ->]]]]; simpl in *; exists b; auto.
  - intros [b [Hr Hg]]. destruct pl.
    + apply (plan_calls_query check_mode z (plan d) l
               {| s_plane := Runtime; s_gate := rt_gate_of d e; s_entry := e;
                  s_want := b; s_tmo := tmo_of d e;
                  s_mark := rt_mark_of e b |}).
      * apply in_plan. exists e, b. auto.
      * exact Hg.
    + apply (plan_calls_query check_mode z (plan d) l
               {| s_plane := Permanent; s_gate := truthy (permanent d);
                  s_entry := e; s_want := b; s_tmo := None; s_mark := true |}).
      * apply in_plan. exists e, b. auto.
      * exact Hg.
Qed.

(** X11.  The modification part queries exactly the entries the request
    names: each of them on the runtime plane when [runtime] is on or the
    entry is a source, each of them on the permanent plane when
    [permanent] is on, and nothing else, in check mode and outside. *)
Theorem queries_are_the_requested {B : Backend} (check_mode fw_offline : bool)
  (z : string) (d : desired) (l : locals B) :
  exists cs,
    log (exec (modification check_mode fw_offline z d) l) = log l ++ cs
    /\ forall pl e,
         In (Query pl e) cs
         <-> exists b, In (e, b) (requested d)
                       /\ match pl with
                          | Runtime => truthy (runtime d) = true
                                       \/ exists item, e = Source item
                          | Permanent => truthy (permanent d) = true
                          end.
Proof.
  exists (modification_calls check_mode z d l).
  split; [apply log_modification|]. intros pl e.
  assert (Hg : rt_gate_of d e = true
               <-> truthy (runtime d) = true \/ exists item, e = Source item).
  { unfold rt_gate_of. destruct e; split; intro H; eauto;
      destruct H as [H | [i H]]; try exact H; try discriminate; reflexivity. }
  unfold modification_calls. rewrite in_app_iff, in_app_iff, plan_query_iff.
  split.
  - intros [[b [Hr H]] | [H | H]].
    + exists b. split; [exact Hr|]. destruct pl; [apply Hg; exact H|exact H].
    + exfalso. unfold target_calls in H. destruct (target d); [|destruct H].
      destruct (truthy (permanent d)); [|destruct H].
      destruct H as [H | H]; [discriminate|].
      destruct (String.eqb _ _); [destruct H|].
      destruct check_mode; [destruct H|]. destruct H as [H | []]. discriminate.
    + exfalso. unfold apply_calls in H.
      destruct (truthy (permanent d)); [|destruct H].
      destruct H as [H | []]. discriminate.
  - intros [b [Hr H]]. left. exists b. split; [exact Hr|].
    destruct pl; [apply Hg; exact H|exact H].
Qed.

(** ** No mutation without its query *)

Lemma follows_app (a b : list call) :
  mutation_follows_query a -> mutation_follows_query b -> starts_plain b ->
  mutation_follows_query (a ++ b).
Proof.
  intros Ha Hb Hs pre c post q E Hq. apply app_eq_app in E.
  destruct E as [l [[E1 E2] | [E1 E2]]].
  - destruct l as [|c' l'].
    + simpl in E2. symmetry in E2. rewrite (Hs c post E2) in Hq. discriminate.
    + simpl in E2. inversion E2; subst. exact (Ha pre c' l' q eq_refl Hq).
  - destruct (Hb l c post q E2 Hq) as [pre' ->].
    exists (a ++ pre'). subst pre. apply app_assoc.
Qed.

Lemma starts_plain_app (a b : list call) :
  starts_plain a -> starts_plain b -> starts_plain (a ++ b).
Proof.
  intros Ha Hb c rest E. destruct a as [|x a]; simpl in E.
  - exact (Hb c rest E).
  - inversion E; subst. exact (Ha c a eq_refl).
Qed.

Lemma follows_plain (cs : list call) :
  Forall (fun c => query_of c = None) cs ->
  mutation_follows_query cs /\ starts_plain cs.
Proof.
  intro H. rewrite Forall_forall in H. split.
  - intros pre c post q E Hq. rewrite (H c) in Hq; [discriminate|].
    rewrite E. apply in_or_app. right. left. reflexivity.
  - intros c rest E. apply H. rewrite E. left. reflexivity.
Qed.

Lemma follows_pair (qc m : call) :
  query_of qc = None -> query_of m = Some qc ->
  mutation_follows_query [qc; m] /\ starts_plain [qc; m].
Proof.
  intros Hq Hm. split.
  - intros pre c post q E Hc. destruct pre as [|x [|y pre]]; simpl in E.
    + inversion E; subst. rewrite Hq in Hc. discriminate.
    + inversion E; subst. rewrite Hm in Hc. inversion Hc; subst.
      exists []. reflexivity.
    + inversion E as [[E1 E2 E3]]. destruct pre; discriminate.
  - intros c rest E. inversion E; subst. exact Hq.
Qed.

Lemma step_calls_follow {B : Backend} (cm : bool) (z : string) (s : step)
  (l : locals B) :
  mutation_follows_query (step_calls cm z s l)
  /\ starts_plain (step_calls cm z s l).
Proof.
  unfold step_calls. destruct (s_gate s); [|apply follows_plain; constructor].
  destruct (agrees z s l);
    [apply follows_plain; repeat constructor|].
  destruct cm; [apply follows_plain; repeat constructor|].
  apply follows_pair; [reflexivity|].
  unfold mutation_call. destruct (s_want s); reflexivity.
Qed.

Lemma plan_calls_follow {B : Backend} (cm : bool) (z : string)
  (ss : list step) (l : locals B) :
  mutation_follows_query (plan_calls cm z ss l)
  /\ starts_plain (plan_calls cm z ss l).
Proof.
  revert l. induction ss as [|s ss IH]; intro l; simpl.
  - apply follows_plain. constructor.
  - destruct (step_calls_follow cm z s l) as [H1 H2].
    destruct (IH (step_fn cm z s l)) as [I1 I2].
    split; [apply follows_app; assumption|apply starts_plain_app; assumption].
Qed.

Lemma modification_calls_follow {B : Backend} (cm : bool) (z : string)
  (d : desired) (l : locals B) :
  mutation_follows_query (modification_calls cm z d l)
  /\ starts_plain (modification_calls cm z d l).
Proof.
  unfold modification_calls.
  destruct (plan_calls_follow cm z (plan d) l) as [P1 P2].
  assert (T : mutation_follows_query
                (target_calls cm d (plan_fn cm z (plan d) l))
              /\ starts_plain (target_calls cm d (plan_fn cm z (plan d) l))).
  { unfold target_calls. destruct (target d); [|apply follows_plain; constructor].
    destruct (truthy (permanent d)); [|apply follows_plain; constructor].
    destruct (String.eqb _ _); [apply follows_plain; repeat constructor|].
    destruct cm; [apply follows_plain; repeat constructor|].
    apply follows_pair; reflexivity. }
  assert (A : mutation_follows_query (apply_calls d)
              /\ starts_plain (apply_calls d)).
  { unfold apply_calls. destruct (truthy (permanent d));
      apply follows_plain; repeat constructor. }
  destruct T as [T1 T2]. destruct A as [A1 A2]. split.
  - apply follows_app; [exact P1| |apply starts_plain_app; assumption].
    apply follows_app; assumption.
  - apply starts_plain_app; [exact P2|]. apply starts_plain_app; assumption.
Qed.

(** X12.  In every run, each add, remove and setTarget comes right
    after the query that found the disagreement: no plane is changed
    unseen. *)
Theorem mutation_after_its_query {B : Backend} (env : environment)
  (check_mode : bool) (p : params) (w w' : world B) (r : result bool) :
  main env check_mode p w = (r, w') ->
  exists cs, calls w' = calls w ++ cs /\ mutation_follows_query cs.
Proof.
  intro H. apply main_calls in H. destruct H as [cs [Hb H]].
  assert (Hcs : mutation_follows_query cs /\ starts_plain cs).
  { apply follows_plain. apply bookkeeping_forall; [|exact Hb].
    intros [] Hc; try discriminate; reflexivity. }
  destruct H as [[Hw _] | (d0 & zn & l & _ & _ & Hw)].
  - exists cs. split; [exact Hw|apply Hcs].
  - eexists. split; [exact Hw|].
    destruct (modification_calls_follow check_mode zn (session_request env d0) l)
      as [M1 M2].
    apply follows_app; [apply Hcs|exact M1|exact M2].
Qed.

Lemma mutation_after_its_query_witness :
  exists cs,
    calls (snd (main Stub.online false web_request (Stub.start Stub.fresh)))
    = [] ++ cs
    /\ mutation_follows_query cs.
Proof.
  exact (mutation_after_its_query Stub.online false web_request
           (Stub.start Stub.fresh) _ _ eq_refl).
Defined.

(** ** The timeout argument *)

Lemma tmo_of_argument (d : desired) (e : entry) :
  tmo_of d e = timeout_argument (timeout d) Runtime e.
Proof. destruct e; reflexivity. Qed.

(** X13.  The timeout of the request is passed to the runtime [add] of
    a service, port, source port, forward port, masquerade, rich rule
    and icmp block, and to no other call: an [add] on the permanent
    plane, and the runtime [add] of a source, an interface or the icmp
    block inversion, take none. *)
Theorem add_timeout {B : Backend} (env : environment) (check_mode : bool)
  (p : params) (w w' : world B) (r : result bool) :
  main env check_mode p w = (r, w') ->
  exists cs, calls w' = calls w ++ cs
    /\ forall pl e t, In (Add pl e t) cs ->
                      t = timeout_argument (params_timeout p) pl e.
Proof.
  intro H. apply main_calls in H. destruct H as [cs [Hb H]].
  set (P := fun c => forall pl e t, c = Add pl e t ->
                     t = timeout_argument (params_timeout p) pl e).
  assert (Hcs : Forall P cs).
  { apply bookkeeping_forall; [|exact Hb]. intros c Hc pl e t E.
    subst c. discriminate Hc. }
  assert (Hall : forall l, Forall P l ->
                 forall pl e t, In (Add pl e t) l ->
                 t = timeout_argument (params_timeout p) pl e).
  { intros l Hl pl e t Hin. rewrite Forall_forall in Hl.
    exact (Hl _ Hin pl e t eq_refl). }
  destruct H as [[Hw _] | (d0 & zn & l & Hp & _ & Hw)].
  - exists cs. split; [exact Hw|apply Hall; exact Hcs].
  - eexists. split; [exact Hw|]. apply Hall. apply Forall_app.
    split; [exact Hcs|].
    destruct (session_fields env p d0 Hp) as (_ & _ & Htmo & _).
    apply modification_calls_forall; unfold P; try discriminate.
    intros s c Hin [_ [-> | [_ ->]]] pl e t E; [discriminate|].
    unfold mutation_call in E. destruct (s_want s); [|discriminate].
    inversion E; subst. apply in_plan in Hin.
    destruct Hin as [e' [b [_ [-> | ->]]]]; simpl.
    + rewrite tmo_of_argument, Htmo. reflexivity.
    + destruct e'; reflexivity.
Qed.

Lemma add_timeout_witness :
  exists cs,
    calls (snd (main Stub.online false
                  (Stub.ask enabled ["http"] ["10.0.0.1"] 30 (Some true) (Some true) None)
                  (Stub.start Stub.fresh)))
    = [] ++ cs
    /\ forall pl e t, In (Add pl e t) cs -> t = timeout_argument 30 pl e.
Proof.
  exact (add_timeout Stub.online false
           (Stub.ask enabled ["http"] ["10.0.0.1"] 30 (Some true) (Some true) None)
           (Stub.start Stub.fresh) _ _ eq_refl).
Defined.

(** ** What the changed flag tells *)

Lemma requested_service_in (d : desired) (item : string) (b : bool) :
  In (Service item, b) (requested d) -> In item (service d).
Proof.
  unfold requested. intro H.
  repeat (apply in_app_or in H; destruct H as [H | H]);
    try (apply in_map_iff in H; destruct H as [x [Hx H]];
         repeat match type of Hx with
                | (let '(_, _) := ?y in _) = _ => destruct y
                end;
         inversion Hx; subst; assumption).
  all: unfold toggle in H.
  all: match type of H with
       | In _ (match ?v with _ => _ end) => destruct v
       end; simpl in H.
  all: try (destruct H as [H | []]; discriminate H).
  all: destruct H.
Qed.

(** When a plan ends with [changed] false, what it added or removed
    came from steps that do not assign [changed]. *)
Lemma plan_unreported {B : Backend} (cm : bool) (z : string)
  (ss : list step) (l : locals B) :
  changed (plan_fn cm z ss l) = false ->
  Forall (fun c => is_add_remove c = true ->
                   exists s, In s ss /\ s_mark s = false
                             /\ c = mutation_call s)
    (plan_calls cm z ss l).
Proof.
  revert l. induction ss as [|s ss IH]; intros l H; simpl; [constructor|].
  simpl in H.
  assert (Hs : changed (step_fn cm z s l) = false).
  { destruct (changed (step_fn cm z s l)) eqn:E; [|reflexivity].
    rewrite (changed_plan_fn_mono cm z ss _ E) in H. discriminate. }
  apply Forall_app. split.
  - rewrite changed_step_fn in Hs. apply orb_false_iff in Hs.
    destruct Hs as [_ Hs]. unfold step_calls.
    destruct (s_gate s); [|constructor].
    constructor; [discriminate|].
    destruct (agrees z s l); [constructor|]. simpl in Hs.
    destruct cm; constructor; [|constructor].
    intros _. exists s. split; [left; reflexivity|]. split; [exact Hs|reflexivity].
  - eapply Forall_impl; [|apply IH; exact H].
    intros c Hc Ha. destruct (Hc Ha) as [s' [Hin Hs']].
    exists s'. split; [right; exact Hin|exact Hs'].
Qed.

(** Outside check mode, a plan that turns [changed] on has added or
    removed something. *)
Lemma plan_reported {B : Backend} (z : string) (ss : list step)
  (l : locals B) :
  changed l = false -> changed (plan_fn false z ss l) = true ->
  exists c, In c (plan_calls false z ss l) /\ is_add_remove c = true.
Proof.
  revert l. induction ss as [|s ss IH]; intros l Hl H; simpl in *.
  - congruence.
  - destruct (changed (step_fn false z s l)) eqn:E.
    + rewrite changed_step_fn, Hl in E. simpl in E.
      apply andb_true_iff in E. destruct E as [E _].
      apply andb_true_iff in E. destruct E as [Hg Ha].
      apply negb_true_iff in Ha.
      exists (mutation_call s). split.
      * apply in_or_app. left. unfold step_calls. rewrite Hg, Ha.
        right. left. reflexivity.
      * unfold mutation_call. destruct (s_want s); reflexivity.
    + destruct (IH _ E H) as [c [Hin Hc]]. exists c.
      split; [apply in_or_app; right; exact Hin|exact Hc].
Qed.

(** The only steps of the plan of a request that do not assign
    [changed] are the runtime removals of its services. *)
Lemma plan_unmarked (d : desired) (s : step) :
  In s (plan d) -> s_mark s = false ->
  state d = disabled
  /\ exists item, In item (service d)
                  /\ mutation_call s = Remove Runtime (Service item).
Proof.
  intros Hin Hm. apply in_plan in Hin.
  destruct Hin as [e [b [Hr [-> | ->]]]]; simpl in Hm; [|discriminate].
  destruct e; simpl in Hm; try discriminate. subst b.
  pose proof (requested_service d item false Hr) as Hw.
  split.
  - unfold wanted in Hw. destruct (state d); [discriminate|reflexivity].
  - exists item. split; [eapply requested_service_in; eassumption|reflexivity].
Qed.

(** X14.  A run that reports [changed = False] has added nothing, set
    no target and removed nothing, except services it removed from the
    runtime plane on a disabled request; in particular an enabled
    request that reports no change has made none. *)
Theorem unchanged_run_mutations {B : Backend} (env : environment)
  (check_mode : bool) (p : params) (w w' : world B) :
  main env check_mode p w = (Ok false, w') ->
  exists cs, calls w' = calls w ++ cs
    /\ forall c, In c cs -> is_add_remove c = true ->
         params_state p = disabled
         /\ exists item, In item (params_service p)
                         /\ c = Remove Runtime (Service item).
Proof.
  intro H. apply main_run in H.
  destruct H as (d0 & zn & st & w1 & cs & Hp & _ & _ & _ & Hb & Hch & _ & Hw).
  cbv zeta in Hch, Hw. eexists. split; [exact Hw|].
  set (d := session_request env d0) in *.
  set (l0 := {| fw := fw_state w1; fw_settings := st; changed := false;
                log := calls w1 |}) in *.
  destruct (session_fields env p d0 Hp) as (Hsv & _ & _ & _ & Hst & _).
  fold d in Hsv, Hst.
  rewrite modification_plan, changed_apply_fn in Hch. symmetry in Hch.
  assert (Hplan : changed (plan_fn check_mode zn (plan d) l0) = false).
  { destruct (changed (plan_fn check_mode zn (plan d) l0)) eqn:E;
      [|reflexivity].
    rewrite (changed_target_fn_mono d check_mode _ E) in Hch. discriminate. }
  intros c Hin Ha. apply in_app_or in Hin. destruct Hin as [Hin | Hin].
  - exfalso. rewrite forallb_forall in Hb. specialize (Hb c Hin).
    destruct c; discriminate.
  - unfold modification_calls in Hin. apply in_app_or in Hin.
    destruct Hin as [Hin | Hin].
    + pose proof (plan_unreported check_mode zn (plan d) l0 Hplan) as Hf.
      rewrite Forall_forall in Hf.
      destruct (Hf c Hin Ha) as [s [Hs [Hm ->]]].
      destruct (plan_unmarked d s Hs Hm) as [Hdis [item [Hi Hc]]].
      rewrite <- Hst, <- Hsv. split; [exact Hdis|]. exists item. auto.
    + exfalso. apply in_app_or in Hin. destruct Hin as [Hin | Hin].
      * unfold target_fn in Hch. unfold target_calls in Hin.
        destruct (target d); [|destruct Hin].
        destruct (truthy (permanent d)); [|destruct Hin].
        destruct (String.eqb _ _); [|discriminate Hch].
        destruct Hin as [<- | []]. discriminate Ha.
      * unfold apply_calls in Hin. destruct (truthy (permanent d));
          [|destruct Hin]. destruct Hin as [<- | []]. discriminate Ha.
Qed.

Lemma unchanged_run_mutations_witness :
  exists cs,
    calls (snd (main Stub.online false
                  (Stub.ask disabled ["http"] [] 0 None None None)
                  (Stub.start (Stub.serving [Service "http"]))))
    = [] ++ cs
    /\ forall c, In c cs -> is_add_remove c = true ->
         disabled = disabled
         /\ exists item, In item ["http"] /\ c = Remove Runtime (Service item).
Proof.
  exact (unchanged_run_mutations Stub.online false
           (Stub.ask disabled ["http"] [] 0 None None None)
           (Stub.start (Stub.serving [Service "http"])) _ eq_refl).
Defined.

(** X15.  Outside check mode, a run that reports [changed = True] has
    issued an add, a remove or a setTarget. *)
Theorem changed_run_mutated {B : Backend} (env : environment)
  (p : params) (w w' : world B) :
  main env false p w = (Ok true, w') ->
  exists cs, calls w' = calls w ++ cs
             /\ exists c, In c cs /\ is_add_remove c = true.
Proof.
  intro H. apply main_run in H.
  destruct H as (d0 & zn & st & w1 & cs & Hp & _ & _ & _ & Hb & Hch & _ & Hw).
  cbv zeta in Hch, Hw. eexists. split; [exact Hw|].
  set (d := session_request env d0) in *.
  set (l0 := {| fw := fw_state w1; fw_settings := st; changed := false;
                log := calls w1 |}) in *.
  rewrite modification_plan, changed_apply_fn in Hch. symmetry in Hch.
  destruct (changed (plan_fn false zn (plan d) l0)) eqn:E.
  - destruct (plan_reported zn (plan d) l0 eq_refl E) as [c [Hin Hc]].
    exists c. split; [|exact Hc]. apply in_or_app. right.
    unfold modification_calls. apply in_or_app. left. exact Hin.
  - unfold target_fn in Hch.
    destruct (target d) as [t|] eqn:Et; [|congruence].
    destruct (truthy (permanent d)) eqn:Ep; [|congruence].
    destruct (String.eqb (getTarget B (fw_settings (plan_fn false zn (plan d) l0))) t)
      eqn:Eq; [simpl in Hch; congruence|].
    exists (SetTarget t). split; [|reflexivity].
    apply in_or_app. right. unfold modification_calls.
    apply in_or_app. right. apply in_or_app. left.
    unfold target_calls. rewrite Et, Ep, Eq. right. left. reflexivity.
Qed.

Lemma changed_run_mutated_witness :
  exists cs,
    calls (snd (main Stub.online false web_request (Stub.start Stub.fresh)))
    = [] ++ cs
    /\ exists c, In c cs /\ is_add_remove c = true.
Proof.
  exact (changed_run_mutated Stub.online web_request (Stub.start Stub.fresh)
           _ eq_refl).
Defined.

(** ** The order of the calls *)

Lemma sorted_app (a b : list nat) :
  StronglySorted le a -> StronglySorted le b ->
  (forall x y, In x a -> In y b -> (x <= y)%nat) ->
  StronglySorted le (a ++ b).
Proof.
  intros Ha Hb Hab. induction a as [|x a IH]; simpl; [exact Hb|].
  apply StronglySorted_inv in Ha. destruct Ha as [Ha Hx].
  constructor.
  - apply IH; [exact Ha|]. intros u v Hu Hv. apply Hab; [right; exact Hu|exact Hv].
  - apply Forall_app. split; [exact Hx|].
    apply Forall_forall. intros y Hy. apply Hab; [left; reflexivity|exact Hy].
Qed.

Lemma sorted_constant (k : nat) (a : list nat) :
  (forall x, In x a -> x = k) -> StronglySorted le a.
Proof.
  induction a as [|x a IH]; intro H; constructor.
  - apply IH. intros y Hy. apply H. right. exact Hy.
  - apply Forall_forall. intros y Hy.
    rewrite (H x (or_introl eq_refl)), (H y (or_intror Hy)). apply le_n.
Qed.

(** A block of constant rank [k] before a sorted list whose ranks are at
    least [k']. *)
Lemma sorted_block (k k' : nat) (a b : list nat) :
  (forall x, In x a -> x = k) -> (k <= k')%nat ->
  StronglySorted le b /\ (forall y, In y b -> (k' <= y)%nat) ->
  StronglySorted le (a ++ b) /\ (forall y, In y (a ++ b) -> (k <= y)%nat).
Proof.
  intros Ha Hk [Hb Hlow]. split.
  - apply sorted_app; [apply (sorted_constant k); exact Ha|exact Hb|].
    intros x y Hx Hy. rewrite (Ha x Hx). specialize (Hlow y Hy). lia.
  - intros y Hy. apply in_app_or in Hy. destruct Hy as [Hy | Hy].
    + rewrite (Ha y Hy). apply le_n.
    + specialize (Hlow y Hy). lia.
Qed.

Lemma ranks_of_map {A : Type} (g : A -> entry * bool) (k : nat) (xs : list A) :
  (forall x, rank (fst (g x)) = k) ->
  forall r, In r (map (fun eb => rank (fst eb)) (map g xs)) -> r = k.
Proof.
  intros Hg r Hr. rewrite map_map in Hr. apply in_map_iff in Hr.
  destruct Hr as [x [<- _]]. apply Hg.
Qed.

Lemma ranks_of_toggle (v : option bool) (e : entry) :
  forall r, In r (map (fun eb => rank (fst eb)) (toggle v e)) -> r = rank e.
Proof.
  intros r Hr. destruct v; simpl in Hr; [|destruct Hr].
  destruct Hr as [<- | []]. reflexivity.
Qed.

Ltac rank_block k k' :=
  apply (sorted_block k k');
  [ intros r Hr;
    first [ apply ranks_of_toggle in Hr; exact Hr
          | rewrite map_map in Hr; apply in_map_iff in Hr;
            destruct Hr as [x [Hx _]]; subst r;
            repeat match goal with
                   | |- context [let '(_, _) := ?y in _] => destruct y
                   end;
            reflexivity ]
  | lia
  | ].

(** The entries of a request are listed in the order of the blocks. *)
Lemma requested_sorted (d : desired) :
  StronglySorted le (map (fun eb => rank (fst eb)) (requested d)).
Proof.
  cut (StronglySorted le (map (fun eb => rank (fst eb)) (requested d))
       /\ forall y, In y (map (fun eb => rank (fst eb)) (requested d)) ->
                    (0 <= y)%nat); [tauto|].
  unfold requested. rewrite !map_app.
  rank_block 0%nat 1%nat. rank_block 1%nat 2%nat. rank_block 2%nat 3%nat.
  rank_block 3%nat 4%nat. rank_block 4%nat 5%nat. rank_block 5%nat 6%nat.
  rank_block 6%nat 7%nat. rank_block 7%nat 8%nat. rank_block 8%nat 9%nat.
  rewrite <- (app_nil_r (map _ (toggle _ _))).
  rank_block 9%nat 9%nat.
  split; [constructor|]. intros y [].
Qed.

Lemma plan_sorted (d : desired) :
  StronglySorted le (map (fun s => rank (s_entry s)) (plan d)).
Proof.
  unfold plan. pose proof (requested_sorted d) as H.
  induction (requested d) as [|[e b] rs IH]; simpl; [constructor|].
  simpl in H. apply StronglySorted_inv in H. destruct H as [Hs Hall].
  constructor; [constructor; [apply IH; exact Hs|]|].
  - apply Forall_forall. intros r Hr. apply in_map_iff in Hr.
    destruct Hr as [s [<- Hs']]. apply in_flat_map in Hs'.
    destruct Hs' as [[e' b'] [Hin Hs']]. rewrite Forall_forall in Hall.
    simpl in Hs'. destruct Hs' as [<- | [<- | []]]; simpl;
      apply (Hall (rank e')); apply in_map_iff; exists (e', b'); auto.
  - constructor; [apply le_n|].
    apply Forall_forall. intros r Hr. apply in_map_iff in Hr.
    destruct Hr as [s [<- Hs']]. apply in_flat_map in Hs'.
    destruct Hs' as [[e' b'] [Hin Hs']]. rewrite Forall_forall in Hall.
    simpl in Hs'. destruct Hs' as [<- | [<- | []]]; simpl;
      apply (Hall (rank e')); apply in_map_iff; exists (e', b'); auto.
Qed.

Lemma from_step_rank (cm : bool) (s : step) (c : call) :
  from_step cm s c -> call_rank c = rank (s_entry s).
Proof.
  intros [_ [-> | [_ ->]]]; [reflexivity|].
  unfold mutation_call. destruct (s_want s); reflexivity.
Qed.

Lemma plan_calls_sorted {B : Backend} (cm : bool) (z : string)
  (ss : list step) (l : locals B) :
  StronglySorted le (map (fun s => rank (s_entry s)) ss) ->
  StronglySorted le (map call_rank (plan_calls cm z ss l)).
Proof.
  revert l. induction ss as [|s ss IH]; intros l H; simpl; [constructor|].
  simpl in H. apply StronglySorted_inv in H. destruct H as [Hs Hall].
  rewrite map_app. apply sorted_app.
  - apply (sorted_constant (rank (s_entry s))). intros r Hr.
    apply in_map_iff in Hr. destruct Hr as [c [<- Hc]].
    pose proof (step_calls_from cm z s l) as Hf. rewrite Forall_forall in Hf.
    apply (from_step_rank cm). apply Hf. exact Hc.
  - apply IH. exact Hs.
  - intros x y Hx Hy. apply in_map_iff in Hx. destruct Hx as [c [<- Hc]].
    apply in_map_iff in Hy. destruct Hy as [c' [<- Hc']].
    pose proof (step_calls_from cm z s l) as Hf. rewrite Forall_forall in Hf.
    rewrite (from_step_rank cm s c (Hf c Hc)).
    pose proof (plan_calls_from cm z ss (step_fn cm z s l)) as Hf'.
    rewrite Forall_forall in Hf'. destruct (Hf' c' Hc') as [s' [Hin Hfs]].
    rewrite (from_step_rank cm s' c' Hfs).
    rewrite Forall_forall in Hall. apply Hall.
    apply in_map_iff. exists s'. auto.
Qed.

Lemma rank_bound (e : entry) : (rank e <= 9)%nat.
Proof. destruct e; simpl; lia. Qed.

(** X16.  The calls of the modification part come in the order of the
    blocks: service, port, source port, forward port, masquerade, rich
    rule, source, interface, icmp block, icmp block inversion, then the
    target, then the commit; no call of an earlier block follows a call
    of a later one. *)
Theorem calls_in_block_order {B : Backend} (check_mode fw_offline : bool)
  (z : string) (d : desired) (l : locals B) :
  exists cs,
    log (exec (modification check_mode fw_offline z d) l) = log l ++ cs
    /\ StronglySorted le (map call_rank cs).
Proof.
  exists (modification_calls check_mode z d l).
  split; [apply log_modification|].
  unfold modification_calls. rewrite !map_app.
  apply sorted_app; [apply plan_calls_sorted; apply plan_sorted| |].
  - apply sorted_app.
    + apply (sorted_constant 10). intros r Hr. apply in_map_iff in Hr.
      destruct Hr as [c [<- Hc]]. unfold target_calls in Hc.
      destruct (target d); [|destruct Hc].
      destruct (truthy (permanent d)); [|destruct Hc].
      destruct Hc as [<- | Hc]; [reflexivity|].
      destruct (String.eqb _ _); [destruct Hc|].
      destruct check_mode; [destruct Hc|].
      destruct Hc as [<- | []]. reflexivity.
    + apply (sorted_constant 11). intros r Hr. apply in_map_iff in Hr.
      destruct Hr as [c [<- Hc]]. unfold apply_calls in Hc.
      destruct (truthy (permanent d)); [|destruct Hc].
      destruct Hc as [<- | []]. reflexivity.
    + intros x y Hx Hy. apply in_map_iff in Hx. destruct Hx as [c [<- Hc]].
      apply in_map_iff in Hy. destruct Hy as [c' [<- Hc']].
      unfold target_calls in Hc. unfold apply_calls in Hc'.
      destruct (truthy (permanent d)); [|destruct Hc'].
      destruct Hc' as [<- | []]. destruct (target d); [|destruct Hc].
      destruct Hc as [<- | Hc]; [simpl; lia|].
      destruct (String.eqb _ _); [destruct Hc|].
      destruct check_mode; [destruct Hc|].
      destruct Hc as [<- | []]. simpl; lia.
  - intros x y Hx Hy. apply in_map_iff in Hx. destruct Hx as [c [<- Hc]].
    pose proof (plan_calls_from check_mode z (plan d) l) as Hf.
    rewrite Forall_forall in Hf. destruct (Hf c Hc) as [s [_ Hfs]].
    rewrite (from_step_rank check_mode s c Hfs).
    pose proof (rank_bound (s_entry s)).
    rewrite <- map_app in Hy. apply in_map_iff in Hy.
    destruct Hy as [c' [<- Hc']]. apply in_app_or in Hc'.
    assert (Hge : (10 <= call_rank c')%nat); [|lia].
    destruct Hc' as [Hc' | Hc'].
    + unfold target_calls in Hc'. destruct (target d); [|destruct Hc'].
      destruct (truthy (permanent d)); [|destruct Hc'].
      destruct Hc' as [<- | Hc']; [simpl; lia|].
      destruct (String.eqb _ _); [destruct Hc'|].
      destruct check_mode; [destruct Hc'|].
      destruct Hc' as [<- | []]. simpl; lia.
    + unfold apply_calls in Hc'. destruct (truthy (permanent d));
        [|destruct Hc']. destruct Hc' as [<- | []]. simpl; lia.
Qed.

(** ** The target block *)

(** X17.  The target block works on the permanent plane only and does
    not read [state]: with [permanent] not true it does nothing,
    whatever the target and [runtime] are; two requests with the same
    target and [permanent] are treated alike, enabled or disabled; and
    outside check mode, with [permanent] true, against a lawful
    firewalld, the settings end with the requested target, also for a
    disabled request. *)
Theorem target_block_reads {B : Backend} (cm : bool) (d d' : desired)
  (l : locals B) :
  (truthy (permanent d) = false -> exec (target_block cm d) l = l)
  /\ (target d' = target d -> permanent d' = permanent d ->
      exec (target_block cm d') l = exec (target_block cm d) l)
  /\ (Lawful B -> truthy (permanent d) = true ->
      forall t, target d = Some t ->
                getTarget B (fw_settings (exec (target_block false d) l)) = t).
Proof.
  rewrite !exec_target_block. split; [|split].
  - intro Hp. unfold target_fn. rewrite Hp. destruct (target d); reflexivity.
  - intros Ht Hp. unfold target_fn. rewrite Ht, Hp. reflexivity.
  - intros L Hp t Ht. apply (target_after_target_fn L); assumption.
Qed.

Lemma target_block_reads_witness :
  let l := Build_locals Stub.backend Stub.fresh (Stub.lookup "public" [])
             false [] in
  exec (target_block false (target_request enabled "DROP" None (Some true))) l
  = l
  /\ exec (target_block false (target_request enabled "DROP" (Some true) None))
       l
     = exec (target_block false
               (target_request disabled "DROP" (Some true) None)) l
  /\ getTarget Stub.backend (fw_settings l) <> "DROP"
  /\ getTarget Stub.backend
       (fw_settings
          (exec (target_block false
                   (target_request disabled "DROP" (Some true) None)) l))
     = "DROP".
Proof.
  intro l. split; [|split; [|split]].
  - exact (proj1 (target_block_reads false
                    (target_request enabled "DROP" None (Some true))
                    (target_request enabled "DROP" None (Some true)) l)
             eq_refl).
  - exact (proj1 (proj2 (target_block_reads false
                           (target_request disabled "DROP" (Some true) None)
                           (target_request enabled "DROP" (Some true) None) l))
             eq_refl eq_refl).
  - discriminate.
  - exact (proj2 (proj2 (target_block_reads false
                           (target_request disabled "DROP" (Some true) None)
                           (target_request disabled "DROP" (Some true) None) l))
             stub_lawful eq_refl "DROP" eq_refl).
Defined.

(** ** After a real run *)

Lemma plan_wants_of (d : desired) (s : step) :
  In s (plan d) -> s_want s = want_of d (s_entry s).
Proof.
  intro H. apply in_plan in H. destruct H as [e [b [Hr [-> | ->]]]]; simpl;
    apply (requested_want d e b Hr).
Qed.

Section Settled.

Context {B : Backend} (L : Lawful B).
Variables (fw_offline : bool) (z : string) (d : desired).

(** For either presence state, every guarded step of the plan agrees
    in the state a real run leaves, with the settings loaded afresh. *)
Lemma after_run_agrees (l0 : locals B) (cs : list call) (s : step) :
  In s (plan d) -> s_gate s = true ->
  agrees z s (second_start fw_offline z d l0 cs) = true.
Proof.
  intros Hin Hg. unfold agrees.
  assert (Hplan : observe z (s_plane s) (s_entry s)
                    (plan_fn false z (plan d) l0) = s_want s).
  { rewrite (plan_wants_of d s Hin).
    apply (observe_plan_fn L).
    - intros s' Hs' _ <-. apply (plan_wants_of d s' Hs').
    - left. exists s. auto. }
  rewrite <- (observe_target_fn L z d) in Hplan.
  rewrite <- Hplan. apply eqb_true_iff.
  unfold second_start, after_first. rewrite modification_plan.
  unfold observe. simpl. rewrite fw_apply_fn.
  pose proof (plan_gate d s Hin) as Hpg.
  destruct (s_plane s).
  - destruct (truthy (permanent d)); [apply (save_runtime _ L)|reflexivity].
  - rewrite Hg in Hpg. rewrite <- Hpg. apply (load_save_query _ L).
Qed.

Lemma after_run_settled (l0 : locals B) (cs : list call) :
  ~ plane_disagrees z d (fw (second_start fw_offline z d l0 cs))
      (fw_settings (second_start fw_offline z d l0 cs)).
Proof.
  intros [[e [b [Hr H]]] | [Hp [t [Ht Hne]]]].
  - destruct H as [[Hg Hq] | [Hg Hq]].
    + pose proof (after_run_agrees l0 cs
                    {| s_plane := Runtime; s_gate := rt_gate_of d e;
                       s_entry := e; s_want := b; s_tmo := tmo_of d e;
                       s_mark := rt_mark_of e b |}) as Ha.
      unfold agrees, observe in Ha. simpl in Ha. apply Hq.
      apply eqb_prop. apply Ha; [|exact Hg].
      apply in_plan. exists e, b. auto.
    + pose proof (after_run_agrees l0 cs
                    {| s_plane := Permanent; s_gate := truthy (permanent d);
                       s_entry := e; s_want := b; s_tmo := None;
                       s_mark := true |}) as Ha.
      unfold agrees, observe in Ha. simpl in Ha. apply Hq.
      apply eqb_prop. apply Ha; [|exact Hg].
      apply in_plan. exists e, b. auto.
  - apply Hne. apply (second_start_target L); assumption.
Qed.

(** Run again, in check mode or not, nothing is left to change. *)
Lemma rerun_unchanged (cm : bool) (l0 : locals B) (cs : list call) :
  changed (exec (modification cm fw_offline z d)
             (second_start fw_offline z d l0 cs)) = false.
Proof.
  rewrite modification_plan, changed_apply_fn.
  destruct (plan_fn_agreeing cm z (plan d) (second_start fw_offline z d l0 cs)
              (after_run_agrees l0 cs)) as [_ [Hst Hch]].
  unfold target_fn. destruct (target d) as [t|] eqn:Ht; [|exact Hch].
  destruct (truthy (permanent d)) eqn:Hp; [|exact Hch].
  rewrite Hst, (second_start_target L fw_offline z d l0 cs t Hp Ht),
    String.eqb_refl.
  exact Hch.
Qed.

End Settled.

(** What a completed real run leaves behind, as the next run finds it. *)
Lemma next_session {B : Backend} (L : Lawful B) (env : environment)
  (p : params) (w w' : world B) (c : bool) :
  main env false p w = (Ok c, w') ->
  exists d0 zn st w1 v1,
    HAS_FIREWALLD env = true
    /\ rbind (parse_params env p) validate = Ok d0
    /\ connect env d0 w
       = (Ok (negb (connected env), zn, session_request env d0, st), w1)
    /\ connect env d0 w'
       = (Ok (negb (connected env), zn, session_request env d0,
              load (negb (connected env)) zn (fw_state w')), v1)
    /\ fw_state v1 = fw_state w'
    /\ {| fw := fw_state v1;
          fw_settings := load (negb (connected env)) zn (fw_state w');
          changed := false; log := calls v1 |}
       = second_start (negb (connected env)) zn (session_request env d0)
           {| fw := fw_state w1; fw_settings := st; changed := false;
              log := calls w1 |} (calls v1).
Proof.
  intro H. apply main_ok in H.
  destruct H as (d0 & off & zn & st & w1 & Hp & Hc & -> & _ & Hw').
  pose proof (connect_ok env _ _ _ _ Hc) as Hok. simpl in Hok.
  destruct Hok as (_ & _ & Hfw & _).
  set (l0 := {| fw := fw_state w1; fw_settings := st; changed := false;
                log := calls w1 |}) in *.
  pose proof (after_first_zones L (negb (connected env)) zn
                (session_request env d0) l0) as Hz.
  simpl in Hz. rewrite Hfw in Hz.
  assert (Hz1 : same_zones (fw_state w) (fw_state w')).
  { subst w'. exact Hz. }
  destruct (connect_again env d0 _ w w1 w' _ zn st Hc Hz1)
    as (Hhas & _ & v1 & Hc2 & Hfw2).
  exists d0, zn, st, w1, v1. repeat split; try assumption.
  unfold second_start, after_first. rewrite Hfw2. subst w'. reflexivity.
Qed.

(** X18.  Against a lawful firewalld, a real run that completes leaves
    every plane it works on as requested, for an enabled and for a
    disabled request: connecting again succeeds on the same zone, and
    no requested entry and no requested target disagrees any more.  In
    particular what an enabled run added a disabled run of the same
    entries removes. *)
Theorem run_converges {B : Backend} (L : Lawful B) (env : environment)
  (p : params) (w w' : world B) (c : bool) :
  main env false p w = (Ok c, w') ->
  exists d0 off zn st v1,
    rbind (parse_params env p) validate = Ok d0
    /\ connect env d0 w' = (Ok (off, zn, session_request env d0, st), v1)
    /\ ~ plane_disagrees zn (session_request env d0) (fw_state w') st.
Proof.
  intro H. destruct (next_session L env p w w' c H)
    as (d0 & zn & st & w1 & v1 & _ & Hp & _ & Hc2 & Hfw2 & Hl).
  exists d0, (negb (connected env)), zn,
    (load (negb (connected env)) zn (fw_state w')), v1.
  split; [exact Hp|]. split; [exact Hc2|].
  pose proof (after_run_settled L (negb (connected env)) zn
                (session_request env d0)
                {| fw := fw_state w1; fw_settings := st; changed := false;
                   log := calls w1 |} (calls v1)) as Hs.
  rewrite <- Hl in Hs. simpl in Hs. rewrite Hfw2 in Hs. exact Hs.
Qed.

Lemma run_converges_witness :
  let p := Stub.ask disabled ["http"] ["10.0.0.1"] 0 (Some true) (Some true) None in
  let w := Stub.start (Stub.serving [Service "http"; Source "10.0.0.1"]) in
  exists d0 off zn st v1,
    rbind (parse_params Stub.online p) validate = Ok d0
    /\ connect Stub.online d0 (snd (main Stub.online false p w))
       = (Ok (off, zn, session_request Stub.online d0, st), v1)
    /\ ~ plane_disagrees zn (session_request Stub.online d0)
           (fw_state (snd (main Stub.online false p w))) st.
Proof.
  intros p w.
  exact (run_converges stub_lawful Stub.online p w _ _ eq_refl).
Defined.

(** X19.  Against a lawful firewalld, after a real run that completed,
    for an enabled or a disabled request, the same request run again
    reports [changed = False], in check mode as well as outside it. *)
Theorem rerun_reports_no_change {B : Backend} (L : Lawful B)
  (env : environment) (check_mode : bool) (p : params) (w w' : world B)
  (c : bool) :
  main env false p w = (Ok c, w') ->
  exists w2, main env check_mode p w' = (Ok false, w2).
Proof.
  intro H. destruct (next_session L env p w w' c H)
    as (d0 & zn & st & w1 & v1 & Hhas & Hp & _ & Hc2 & Hfw2 & Hl).
  eexists. unfold main. rewrite Hhas, Hp, Hc2. simpl. unfold modify.
  f_equal. f_equal. rewrite Hl.
  apply (rerun_unchanged L).
Qed.

Lemma rerun_reports_no_change_witness :
  let p := Stub.ask disabled ["http"] ["10.0.0.1"] 0 (Some true) (Some true) None in
  let w := Stub.start (Stub.serving [Service "http"; Source "10.0.0.1"]) in
  exists w2,
    main Stub.online true p (snd (main Stub.online false p w)) = (Ok false, w2).
Proof.
  intros p w.
  exact (rerun_reports_no_change stub_lawful Stub.online true p w _ _ eq_refl).
Defined.

(** ** Check mode *)

Section DryRun.

Context {B : Backend}.
Variables (z : string) (d : desired).





Lemma step_calls_reads (cm : bool) (s : step) (l : locals B) :
  filter is_read (step_calls cm z s l) = step_reads s.
Proof.
  unfold step_calls, step_reads, mutation_call.
  destruct (s_gate s); [|reflexivity].
  destruct (agrees z s l); [reflexivity|].
  destruct cm; [reflexivity|]. destruct (s_want s); reflexivity.
Qed.

Lemma plan_calls_reads (cm : bool) (ss : list step) (l : locals B) :
  filter is_read (plan_calls cm z ss l) = flat_map step_reads ss.
Proof.
  revert l. induction ss as [|s ss IH]; intro l; [reflexivity|].
  simpl. rewrite filter_app, step_calls_reads, IH. reflexivity.
Qed.

Lemma modification_calls_reads (cm : bool) (l : locals B) :
  filter is_read (modification_calls cm z d l) = read_calls d.
Proof.
  unfold modification_calls, read_calls.
  rewrite !filter_app, plan_calls_reads. f_equal. f_equal.
  - unfold target_calls, target_reads.
    destruct (target d) as [t|]; [|reflexivity].
    destruct (truthy (permanent d)); [|reflexivity].
    simpl. destruct (String.eqb _ t); [reflexivity|].
    destruct cm; reflexivity.
  - unfold apply_calls. destruct (truthy (permanent d)); reflexivity.
Qed.

Lemma modification_calls_dry (l : locals B) :
  modification_calls true z d l = read_calls d.
Proof.
  rewrite <- (modification_calls_reads true l). symmetry.
  apply forallb_filter_id. apply forallb_forall.
  apply (proj1 (Forall_forall (fun c => is_read c = true) _)).
  apply modification_calls_forall; try reflexivity; try discriminate.
  intros s c _ [_ [-> | [Hc _]]]; [reflexivity|discriminate].
Qed.

End DryRun.

Lemma bookkeeping_reads (cs : list call) :
  forallb is_bookkeeping cs = true -> filter is_read cs = cs.
Proof.
  intro H. apply forallb_filter_id. apply forallb_forall.
  apply (proj1 (Forall_forall (fun c => is_read c = true) _)).
  apply bookkeeping_forall; [|exact H].
  intros [] Hc; try discriminate; reflexivity.
Qed.




(** X21.  When a check-mode run and the real run on the same firewalld
    both complete, the calls of the check-mode run are the calls of the
    real run with the add, remove and setTarget calls left out: both
    make the same queries in the same order, whatever the answers, and
    both end with the same commit. *)
Theorem check_mode_calls {B : Backend} (env : environment) (p : params)
  (w w1 w2 : world B) (c c' : bool) :
  main env true p w = (Ok c, w1) ->
  main env false p w = (Ok c', w2) ->
  exists cs cs',
    calls w1 = calls w ++ cs
    /\ calls w2 = calls w ++ cs'
    /\ cs = filter is_read cs'.
Proof.
  unfold main. destruct (HAS_FIREWALLD env); simpl; [|discriminate].
  destruct (rbind (parse_params env p) validate) as [d0| |];
    try discriminate.
  destruct (connect env d0 w) as [[s| |] w0] eqn:Hc; try discriminate.
  destruct s as [[[off zn] d] st].
  destruct (connect_calls env d0 w w0 _ Hc) as [_ [bk [Hbk Hb]]].
  unfold modify. intros H1 H2. inversion H1; inversion H2; subst; simpl.
  rewrite !log_modification. simpl.
  exists (bk ++ modification_calls true zn d
                  (Build_locals B (fw_state w0) st false (calls w0))),
         (bk ++ modification_calls false zn d
                  (Build_locals B (fw_state w0) st false (calls w0))).
  rewrite Hbk, <- !app_assoc. split; [reflexivity|]. split; [reflexivity|].
  rewrite filter_app, (bookkeeping_reads bk Hb), modification_calls_reads,
    modification_calls_dry.
  reflexivity.
Qed.

Lemma check_mode_calls_witness :
  let p := Stub.ask enabled ["http"] ["10.0.0.1"] 0 (Some true) (Some true) None in
  let w := Stub.start Stub.fresh in
  exists cs cs',
    calls (snd (main Stub.online true p w)) = calls w ++ cs
    /\ calls (snd (main Stub.online false p w)) = calls w ++ cs'
    /\ cs = filter is_read cs'.
Proof.
  intros p w.
  exact (check_mode_calls Stub.online p w _ _ _ _ eq_refl eq_refl).
Defined.

(** X22.  Against a lawful firewalld a check-mode run predicts the real
    run: it ends the same way, with the same [changed] or the same
    failure. *)
Theorem check_mode_predicts {B : Backend} (L : Lawful B) (env : environment)
  (p : params) (w w' : world B) (r : result bool) :
  main env true p w = (r, w') ->
  exists w2, main env false p w = (r, w2).
Proof.
  intro H. exists (snd (main env false p w)).
  pose proof (check_mode_same_result L env p w) as E.
  rewrite H in E. simpl in E. rewrite E.
  destruct (main env false p w); reflexivity.
Qed.

Lemma check_mode_predicts_witness :
  let p := Stub.ask disabled ["http"] ["10.0.0.1"] 0 (Some true) (Some true) None in
  let w := Stub.start (Stub.serving [Source "10.0.0.1"]) in
  exists w2, main Stub.online false p w = (fst (main Stub.online true p w), w2).
Proof.
  intros p w.
  exact (check_mode_predicts stub_lawful Stub.online p w _ _ eq_refl).
Defined.

(** ** With firewalld not running *)

Lemma parse_params_with_planes (env : environment) (pm rt : option bool)
  (p : params) :
  parse_params env (with_planes pm rt p)
  = match parse_params env p with
    | Ok d => Ok (set_permanent pm (set_runtime rt d))
    | FailJson m => FailJson m
    | Raised e => Raised e
    end.
Proof.
  unfold parse_params. simpl.
  destruct (rmap parse_port (params_port p)); simpl; try reflexivity.
  destruct (rmap parse_port (params_source_port p)); simpl; try reflexivity.
  destruct (rmap parse_forward_port (params_forward_port p)); simpl;
    try reflexivity.
  destruct (rmap (parse_rich_rule env) (params_rich_rule p)); reflexivity.
Qed.

Lemma connect_offline_planes {B : Backend} (env : environment)
  (a b pm rt : option bool) (d : desired) (w : world B) :
  connected env = false ->
  connect env (set_runtime a (set_permanent pm (set_runtime rt d))) w
  = connect env (set_runtime b d) w.
Proof.
  intro H. unfold connect. rewrite H. reflexivity.
Qed.

(** X23.  With firewalld not running, the values the caller gave for
    [permanent] and [runtime] matter to validation only: two requests
    that differ in nothing else and both pass validation run alike, with
    the same calls, the same result and the same firewalld afterwards. *)
Theorem offline_ignores_planes {B : Backend} (env : environment)
  (check_mode : bool) (pm rt : option bool) (p : params) (d d' : desired)
  (w : world B) :
  connected env = false ->
  rbind (parse_params env p) validate = Ok d ->
  rbind (parse_params env (with_planes pm rt p)) validate = Ok d' ->
  main env check_mode (with_planes pm rt p) w = main env check_mode p w.
Proof.
  intros Hconn Hp Hp'. unfold main. rewrite Hp, Hp'.
  destruct (negb (HAS_FIREWALLD env)); [reflexivity|].
  apply rbind_ok in Hp. destruct Hp as [d1 [Hd1 Hv]].
  apply validate_ok in Hv.
  rewrite parse_params_with_planes, Hd1 in Hp'. simpl in Hp'.
  apply validate_ok in Hp'. subst d d'.
  rewrite (connect_offline_planes env _ (runtime_after d1) pm rt d1 w Hconn).
  reflexivity.
Qed.

Lemma offline_ignores_planes_witness :
  let p := Stub.ask enabled ["http"] ["10.0.0.1"] 0 None None (Some true) in
  main Stub.stopped false (with_planes (Some false) (Some true) p)
    (Stub.start Stub.fresh)
  = main Stub.stopped false p (Stub.start Stub.fresh).
Proof.
  intro p.
  exact (offline_ignores_planes Stub.stopped false (Some false) (Some true)
           p _ _ (Stub.start Stub.fresh) eq_refl eq_refl eq_refl).
Defined.

(** X24.  With firewalld not running, a validated request is declined
    unless [offline] is true, and refused when the firewalld version is
    below 0.3.9; in both cases only the client was created.  A run that
    completes started the offline object right after creating the
    client, worked on the permanent plane and ended with the commit. *)
Theorem offline_gate {B : Backend} (env : environment) (check_mode : bool)
  (p : params) (d : desired) (w : world B) :
  HAS_FIREWALLD env = true -> connected env = false ->
  rbind (parse_params env p) validate = Ok d ->
  (truthy (params_offline p) = false ->
   main env check_mode p w = (FailJson msg_declined, note FirewallClient w))
  /\ (truthy (params_offline p) = true -> version_lt env "0.3.9" = true ->
      main env check_mode p w
      = (FailJson (msg_offline_version env), note FirewallClient w))
  /\ (forall c w', main env check_mode p w = (Ok c, w') ->
      truthy (params_offline p) = true /\ version_lt env "0.3.9" = false
      /\ exists cs,
           calls w'
           = calls w ++ FirewallClient :: Start :: GetDefaultZone :: cs
               ++ [Commit]
           /\ Forall (fun c => is_commit c = false) cs).
Proof.
  intros Hhas Hconn Hp.
  assert (Hoff : offline d = params_offline p).
  { pose proof Hp as H. apply rbind_ok in H. destruct H as [d1 [Hd1 Hv]].
    apply validate_ok in Hv. apply parse_params_ok in Hd1. subst d. simpl.
    tauto. }
  unfold main. rewrite Hhas, Hp. simpl.
  unfold connect. rewrite Hhas, Hconn, Hoff. simpl.
  split; [|split].
  - intros ->. reflexivity.
  - intros -> ->. reflexivity.
  - intros c w'. destruct (truthy (params_offline p)); simpl; [|discriminate].
    destruct (version_lt env "0.3.9"); [discriminate|].
    unfold offline_zone.
    destruct (zone _) as [zn|]; simpl.
    + destruct (zone_in zn _); simpl; [|discriminate].
      intro H. inversion H; subst; clear H. split; [reflexivity|].
      split; [reflexivity|]. simpl. rewrite log_modification. simpl.
      destruct (modification_calls_commit check_mode zn
                  (set_permanent (Some true) (set_runtime (Some false) d))
                  (Build_locals B (fw_state w) (get_zone_config B zn (fw_state w))
                     false
                     (((((calls w ++ [FirewallClient]) ++ [Start])
                          ++ [GetDefaultZone]) ++ [GetZones]) ++ [GetSettings])))
        as [before [Hm Hbefore]].
      rewrite Hm. unfold apply_calls. simpl.
      exists (GetZones :: GetSettings :: before).
      rewrite <- !app_assoc. simpl. split; [reflexivity|].
      repeat constructor. exact Hbefore.
    + intro H. inversion H; subst; clear H. split; [reflexivity|].
      split; [reflexivity|]. simpl. rewrite log_modification. simpl.
      destruct (modification_calls_commit check_mode
                  (get_default_zone B (fw_state w))
                  (set_permanent (Some true) (set_runtime (Some false) d))
                  (Build_locals B (fw_state w)
                     (get_zone_config B (get_default_zone B (fw_state w))
                        (fw_state w))
                     false
                     ((((calls w ++ [FirewallClient]) ++ [Start])
                         ++ [GetDefaultZone]) ++ [GetSettings])))
        as [before [Hm Hbefore]].
      rewrite Hm. unfold apply_calls. simpl.
      exists (GetSettings :: before).
      rewrite <- !app_assoc. simpl. split; [reflexivity|].
      repeat constructor. exact Hbefore.
Qed.

Lemma offline_gate_witness :
  let p := Stub.ask enabled ["http"] [] 0 None None None in
  main Stub.stopped false p (Stub.start Stub.fresh)
  = (FailJson msg_declined, note FirewallClient (Stub.start Stub.fresh)).
Proof.
  intro p.
  exact (proj1 (offline_gate Stub.stopped false p _ (Stub.start Stub.fresh)
                  eq_refl eq_refl eq_refl) eq_refl).
Defined.
